(** * GPTSwarm demos: team planning, topology, convergence and analytics

    A shallow embedding of the decision logic of the GPTSwarm demos
    ([src/demos/comprehensive_demo.py], [src/demos/interactive_visualizer.py],
    [src/demos/research_assistant_demo.py]) and the properties the
    specification states about it.

    Python [float] values are modelled twice: exactly, as rationals [Q],
    for statements over all inputs that hold whatever the rounding (orders,
    ranges with a margin, counts), and as IEEE 754 binary64 values with
    Rocq's primitive floats, for the runs on concrete inputs and for the
    analytics, where the rounding of an average decides which pattern is
    the best.  Python [str]
    is [string], Python [int] is [Z], lists are [list], and a [dict] whose
    iteration order matters is an association list in insertion order. *)

From Stdlib Require Import String Ascii List ZArith QArith Qminmax Lia Lqa Bool.
From Stdlib Require Import DecimalString Floats.
Import ListNotations.
Local Open Scope string_scope.
Local Open Scope list_scope.

Set Warnings "-inexact-float".

(** ** Python values and operations shared by the demos *)

Module Py.

(** The exceptions the modelled code can raise. *)
Inductive error : Type :=
| ZeroDivisionError
| KeyError (key : string).

Definition result (A : Type) : Type := (error + A)%type.

Definition ret {A : Type} (a : A) : result A := inr a.

Definition raise {A : Type} (e : error) : result A := inl e.

Definition bind {A B : Type} (m : result A) (f : A -> result B) : result B :=
  match m with
  | inl e => inl e
  | inr a => f a
  end.

(** [len(l)] as a Python [int]. *)
Definition len {A : Type} (l : list A) : Z := Z.of_nat (length l).

(** [a < b] on numbers. *)
Definition Qltb (a b : Q) : bool := negb (Qle_bool b a).

(** True division [a / b]; Python raises on a zero divisor. *)
Definition div (a b : Q) : result Q :=
  if Qeq_bool b 0 then raise ZeroDivisionError else ret (a / b).

(** Two-argument [min(a, b)]: [b] when [b < a], else [a]. *)
Definition min (a b : Q) : Q := if Qltb b a then b else a.

(** [sum(l)]: starts from [0] and adds from the left. *)
Definition sum (l : list Q) : Q := fold_left Qplus l 0.

(** [range(lo, hi)] over non-negative bounds; empty when [hi <= lo]. *)
Definition range (lo hi : nat) : list nat := seq lo (hi - lo).

(** [x in l] for a list of strings. *)
Definition contains_str (x : string) (l : list string) : bool :=
  existsb (String.eqb x) l.

(** [d.get(k, default)] on a dict kept in insertion order. *)
Fixpoint dict_get {V : Type} (d : list (string * V)) (k : string) (default : V) : V :=
  match d with
  | [] => default
  | (k', v) :: rest => if String.eqb k k' then v else dict_get rest k default
  end.

(** [d[k]]: raises [KeyError] when the key is absent. *)
Fixpoint getitem {V : Type} (d : list (string * V)) (k : string) : result V :=
  match d with
  | [] => raise (KeyError k)
  | (k', v) :: rest => if String.eqb k k' then ret v else getitem rest k
  end.

(** [k in d] for a dict. *)
Definition has_key {V : Type} (d : list (string * V)) (k : string) : bool :=
  existsb (fun kv => String.eqb k (fst kv)) d.

(** [l[:k]]; a negative [k] counts from the end. *)
Definition slice_to {A : Type} (l : list A) (k : Z) : list A :=
  if (0 <=? k)%Z then firstn (Z.to_nat k) l
  else firstn (Z.to_nat (len l + k)) l.

(** [needle in hay] for strings: substring test. *)
Fixpoint starts_with (p s : string) : bool :=
  match p, s with
  | EmptyString, _ => true
  | String _ _, EmptyString => false
  | String a p', String b s' => Ascii.eqb a b && starts_with p' s'
  end.

Fixpoint str_in (needle hay : string) : bool :=
  starts_with needle hay ||
  match hay with
  | EmptyString => false
  | String _ hay' => str_in needle hay'
  end.

(** [s.lower()] on ASCII text: [A]..[Z] go to [a]..[z], every other
    character is kept. *)
Definition lower_char (c : ascii) : ascii :=
  let n := nat_of_ascii c in
  if (65 <=? n)%nat && (n <=? 90)%nat then ascii_of_nat (n + 32) else c.

Fixpoint lower (s : string) : string :=
  match s with
  | EmptyString => EmptyString
  | String c s' => String (lower_char c) (lower s')
  end.

(** [str(i)] for a non-negative [int]. *)
Definition str_of_nat (i : nat) : string := NilEmpty.string_of_uint (Nat.to_uint i).

(** [float(n)] for a non-negative [int]; exact below 2^53. *)
Definition float_of_int (n : Z) : float := PrimFloat.of_uint63 (Uint63.of_Z n).

(** Two-argument [min(a, b)] on binary64: [b] when [b < a], else [a]. *)
Definition minF (a b : float) : float := if PrimFloat.ltb b a then b else a.

End Py.

Notation "x <- m ;; k" := (Py.bind m (fun x => k))
  (at level 61, m at next level, right associativity).

(** Every element of a list is related to the next one. *)
Inductive chain {A : Type} (R : A -> A -> Prop) : list A -> Prop :=
| chain_nil : chain R []
| chain_one : forall x, chain R [x]
| chain_cons : forall x y l, R x y -> chain R (y :: l) -> chain R (x :: y :: l).

(** ** The comprehensive demo: [create_demo_graph] and [simulate_optimization] *)

(** A graph configuration as both graph builders read it: the fields
    ["agents"] and ["connections"] of the [config] dict. *)
Record config : Type := {
  agents : list string;
  connections : string
}.

Module ComprehensiveDemo.

Record graph : Type := {
  nodes : Z;
  edges : Z;
  connectivity : Q;
  agent_types : list string
}.

Definition create_demo_graph (config : config) : Py.result graph :=
  let agents := config.(agents) in
  let num_agents := Py.len agents in
  ec <-
    (if config.(connections) =? "sequential" then
       let edges := (num_agents - 1)%Z in
       connectivity <-
         Py.div (inject_Z edges) (inject_Z (num_agents * (num_agents - 1)) / 2) ;;
       Py.ret (edges, connectivity)
     else if config.(connections) =? "full" then
       let edges := (num_agents * (num_agents - 1) / 2)%Z in
       Py.ret (edges, 1)
     else if config.(connections) =? "hub" then
       let edges := (num_agents - 1)%Z in
       connectivity <-
         Py.div (inject_Z edges) (inject_Z (num_agents * (num_agents - 1)) / 2) ;;
       Py.ret (edges, connectivity)
     else
       Py.ret (num_agents, 5 # 10)) ;;
  Py.ret {| nodes := num_agents;
            edges := fst ec;
            connectivity := snd ec;
            agent_types := agents |}.

(** *** Convergence simulator: [simulate_optimization] *)

Section Generic.
(** The arithmetic the loop uses, kept abstract so that the same loop runs
    on exact rationals and on binary64 floats. *)
Variable num : Type.
Variables (add sub mul : num -> num -> num).
Variable ltb : num -> num -> bool.
Variable leb : num -> num -> bool.
Variables (c_0_15 c_0_01 c_0_95 : num).

(** Python's two-argument [min(a, b)]: [b] when [b < a], else [a]. *)
Definition py_min (a b : num) : num := if ltb b a then b else a.

(** One pass through the body of [for _ in range(10)], up to the append. *)
Definition step (target current : num) : num :=
  let improvement := add (mul (sub target current) c_0_15) c_0_01 in
  py_min (add current improvement) target.

(** The rest of the [for] loop with [iters] iterations still to run; the
    result is what the loop appends to [performance_history]. *)
Fixpoint iterate (iters : nat) (target current : num) : list num :=
  match iters with
  | O => []
  | S k =>
      let current' := step target current in
      if leb (mul target c_0_95) current'   (* current >= target * 0.95 *)
      then [current']
      else current' :: iterate k target current'
  end.

Definition simulate_optimization (initial target : num) : list num :=
  initial :: iterate 10 target initial.
End Generic.

(** Exact arithmetic. *)
Definition stepQ : Q -> Q -> Q :=
  step Q Qplus Qminus Qmult Py.Qltb (15 # 100) (1 # 100).

Definition simulateQ : Q -> Q -> list Q :=
  simulate_optimization Q Qplus Qminus Qmult
    Py.Qltb Qle_bool (15 # 100) (1 # 100) (95 # 100).

(** Binary64 arithmetic, as CPython's [float]. *)
Definition stepF : float -> float -> float :=
  step float PrimFloat.add PrimFloat.sub PrimFloat.mul PrimFloat.ltb
    0.15%float 0.01%float.

Definition simulateF : float -> float -> list float :=
  simulate_optimization float PrimFloat.add PrimFloat.sub PrimFloat.mul
    PrimFloat.ltb PrimFloat.leb 0.15%float 0.01%float 0.95%float.

End ComprehensiveDemo.

(** ** Graph data of the visualizer: [GraphVisualizer._generate_graph_data] *)

Module GraphVisualizer.

Record node : Type := {
  node_id : nat;
  label : string;
  type : string;
  color : string;
  size : Z
}.

Record edge : Type := {
  edge_id : nat;
  from : nat;
  to : nat;
  weight : Q;
  edge_color : string
}.

Record stats : Type := {
  num_nodes : Z;
  num_edges : Z;
  connectivity : Q
}.

Record graph_data : Type := {
  nodes : list node;
  edges : list edge;
  graph_stats : stats
}.

Definition _get_agent_color (agent_type : string) : string :=
  Py.dict_get
    [("IO", "#FF6B6B"); ("TOT", "#4ECDC4"); ("COT", "#45B7D1");
     ("WEB", "#96CEB4"); ("TOOL", "#FFEAA7")]
    agent_type "#DDA0DD".

(** [enumerate(agents)]. *)
Definition enumerate {A : Type} (l : list A) : list (nat * A) :=
  combine (seq 0 (length l)) l.

Definition make_node (ia : nat * string) : node :=
  let (i, agent_type) := ia in
  {| node_id := i;
     label := (agent_type ++ "_" ++ Py.str_of_nat i)%string;
     type := agent_type;
     color := _get_agent_color agent_type;
     size := if agent_type =? "TOT" then 20 else 15 |}.

(** One [edges.append({...}); edge_id += 1], on the pair (edges, edge_id). *)
Definition append_edge (w : Q) (c : string)
  (st : list edge * nat) (ft : nat * nat) : list edge * nat :=
  let (edges, edge_id) := st in
  (edges ++ [{| edge_id := edge_id; from := fst ft; to := snd ft;
                weight := w; edge_color := c |}],
   S edge_id).

(** The index pairs each connection pattern's loops visit, in loop order. *)
Definition sequential_pairs (num_agents : nat) : list (nat * nat) :=
  map (fun i => (i, i + 1)%nat) (Py.range 0 (num_agents - 1)).

Definition full_pairs (num_agents : nat) : list (nat * nat) :=
  flat_map (fun i => map (fun j => (i, j)) (Py.range (i + 1) num_agents))
           (Py.range 0 num_agents).

Definition hub_pairs (num_agents : nat) : list (nat * nat) :=
  let hub_node := 0%nat in
  map (fun i => (hub_node, i)) (Py.range 1 num_agents).

Definition _generate_graph_data (config : config) : Py.result graph_data :=
  let agents := config.(agents) in
  let num_agents := length agents in
  let nodes := map make_node (enumerate agents) in
  let start : list edge * nat := ([], 0%nat) in
  let edges :=
    fst (if config.(connections) =? "sequential" then
           fold_left (append_edge (8 # 10) "#2E8B57") (sequential_pairs num_agents) start
         else if config.(connections) =? "full" then
           fold_left (append_edge (6 # 10) "#4169E1") (full_pairs num_agents) start
         else if config.(connections) =? "hub" then
           fold_left (append_edge (7 # 10) "#DC143C") (hub_pairs num_agents) start
         else start) in
  connectivity <-
    (if (1 <? num_agents)%nat then
       Py.div (inject_Z (Py.len edges))
              (inject_Z (Z.of_nat num_agents * (Z.of_nat num_agents - 1)) / 2)
     else Py.ret 0) ;;
  Py.ret {| nodes := nodes;
            edges := edges;
            graph_stats := {| num_nodes := Z.of_nat num_agents;
                              num_edges := Py.len edges;
                              connectivity := connectivity |} |}.

(** The end points of an edge, as a pair. *)
Definition ends (e : edge) : nat * nat := (from e, to e).

End GraphVisualizer.

(** ** Complexity analysis: [ResearchTask] *)

Module ResearchTask.

(** The dict [analyze_complexity] returns. *)
Record analysis : Type := {
  complexity : string;
  skills : list string;
  estimated_time : Z;
  agent_count : Z
}.

Definition complexity_indicators : list (string * list string) :=
  [("high", ["compare"; "analyze"; "evaluate"; "synthesize"; "integrate"; "comprehensive"]);
   ("medium", ["explain"; "describe"; "summarize"; "overview"; "review"]);
   ("low", ["what"; "when"; "where"; "who"; "define"; "list"])].

Definition _estimate_time (complexity : string) : Z :=
  let time_estimates := [("low", 60%Z); ("medium", 180%Z); ("high", 600%Z)] in
  Py.dict_get time_estimates complexity 180%Z.

Definition _estimate_agent_count (complexity : string) (skills : list string) : Z :=
  let base_count := [("low", 2%Z); ("medium", 3%Z); ("high", 4%Z)] in
  let skill_bonus := (Py.len skills / 2)%Z in
  Z.min (Py.dict_get base_count complexity 3%Z + skill_bonus) 6.

(** [sum(1 for indicator in indicators if indicator in query_lower)]. *)
Definition indicator_score (query_lower : string) (indicators : list string) : Z :=
  Py.len (filter (fun indicator => Py.str_in indicator query_lower) indicators).

(** [any(word in query_lower for word in words)]. *)
Definition any_word (query_lower : string) (words : list string) : bool :=
  existsb (fun word => Py.str_in word query_lower) words.

(** The five [if any(...): skills.append(...)] statements, in order. *)
Definition skill_rules : list (list string * string) :=
  [(["search"; "find"; "research"], "research");
   (["analyze"; "analysis"; "compare"], "analysis");
   (["code"; "program"; "algorithm"], "coding");
   (["synthesize"; "combine"; "integrate"], "synthesis");
   (["creative"; "design"; "innovative"], "creativity")].

Definition required_skills (query_lower : string) : list string :=
  fold_left
    (fun skills rule =>
       if any_word query_lower (fst rule) then skills ++ [snd rule] else skills)
    skill_rules [].

(** The returned dict, from the complexity and the skills found. *)
Definition make_analysis (complexity : string) (skills : list string) : analysis :=
  {| complexity := complexity;
     skills := skills;
     estimated_time := _estimate_time complexity;
     agent_count := _estimate_agent_count complexity skills |}.

Definition analyze_complexity (query : string) : Py.result analysis :=
  let query_lower := Py.lower query in
  let complexity_scores :=
    map (fun li => (fst li, indicator_score query_lower (snd li)))
        complexity_indicators in
  high <- Py.getitem complexity_scores "high" ;;
  complexity <-
    (if (0 <? high)%Z then Py.ret "high"
     else
       medium <- Py.getitem complexity_scores "medium" ;;
       if (0 <? medium)%Z then Py.ret "medium" else Py.ret "low") ;;
  Py.ret (make_analysis complexity (required_skills query_lower)).

End ResearchTask.

(** ** Team formation: [AgentTeam] *)

Module AgentTeam.

(** The dict [form_team] returns. *)
Record team_config : Type := {
  agents : list string;
  formation_strategy : string;
  collaboration_pattern : string;
  estimated_performance : Q
}.

(** The capability catalog of [form_team], in dict order. *)
Definition agent_capabilities : list (string * list string) :=
  [("IO", ["research"; "general_reasoning"; "synthesis"]);
   ("TOT", ["analysis"; "deep_reasoning"; "planning"]);
   ("WEB", ["web_search"; "information_gathering"; "fact_checking"]);
   ("CODE", ["coding"; "technical_analysis"; "algorithm_design"]);
   ("CREATIVE", ["creativity"; "brainstorming"; "design"]);
   ("CRITIC", ["evaluation"; "quality_check"; "verification"])].

(** The skill map of [_estimate_performance], in dict order. *)
Definition agent_skill_map : list (string * list string) :=
  [("IO", ["research"; "synthesis"]);
   ("TOT", ["analysis"; "deep_reasoning"]);
   ("WEB", ["web_search"; "information_gathering"]);
   ("CODE", ["coding"; "technical_analysis"]);
   ("CREATIVE", ["creativity"; "design"]);
   ("CRITIC", ["evaluation"; "verification"])].

(** The inner [for agent_type, capabilities in ...items()] loop: the first
    entry that has the skill and is not yet selected, if any. *)
Fixpoint first_capable (catalog : list (string * list string))
  (skill : string) (selected_agents : list string) : option string :=
  match catalog with
  | [] => None
  | (agent_type, capabilities) :: rest =>
      if Py.contains_str skill capabilities
         && negb (Py.contains_str agent_type selected_agents)
      then Some agent_type
      else first_capable rest skill selected_agents
  end.

(** The outer [for skill in skills] loop. *)
Definition add_specialized (skills selected_agents : list string) : list string :=
  fold_left
    (fun selected skill =>
       match first_capable agent_capabilities skill selected with
       | Some agent_type => selected ++ [agent_type]
       | None => selected
       end)
    skills selected_agents.

(** [while len(selected_agents) < agent_count: selected_agents.append("IO")];
    [missing] bounds the iterations left and is [agent_count - len] at entry. *)
Fixpoint add_IO (missing : nat) (agent_count : Z) (selected_agents : list string)
  : list string :=
  match missing with
  | O => selected_agents
  | S k =>
      if (Py.len selected_agents <? agent_count)%Z
      then add_IO k agent_count (selected_agents ++ ["IO"])
      else selected_agents
  end.

Definition _determine_formation_strategy (complexity : string) (skills : list string)
  : string :=
  if (complexity =? "high") && (3 <? Py.len skills)%Z then "hierarchical_specialization"
  else if (2 <? Py.len skills)%Z then "skill_based_clustering"
  else if complexity =? "high" then "deep_collaboration"
  else "simple_parallel".

Definition _determine_collaboration_pattern (agents : list string) : string :=
  if (Py.len agents <=? 2)%Z then "sequential"
  else if Py.contains_str "TOT" agents then "hub_and_spoke"
  else if (4 <=? Py.len agents)%Z then "fully_connected"
  else "pipeline".

(** [skill_coverage]: the skills for which the inner loop over [agents]
    reaches its [break]. *)
Definition covered_by (skill_map : list (string * list string))
  (agents : list string) (skill : string) : bool :=
  existsb (fun agent => Py.contains_str skill (Py.dict_get skill_map agent [])) agents.

Definition _estimate_performance (agents skills : list string) : Py.result Q :=
  let skill_coverage := Py.len (filter (covered_by agent_skill_map agents) skills) in
  let base_performance := 6 # 10 in
  ratio <- Py.div (inject_Z skill_coverage) (inject_Z (Z.max (Py.len skills) 1)) ;;
  let skill_bonus := ratio * (3 # 10) in
  let team_size_bonus := Py.min (inject_Z (Py.len agents) / 4) 1 * (1 # 10) in
  Py.ret (Py.min (base_performance + skill_bonus + team_size_bonus) 1).

(** [_estimate_performance] on binary64, as CPython runs it; the divisor
    [max(len(skills), 1)] is an [int] that is never zero. *)
Definition _estimate_performanceF (agents skills : list string) : float :=
  let skill_coverage := Py.len (filter (covered_by agent_skill_map agents) skills) in
  let base_performance := 0.6%float in
  let skill_bonus :=
    (Py.float_of_int skill_coverage / Py.float_of_int (Z.max (Py.len skills) 1)
     * 0.3)%float in
  let team_size_bonus :=
    (Py.minF (Py.float_of_int (Py.len agents) / 4) 1 * 0.1)%float in
  Py.minF (base_performance + skill_bonus + team_size_bonus) 1.

(** The formula of the specification for the predicted performance, with
    the covered skills counted over a given role-to-skills table; kept apart
    from [_estimate_performance] so that the two can be compared. *)
Definition spec_predicted_performance (table : list (string * list string))
  (roles skills : list string) : Q :=
  let skillsCovered := Py.len (filter (covered_by table roles) skills) in
  let skillCount := Py.len skills in
  let teamSize := Py.len roles in
  Qmin ((6 # 10)
        + (3 # 10) * (inject_Z skillsCovered / inject_Z (Z.max skillCount 1))
        + (1 # 10) * Qmin (inject_Z teamSize / 4) 1)
       1.

Definition form_team (analysis : ResearchTask.analysis) : Py.result team_config :=
  let complexity := analysis.(ResearchTask.complexity) in
  let skills := analysis.(ResearchTask.skills) in
  let agent_count := analysis.(ResearchTask.agent_count) in
  let selected_agents := ["IO"] in
  let selected_agents := add_specialized skills selected_agents in
  let selected_agents :=
    if (complexity =? "high") && negb (Py.contains_str "TOT" selected_agents)
    then selected_agents ++ ["TOT"] else selected_agents in
  let selected_agents :=
    add_IO (Z.to_nat (agent_count - Py.len selected_agents)) agent_count selected_agents in
  let selected_agents := Py.slice_to selected_agents agent_count in
  performance <- _estimate_performance selected_agents skills ;;
  Py.ret {| agents := selected_agents;
            formation_strategy := _determine_formation_strategy complexity skills;
            collaboration_pattern := _determine_collaboration_pattern selected_agents;
            estimated_performance := performance |}.

(** The planner on a tier and a skill list: [form_team] on the analysis dict
    that [analyze_complexity] builds from them. *)
Definition formTeam (tier : string) (skills : list string) : Py.result team_config :=
  form_team (ResearchTask.make_analysis tier skills).

(** The role names of the capability catalog. *)
Definition catalog_roles : list string := map fst agent_capabilities.

(** The roles [form_team] has selected when it starts padding: the
    coordinator, the roles matched to the skills, and [TOT] for a [high]
    complexity that has none yet. *)
Definition selection (complexity : string) (skills : list string) : list string :=
  let selected_agents := add_specialized skills ["IO"] in
  if (complexity =? "high") && negb (Py.contains_str "TOT" selected_agents)
  then selected_agents ++ ["TOT"] else selected_agents.

End AgentTeam.

(** ** Analytics: [AdvancedResearchAssistant]

    The stored results and the report in exact arithmetic, for the run of
    the research demo: counts, keys and the errors of the report do not
    depend on rounding.  What does, the averages and the best pattern, is
    stated on [PerformanceAnalytics] below. *)

Module AdvancedResearchAssistant.

(** What [get_performance_analytics] reads of one entry of [completed_tasks]:
    [task['analysis']['complexity']],
    [task['team_config']['collaboration_pattern']],
    [task['execution_result']['performance']] and [task['success']]. *)
Record task_result : Type := {
  complexity : string;
  collaboration_pattern : string;
  performance : Q;
  success : bool
}.

Record assistant : Type := {
  completed_tasks : list task_result;
  performance_history : list Q
}.

(** [__init__]. *)
Definition init : assistant :=
  {| completed_tasks := []; performance_history := [] |}.

(** The "Store results" block that ends [process_research_query]. *)
Definition store_result (self : assistant)
  (complexity pattern : string) (performance : Q) : assistant :=
  let result :=
    {| complexity := complexity;
       collaboration_pattern := pattern;
       performance := performance;
       success := Py.Qltb (7 # 10) performance |} in
  {| completed_tasks := self.(completed_tasks) ++ [result];
     performance_history := self.(performance_history) ++ [performance] |}.

Record report : Type := {
  total_tasks : Z;
  success_rate : Q;
  average_performance : Q;
  complexity_performance : list (string * Q);
  team_pattern_performance : list (string * Q);
  best_performing_pattern : option string
}.

Inductive analytics : Type :=
| Message (message : string)
| Report (r : report).

(** [d[k].append(v)]: raises [KeyError] when [k] is not a key of [d]. *)
Fixpoint append_at (d : list (string * list Q)) (k : string) (v : Q)
  : Py.result (list (string * list Q)) :=
  match d with
  | [] => Py.raise (Py.KeyError k)
  | (k', l) :: rest =>
      if String.eqb k k' then Py.ret ((k', l ++ [v]) :: rest)
      else rest' <- append_at rest k v ;; Py.ret ((k', l) :: rest')
  end.

(** [if k not in d: d[k] = []] followed by [d[k].append(v)]. *)
Fixpoint setdefault_append (d : list (string * list Q)) (k : string) (v : Q)
  : list (string * list Q) :=
  match d with
  | [] => [(k, [v])]
  | (k', l) :: rest =>
      if String.eqb k k' then (k', l ++ [v]) :: rest
      else (k', l) :: setdefault_append rest k v
  end.

(** A [for] loop whose body may raise, run over [l] from state [acc]. *)
Fixpoint for_each {A S : Type} (body : S -> A -> Py.result S) (l : list A) (acc : S)
  : Py.result S :=
  match l with
  | [] => Py.ret acc
  | x :: rest => acc' <- body acc x ;; for_each body rest acc'
  end.

(** [sum(performances) / len(performances)]. *)
Definition mean (performances : list Q) : Py.result Q :=
  Py.div (Py.sum performances) (inject_Z (Py.len performances)).

(** [max(items, key=lambda x: x[1])]: an item replaces the current maximum
    only when its key is strictly greater. *)
Definition max_by_value (first : string * Q) (others : list (string * Q)) : string * Q :=
  fold_left (fun best item => if Py.Qltb (snd best) (snd item) then item else best)
            others first.

Definition get_performance_analytics (self : assistant) : Py.result analytics :=
  match self.(completed_tasks) with
  | [] => Py.ret (Message "No tasks completed yet")
  | _ :: _ =>
      let total_tasks := Py.len self.(completed_tasks) in
      let successful_tasks := Py.len (filter success self.(completed_tasks)) in
      success_rate <- Py.div (inject_Z successful_tasks) (inject_Z total_tasks) ;;
      avg_performance <- mean self.(performance_history) ;;
      complexity_stats <-
        for_each (fun stats task => append_at stats task.(complexity) task.(performance))
                 self.(completed_tasks)
                 [("low", []); ("medium", []); ("high", [])] ;;
      complexity_averages <-
        for_each (fun averages cp =>
                    let (complexity, performances) := (cp : string * list Q) in
                    match performances with
                    | [] => Py.ret (averages ++ [(complexity, 0)])
                    | _ :: _ =>
                        average <- mean performances ;;
                        Py.ret (averages ++ [(complexity, average)])
                    end)
                 complexity_stats [] ;;
      let team_patterns :=
        fold_left (fun patterns task =>
                     setdefault_append patterns task.(collaboration_pattern)
                                       task.(performance))
                  self.(completed_tasks) [] in
      pattern_averages <-
        for_each (fun averages pp =>
                    average <- mean (snd (pp : string * list Q)) ;;
                    Py.ret (averages ++ [(fst pp, average)]))
                 team_patterns [] ;;
      Py.ret (Report
        {| total_tasks := total_tasks;
           success_rate := success_rate;
           average_performance := avg_performance;
           complexity_performance := complexity_averages;
           team_pattern_performance := pattern_averages;
           best_performing_pattern :=
             match pattern_averages with
             | [] => None
             | first :: others => Some (fst (max_by_value first others))
             end |})
  end.

(** The assistant after storing a sequence of (tier, pattern, performance)
    outcomes, oldest first. *)
Definition after_tasks (records : list (string * string * Q)) : assistant :=
  fold_left (fun self r => store_result self (fst (fst r)) (snd (fst r)) (snd r))
            records init.

(** *** Vocabulary for stating what a report contains *)

(** The stored entry for one outcome. *)
Definition to_result (r : string * string * Q) : task_result :=
  {| complexity := fst (fst r);
     collaboration_pattern := snd (fst r);
     performance := snd r;
     success := Py.Qltb (7 # 10) (snd r) |}.

(** The arithmetic mean, as a plain rational. *)
Definition Qmean (l : list Q) : Q := Py.sum l / inject_Z (Py.len l).

(** The performances recorded for a tier, and for a pattern, oldest first. *)
Definition performances_of_tier (tier : string) (records : list (string * string * Q))
  : list Q :=
  map snd (filter (fun r => String.eqb (fst (fst r)) tier) records).

Definition performances_of_pattern (pattern : string)
  (records : list (string * string * Q)) : list Q :=
  map snd (filter (fun r => String.eqb (snd (fst r)) pattern) records).

(** The distinct labels of a list in the order of their first occurrence,
    starting from the labels already [seen]. *)
Fixpoint first_seen_from (seen l : list string) : list string :=
  match l with
  | [] => seen
  | x :: rest =>
      first_seen_from (if Py.contains_str x seen then seen else seen ++ [x]) rest
  end.

Definition first_seen (l : list string) : list string := first_seen_from [] l.

End AdvancedResearchAssistant.

(** ** The analytics on the arithmetic of the code

    [get_performance_analytics] once more, with the numbers and their
    operations kept abstract, so that the report can be run on binary64
    floats, as CPython does.  Which pattern is the best one depends on how
    the averages are rounded; the exact model above serves for what does
    not. *)

Module PerformanceAnalytics.

(** The operations the report uses on performances. *)
Class Arith (num : Type) : Type := {
  num_add : num -> num -> num;      (* a + b *)
  num_div : num -> num -> num;      (* a / b for a divisor that is not zero *)
  num_ltb : num -> num -> bool;     (* a < b *)
  num_of_int : Z -> num;            (* the number of an int, as in float(n) *)
  num_0_7 : num                     (* the literal 0.7 *)
}.

(** Binary64. *)
Definition float_of_int : Z -> float := Py.float_of_int.

#[global] Instance binary64 : Arith float := {|
  num_add := PrimFloat.add;
  num_div := PrimFloat.div;
  num_ltb := PrimFloat.ltb;
  num_of_int := float_of_int;
  num_0_7 := 0.7%float
|}.

Section Arith.
Context {num : Type} {arith : Arith num}.

Record task_result : Type := {
  complexity : string;
  collaboration_pattern : string;
  performance : num;
  success : bool
}.

Record assistant : Type := {
  completed_tasks : list task_result;
  performance_history : list num
}.

(** [__init__]. *)
Definition init : assistant :=
  {| completed_tasks := []; performance_history := [] |}.

(** The "Store results" block that ends [process_research_query];
    [success] is [actual_performance > 0.7]. *)
Definition store_result (self : assistant)
  (complexity pattern : string) (performance : num) : assistant :=
  let result :=
    {| complexity := complexity;
       collaboration_pattern := pattern;
       performance := performance;
       success := num_ltb num_0_7 performance |} in
  {| completed_tasks := self.(completed_tasks) ++ [result];
     performance_history := self.(performance_history) ++ [performance] |}.

Record report : Type := {
  total_tasks : Z;
  success_rate : num;
  average_performance : num;
  complexity_performance : list (string * num);
  team_pattern_performance : list (string * num);
  best_performing_pattern : option string
}.

Inductive analytics : Type :=
| Message (message : string)
| Report (r : report).

(** [d[k].append(v)]: raises [KeyError] when [k] is not a key of [d]. *)
Fixpoint append_at (d : list (string * list num)) (k : string) (v : num)
  : Py.result (list (string * list num)) :=
  match d with
  | [] => Py.raise (Py.KeyError k)
  | (k', l) :: rest =>
      if String.eqb k k' then Py.ret ((k', l ++ [v]) :: rest)
      else rest' <- append_at rest k v ;; Py.ret ((k', l) :: rest')
  end.

(** [if k not in d: d[k] = []] followed by [d[k].append(v)]. *)
Fixpoint setdefault_append (d : list (string * list num)) (k : string) (v : num)
  : list (string * list num) :=
  match d with
  | [] => [(k, [v])]
  | (k', l) :: rest =>
      if String.eqb k k' then (k', l ++ [v]) :: rest
      else (k', l) :: setdefault_append rest k v
  end.

(** [sum(l)]: starts from the int [0] and adds from the left. *)
Definition sum (l : list num) : num := fold_left num_add l (num_of_int 0).

(** [a / n] for an int [n]: raises when [n] is [0]. *)
Definition div_by_int (a : num) (n : Z) : Py.result num :=
  if (n =? 0)%Z then Py.raise Py.ZeroDivisionError
  else Py.ret (num_div a (num_of_int n)).

(** [sum(performances) / len(performances)]. *)
Definition mean (performances : list num) : Py.result num :=
  div_by_int (sum performances) (Py.len performances).

(** [max(items, key=lambda x: x[1])]: an item replaces the current maximum
    only when its key is strictly greater. *)
Definition max_by_value (first : string * num) (others : list (string * num))
  : string * num :=
  fold_left (fun best item => if num_ltb (snd best) (snd item) then item else best)
            others first.

Definition get_performance_analytics (self : assistant) : Py.result analytics :=
  match self.(completed_tasks) with
  | [] => Py.ret (Message "No tasks completed yet")
  | _ :: _ =>
      let total_tasks := Py.len self.(completed_tasks) in
      let successful_tasks := Py.len (filter success self.(completed_tasks)) in
      (* int / int *)
      success_rate <- div_by_int (num_of_int successful_tasks) total_tasks ;;
      avg_performance <- mean self.(performance_history) ;;
      complexity_stats <-
        AdvancedResearchAssistant.for_each
          (fun stats task => append_at stats task.(complexity) task.(performance))
          self.(completed_tasks)
          [("low", []); ("medium", []); ("high", [])] ;;
      complexity_averages <-
        AdvancedResearchAssistant.for_each
          (fun averages cp =>
             let (complexity, performances) := (cp : string * list num) in
             match performances with
             | [] => Py.ret (averages ++ [(complexity, num_of_int 0)])   (* 0.0 *)
             | _ :: _ =>
                 average <- mean performances ;;
                 Py.ret (averages ++ [(complexity, average)])
             end)
          complexity_stats [] ;;
      let team_patterns :=
        fold_left (fun patterns task =>
                     setdefault_append patterns task.(collaboration_pattern)
                                       task.(performance))
                  self.(completed_tasks) [] in
      pattern_averages <-
        AdvancedResearchAssistant.for_each
          (fun averages pp =>
             average <- mean (snd (pp : string * list num)) ;;
             Py.ret (averages ++ [(fst pp, average)]))
          team_patterns [] ;;
      Py.ret (Report
        {| total_tasks := total_tasks;
           success_rate := success_rate;
           average_performance := avg_performance;
           complexity_performance := complexity_averages;
           team_pattern_performance := pattern_averages;
           best_performing_pattern :=
             match pattern_averages with
             | [] => None
             | first :: others => Some (fst (max_by_value first others))
             end |})
  end.

(** The assistant after storing a sequence of (tier, pattern, performance)
    outcomes, oldest first. *)
Definition after_tasks (records : list (string * string * num)) : assistant :=
  fold_left (fun self r => store_result self (fst (fst r)) (snd (fst r)) (snd r))
            records init.

(** *** Vocabulary for stating what a report contains *)

(** The stored entry for one outcome. *)
Definition to_result (r : string * string * num) : task_result :=
  {| complexity := fst (fst r);
     collaboration_pattern := snd (fst r);
     performance := snd r;
     success := num_ltb num_0_7 (snd r) |}.

(** The average as the code computes it: the sum from the left, divided by
    the number of terms. *)
Definition computed_mean (l : list num) : num :=
  num_div (sum l) (num_of_int (Py.len l)).

(** The performances recorded for a tier, and for a pattern, oldest first. *)
Definition performances_of_tier (tier : string) (records : list (string * string * num))
  : list num :=
  map snd (filter (fun r => String.eqb (fst (fst r)) tier) records).

Definition performances_of_pattern (pattern : string)
  (records : list (string * string * num)) : list num :=
  map snd (filter (fun r => String.eqb (snd (fst r)) pattern) records).

End Arith.

Arguments task_result : clear implicits.
Arguments assistant : clear implicits.
Arguments report : clear implicits.
Arguments analytics : clear implicits.

End PerformanceAnalytics.

(** ** The mock model: [MockLLM] *)

Module MockLLM.

(** A line break, for the canned code answer. *)
Definition nl : string := String (ascii_of_nat 10) EmptyString.

(** [self.responses], in dict order. *)
Definition responses : list (string * string) :=
  [("reasoning",
    "Based on my analysis, I need to break this down into logical steps...");
   ("coding",
    ("```python" ++ nl ++ "def solve_problem():" ++ nl
     ++ "    # Implementation here" ++ nl ++ "    return result" ++ nl ++ "```")%string);
   ("research", "After researching the topic, I found the following key information...");
   ("creative", "Here's a creative approach to this challenge...");
   ("final", "Combining all agent outputs, the final answer is...")].

Definition agenerate (prompt : string) : Py.result string :=
  if Py.str_in "code" (Py.lower prompt) || Py.str_in "python" (Py.lower prompt)
  then Py.getitem responses "coding"
  else if Py.str_in "research" (Py.lower prompt) || Py.str_in "search" (Py.lower prompt)
  then Py.getitem responses "research"
  else if Py.str_in "creative" (Py.lower prompt) || Py.str_in "story" (Py.lower prompt)
  then Py.getitem responses "creative"
  else if Py.str_in "reason" (Py.lower prompt) || Py.str_in "analysis" (Py.lower prompt)
  then Py.getitem responses "reasoning"
  else Py.getitem responses "final".

End MockLLM.

(** ** The comprehensive demo: research teams and the summary *)

Module DemoTeams.

(** A research query of [demo_research_assistant], as [form_research_team]
    reads it. *)
Record research_query : Type := {
  complexity : string;
  required_skills : list string
}.

(** The dict [form_research_team] returns. *)
Record research_team : Type := {
  size : Z;
  types : list string;
  skills_covered : list string
}.

Definition form_research_team (query : research_query) : research_team :=
  let complexity := query.(complexity) in
  let skills := query.(required_skills) in
  let team_size :=
    if complexity =? "low" then 2%Z
    else if complexity =? "medium" then 3%Z
    else 4%Z in
  let agent_types : list string := [] in
  let agent_types :=
    if Py.contains_str "research" skills then agent_types ++ ["IO"] else agent_types in
  let agent_types :=
    if Py.contains_str "analysis" skills then agent_types ++ ["TOT"] else agent_types in
  let agent_types :=
    if Py.contains_str "synthesis" skills then agent_types ++ ["IO"] else agent_types in
  let agent_types :=
    AgentTeam.add_IO (Z.to_nat (team_size - Py.len agent_types)) team_size agent_types in
  {| size := team_size;
     types := Py.slice_to agent_types team_size;
     skills_covered := skills |}.

(** [self.demo_results] as [print_demo_summary] reads it: per demo name,
    the [r.get('status')] of each result ([None] when the key is absent). *)
Definition demo_results : Type := list (string * list (option string)).

(** The three numbers [print_demo_summary] prints at its end. *)
Record summary : Type := {
  total_tasks : Z;
  successful_tasks : Z;
  success_rate : Q
}.

(** [r.get('status') == 'success']. *)
Definition is_success (status : option string) : bool :=
  match status with
  | Some s => s =? "success"
  | None => false
  end.

(** The body of the loop over [self.demo_results.items()], on the pair
    (total_tasks, successful_tasks). *)
Definition tally (acc : Z * Z) (entry : string * list (option string)) : Z * Z :=
  let (demo_name, results) := entry in
  let (tasks, success) :=
    if demo_name =? "multi_domain" then
      (Py.len results, Py.len (filter is_success results))
    else if demo_name =? "visualization" then (Py.len results, Py.len results)
    else if demo_name =? "optimization" then (Py.len results, Py.len results)
    else if demo_name =? "research" then (Py.len results, Py.len results)
    else if demo_name =? "creative" then (Py.len results, Py.len results)
    else (0%Z, 0%Z) in
  ((fst acc + tasks)%Z, (snd acc + success)%Z).

Definition print_demo_summary (results : demo_results) : Py.result summary :=
  let totals := fold_left tally results (0%Z, 0%Z) in
  let total_tasks := fst totals in
  let successful_tasks := snd totals in
  success_rate <-
    (if (0 <? total_tasks)%Z
     then Py.div (inject_Z successful_tasks) (inject_Z total_tasks)
     else Py.ret 0) ;;
  Py.ret {| total_tasks := total_tasks;
            successful_tasks := successful_tasks;
            success_rate := success_rate |}.

End DemoTeams.

(** ** The research run: [_execute_research] and [process_research_query] *)

Module ResearchRun.

(** Two-argument [max(a, b)]: [b] when [b > a], else [a]. *)
Definition py_max (a b : Q) : Q := if Py.Qltb a b then b else a.

(** The dict [_execute_research] returns. *)
Record execution_result : Type := {
  performance : Q;
  time_taken : Q;
  sources_count : Z;
  quality_score : Q;
  phases_completed : Z
}.

(** The dict [process_research_query] returns and stores. *)
Record query_result : Type := {
  analysis : ResearchTask.analysis;
  team_config : AgentTeam.team_config;
  execution : execution_result;
  success : bool
}.

Definition phases : list string :=
  ["Information Gathering"; "Analysis & Processing";
   "Synthesis & Integration"; "Quality Review"].

(** What the analytics read of a stored result: tier, pattern, performance. *)
Definition outcome_of (r : query_result) : string * string * Q :=
  (r.(analysis).(ResearchTask.complexity),
   r.(team_config).(AgentTeam.collaboration_pattern),
   r.(execution).(performance)).

Section Random.
(** The module [random], as a generator that is threaded through the run. *)
Variable rng : Type.
Variable uniform : Q -> Q -> rng -> Q * rng.
Variable randint : Z -> Z -> rng -> Z * rng.

(** The variables of the phase loop, with the generator. *)
Record phase_state : Type := {
  total_time : Q;
  sources : Z;
  quality_scores : list Q;
  gen : rng
}.

(** The draws respect their bounds, as those of [random] do. *)
Definition draws_in_range : Prop :=
  (forall (a b : Q) (g : rng),
     a <= b -> a <= fst (uniform a b g) /\ fst (uniform a b g) <= b) /\
  (forall (a b : Z) (g : rng),
     (a <= b)%Z -> (a <= fst (randint a b g) <= b)%Z).

(** One iteration of [for i, phase in enumerate(phases)]. *)
Definition run_phase (st : phase_state) (phase : string) : phase_state :=
  let (phase_time, g) := uniform (5 # 10) 2 st.(gen) in
  let total_time := st.(total_time) + phase_time in
  if phase =? "Information Gathering" then
    let (n, g) := randint 3 15 g in
    {| total_time := total_time; sources := n;
       quality_scores := st.(quality_scores); gen := g |}
  else if phase =? "Analysis & Processing" then
    let (q, g) := uniform 7 (95 # 10) g in
    {| total_time := total_time; sources := st.(sources);
       quality_scores := st.(quality_scores) ++ [q]; gen := g |}
  else if phase =? "Synthesis & Integration" then
    let (q, g) := uniform (65 # 10) 9 g in
    {| total_time := total_time; sources := st.(sources);
       quality_scores := st.(quality_scores) ++ [q]; gen := g |}
  else if phase =? "Quality Review" then
    let (q, g) := uniform (75 # 10) (95 # 10) g in
    {| total_time := total_time; sources := st.(sources);
       quality_scores := st.(quality_scores) ++ [q]; gen := g |}
  else
    {| total_time := total_time; sources := st.(sources);
       quality_scores := st.(quality_scores); gen := g |}.

Definition _execute_research (team_config : AgentTeam.team_config) (g : rng)
  : Py.result (execution_result * rng) :=
  let st := fold_left run_phase phases
              {| total_time := 0; sources := 0; quality_scores := []; gen := g |} in
  let base_performance := team_config.(AgentTeam.estimated_performance) in
  let (execution_variance, g) := uniform (- (1 # 10)) (1 # 10) st.(gen) in
  let actual_performance :=
    py_max 0 (Py.min 1 (base_performance + execution_variance)) in
  quality <-
    match st.(quality_scores) with
    | [] => Py.ret 7
    | _ :: _ => AdvancedResearchAssistant.mean st.(quality_scores)
    end ;;
  Py.ret ({| performance := actual_performance;
             time_taken := st.(total_time);
             sources_count := st.(sources);
             quality_score := quality;
             phases_completed := Py.len phases |}, g).

Definition process_research_query (self : AdvancedResearchAssistant.assistant)
  (query : string) (g : rng)
  : Py.result (AdvancedResearchAssistant.assistant * query_result * rng) :=
  analysis <- ResearchTask.analyze_complexity query ;;
  team_config <- AgentTeam.form_team analysis ;;
  run <- _execute_research team_config g ;;
  let execution_result := fst run in
  let result :=
    {| analysis := analysis;
       team_config := team_config;
       execution := execution_result;
       success := Py.Qltb (7 # 10) execution_result.(performance) |} in
  Py.ret (AdvancedResearchAssistant.store_result self
            analysis.(ResearchTask.complexity)
            team_config.(AgentTeam.collaboration_pattern)
            execution_result.(performance),
          result, snd run).

(** The loop of [run_research_demo] over its queries; the queries are a
    parameter here. *)
Fixpoint process_queries (self : AdvancedResearchAssistant.assistant)
  (queries : list string) (g : rng)
  : Py.result (AdvancedResearchAssistant.assistant * list query_result * rng) :=
  match queries with
  | [] => Py.ret (self, [], g)
  | query :: rest =>
      step <- process_research_query self query g ;;
      more <- process_queries (fst (fst step)) rest (snd step) ;;
      Py.ret (fst (fst more), snd (fst step) :: snd (fst more), snd more)
  end.

(** [run_research_demo] up to its return value: the loop, the call of
    [get_performance_analytics] and the first read of the analytics. *)
Definition run_research_demo (queries : list string) (g : rng)
  : Py.result (list query_result * AdvancedResearchAssistant.report) :=
  run <- process_queries AdvancedResearchAssistant.init queries g ;;
  analytics <- AdvancedResearchAssistant.get_performance_analytics (fst (fst run)) ;;
  match analytics with
  | AdvancedResearchAssistant.Message _ =>
      (* analytics['total_tasks'] on the message dict *)
      Py.raise (Py.KeyError "total_tasks")
  | AdvancedResearchAssistant.Report r => Py.ret (snd (fst run), r)
  end.
End Random.

End ResearchRun.

(** * Properties *)

(** ** Comparisons on rationals *)

Lemma Qltb_true (a b : Q) : Py.Qltb a b = true <-> a < b.
Proof.
  unfold Py.Qltb. rewrite negb_true_iff.
  split; intro H.
  - apply Qnot_le_lt. intro Hle. apply Qle_bool_iff in Hle. congruence.
  - destruct (Qle_bool b a) eqn:E; [|reflexivity].
    apply Qle_bool_iff in E. exfalso. apply (Qlt_not_le _ _ H E).
Qed.

Lemma Qltb_false (a b : Q) : Py.Qltb a b = false <-> b <= a.
Proof.
  unfold Py.Qltb. rewrite negb_false_iff. apply Qle_bool_iff.
Qed.

Lemma py_min_Qmin (a b : Q) : Py.min a b == Qmin a b.
Proof.
  unfold Py.min. destruct (Py.Qltb b a) eqn:E.
  - apply Qltb_true in E. symmetry. apply Q.min_r. apply Qlt_le_weak, E.
  - apply Qltb_false in E. symmetry. apply Q.min_l, E.
Qed.

(** Proving [chain] and [Forall] on an explicit list, one element at a time. *)
Ltac chain_with tac :=
  repeat first [ apply chain_nil | apply chain_one
               | apply chain_cons; [cbv beta; tac |] ].

Ltac forall_with tac :=
  repeat first [ apply Forall_nil | apply Forall_cons; [cbv beta; tac |] ].

(** ** Convergence simulator *)

Section SimulatorFacts.

Import ComprehensiveDemo.

(** Whatever the numbers and their arithmetic, the loop body runs before the
    first stop test: the trace starts with [initial] and has a second value. *)
Lemma simulate_runs_once (num : Type) (add sub mul : num -> num -> num)
  (ltb leb : num -> num -> bool) (c15 c01 c95 initial target : num) :
  exists rest,
    simulate_optimization num add sub mul ltb leb c15 c01 c95 initial target
    = initial :: step num add sub mul ltb c15 c01 target initial :: rest.
Proof.
  unfold simulate_optimization. cbn [iterate].
  destruct (leb _ _); eexists; reflexivity.
Qed.

Lemma stepQ_above_target (target current : Q) :
  target <= current -> stepQ target current = target.
Proof.
  intro H. unfold stepQ, step, py_min.
  assert (E : Py.Qltb target (current + ((target - current) * (15 # 100) + (1 # 100))) = true).
  { apply Qltb_true. lra. }
  rewrite E. reflexivity.
Qed.

(** At or above a negative target the stop test never succeeds and the
    value stays at the target. *)
Lemma iterateQ_negative_target (iters : nat) (target : Q) : forall current : Q,
  target < 0 -> target <= current ->
  iterate Q Qplus Qminus Qmult Py.Qltb Qle_bool
    (15 # 100) (1 # 100) (95 # 100) iters target current
  = repeat target iters.
Proof.
  induction iters as [|k IH]; intros current Hneg Hge; cbn [iterate repeat].
  - reflexivity.
  - fold (stepQ target current). rewrite (stepQ_above_target _ _ Hge).
    assert (E : Qle_bool (target * (95 # 100)) target = false).
    { destruct (Qle_bool _ _) eqn:E; [| reflexivity].
      apply Qle_bool_iff in E. lra. }
    rewrite E, IH by (assumption || apply Qle_refl). reflexivity.
Qed.

(** C1 (as the code has it): with [initial >= target] the loop body still
    runs before the first stop test and clamps the value to the target; the
    trace is the initial value followed by the target, once when the target
    is not negative and ten times when it is. *)
Theorem simulate_initial_at_or_above_target (initial target : Q) :
  target <= initial ->
  (0 <= target -> simulateQ initial target = [initial; target]) /\
  (target < 0 -> simulateQ initial target = initial :: repeat target 10).
Proof.
  intro Hge. split.
  - intro Hpos.
    unfold simulateQ, simulate_optimization. cbn [iterate].
    fold (stepQ target initial). rewrite (stepQ_above_target _ _ Hge).
    assert (E : Qle_bool (target * (95 # 100)) target = true).
    { apply Qle_bool_iff. lra. }
    rewrite E. reflexivity.
  - intro Hneg.
    unfold simulateQ, simulate_optimization.
    rewrite (iterateQ_negative_target 10 target initial Hneg Hge). reflexivity.
Qed.

Lemma simulate_initial_at_or_above_target_witness :
  85 # 100 <= 9 # 10 /\ 0 <= 85 # 100 /\
  simulateQ (9 # 10) (85 # 100) = [9 # 10; 85 # 100].
Proof.
  assert (H1 : 85 # 100 <= 9 # 10) by (unfold Qle; simpl; lia).
  assert (H2 : 0 <= 85 # 100) by (unfold Qle; simpl; lia).
  split; [exact H1 | split; [exact H2 |]].
  exact (proj1 (simulate_initial_at_or_above_target (9 # 10) (85 # 100) H1) H2).
Defined.

(** C1 (as stated) fails: from 0.9 towards 0.85 the trace has two values,
    in exact and in binary64 arithmetic alike. *)
Lemma simulate_initial_above_target_not_single :
  85 # 100 <= 9 # 10 /\
  simulateQ (9 # 10) (85 # 100) <> [9 # 10] /\
  PrimFloat.leb 0.85 0.9 = true /\
  simulateF 0.9 0.85 = [0.9; 0.85]%float /\
  simulateF 0.9 0.85 <> [0.9%float].
Proof.
  split; [unfold Qle; simpl; lia |].
  split; [vm_compute; discriminate |].
  split; [vm_compute; reflexivity |].
  split; [vm_compute; reflexivity | vm_compute; discriminate].
Qed.

Lemma chain_impl {A : Type} (R R' : A -> A -> Prop) (l : list A) :
  (forall a b, R a b -> R' a b) -> chain R l -> chain R' l.
Proof.
  intros HR H. induction H; constructor; auto.
Qed.

Lemma stepQ_bounds (target current : Q) :
  current <= target ->
  current <= stepQ target current /\ stepQ target current <= target.
Proof.
  intro H. unfold stepQ, step, py_min.
  destruct (Py.Qltb target _) eqn:E.
  - split; [exact H | apply Qle_refl].
  - apply Qltb_false in E. split; [lra | exact E].
Qed.

(** From a value at or below the target, the values the loop appends never
    decrease, stay at or below the target, follow the update rule, and are
    at most as many as the iterations allowed. *)
Lemma iterateQ_spec (iters : nat) (target : Q) : forall current : Q,
  current <= target ->
  let l := iterate Q Qplus Qminus Qmult Py.Qltb Qle_bool
             (15 # 100) (1 # 100) (95 # 100) iters target current in
  chain Qle (current :: l) /\
  Forall (fun v => v <= target) l /\
  chain (fun a b => b = stepQ target a) (current :: l) /\
  (length l <= iters)%nat.
Proof.
  induction iters as [|k IH]; intros current Hle; cbv zeta; cbn [iterate].
  - split; [constructor | split; [constructor | split; [constructor | apply Nat.le_refl]]].
  - fold (stepQ target current).
    destruct (stepQ_bounds target current Hle) as [Hup Hbound].
    destruct (Qle_bool _ _).
    + split; [chain_with ltac:(assumption) |].
      split; [forall_with ltac:(assumption) |].
      split; [chain_with ltac:(reflexivity) | cbn [length]; lia].
    + destruct (IH (stepQ target current) Hbound) as (H1 & H2 & H3 & H4).
      split; [constructor; assumption |].
      split; [constructor; assumption |].
      split; [constructor; [reflexivity | assumption] | cbn [length]; lia].
Qed.

(** C4: the run from 0.65 towards 0.85, in binary64 arithmetic and in exact
    arithmetic: it starts at 0.65, never decreases, stays at or below 0.85,
    takes at most 10 steps, each value is the clamped update of the one
    before, and the last value is at least 0.8075. *)
Theorem simulate_065_085 :
  let trace := simulateF 0.65 0.85 in
  let traceQ := simulateQ (65 # 100) (85 # 100) in
  (hd_error trace = Some 0.65%float /\
   chain (fun a b => PrimFloat.leb a b = true) trace /\
   Forall (fun v => PrimFloat.leb v 0.85 = true) trace /\
   (length trace - 1 <= 10)%nat /\
   chain (fun a b => b = stepF 0.85 a) trace /\
   PrimFloat.leb 0.8075 (last trace 0%float) = true) /\
  (hd_error traceQ = Some (65 # 100) /\
   chain Qle traceQ /\
   Forall (fun v => v <= 85 # 100) traceQ /\
   (length traceQ - 1 <= 10)%nat /\
   chain (fun a b =>
      b == Qmin (a + (((85 # 100) - a) * (15 # 100) + (1 # 100))) (85 # 100)) traceQ /\
   8075 # 10000 <= last traceQ 0).
Proof.
  split.
  - repeat match goal with |- _ /\ _ => split end.
    + vm_compute; reflexivity.
    + vm_compute; chain_with ltac:(reflexivity).
    + vm_compute; forall_with ltac:(reflexivity).
    + vm_compute; lia.
    + vm_compute; chain_with ltac:(reflexivity).
    + vm_compute; reflexivity.
  - assert (Hle : 65 # 100 <= 85 # 100) by (unfold Qle; simpl; lia).
    destruct (iterateQ_spec 10 (85 # 100) (65 # 100) Hle) as (H1 & H2 & H3 & H4).
    repeat match goal with |- _ /\ _ => split end.
    + reflexivity.
    + exact H1.
    + constructor; assumption.
    + unfold simulateQ, simulate_optimization. cbn [length]. lia.
    + refine (chain_impl _ _ _ _ H3). intros a b ->.
      unfold stepQ, step. apply py_min_Qmin.
    + vm_compute; discriminate.
Qed.

End SimulatorFacts.

(** ** Topology builders *)

(** Deciding the label tests of a configuration with a literal label. *)
Ltac eval_labels :=
  cbn [connections agents];
  repeat match goal with
         | |- context [String.eqb ?a ?b] =>
             let v := eval vm_compute in (String.eqb a b) in
             change (String.eqb a b) with v
         end;
  cbv iota.

(** Two facts about the same label that cannot both hold. *)
Ltac label_clash :=
  match goal with
  | E : ?c = ?l, H : ?c <> ?l |- _ => exact (False_ind _ (H E))
  | E : ?c = _, H : ?c = _ |- _ => rewrite E in H; discriminate H
  end.

Section TopologyFacts.

Lemma div_ok (a b : Q) : ~ b == 0 -> Py.div a b = inr (a / b).
Proof.
  intro H. unfold Py.div.
  destruct (Qeq_bool b 0) eqn:E; [|reflexivity].
  apply Qeq_bool_iff in E. contradiction.
Qed.

Lemma div_by_zero (a b : Q) : b == 0 -> Py.div a b = inl Py.ZeroDivisionError.
Proof.
  intro H. unfold Py.div.
  apply Qeq_bool_iff in H. rewrite H. reflexivity.
Qed.

(** The number of possible edges [n * (n - 1) / 2], as the float the code
    divides by, is non-zero from two nodes on. *)
Lemma possible_edges_nonzero (n : Z) :
  (2 <= n)%Z -> ~ inject_Z (n * (n - 1)) / 2 == 0.
Proof.
  intros Hn H.
  assert (Hpos : 0 < inject_Z (n * (n - 1))).
  { change 0 with (inject_Z 0). rewrite <- Zlt_Qlt. nia. }
  assert (H2 : inject_Z (n * (n - 1)) == 0).
  { setoid_replace (inject_Z (n * (n - 1)))
      with (inject_Z (n * (n - 1)) / 2 * 2) by field.
    rewrite H. ring. }
  rewrite H2 in Hpos. apply (Qlt_irrefl 0), Hpos.
Qed.

(** [n * (n - 1)] is even, so the floor division by two is exact. *)
Lemma possible_edges_even (m : Z) : (m * (m - 1) / 2 * 2 = m * (m - 1))%Z.
Proof.
  pose proof (Z.div_mod m 2 ltac:(lia)) as Hm.
  pose proof (Z.mod_pos_bound m 2 ltac:(lia)) as Hr.
  assert (Hk : exists k, (m * (m - 1) = k * 2)%Z).
  { assert (Hc : (m mod 2 = 0 \/ m mod 2 = 1)%Z) by lia.
    destruct Hc as [Hc | Hc]; rewrite Hc in Hm.
    - exists ((m / 2) * (m - 1))%Z. lia.
    - exists (m * (m / 2))%Z. lia. }
  destruct Hk as [k Hk]. rewrite Hk, Z.div_mul by lia. reflexivity.
Qed.

Lemma append_edges_length (w : Q) (c : string) (pairs : list (nat * nat)) :
  forall (es : list GraphVisualizer.edge) (k : nat),
    length (fst (fold_left (GraphVisualizer.append_edge w c) pairs (es, k)))
    = (length es + length pairs)%nat.
Proof.
  induction pairs as [|p ps IH]; intros es k; cbn [fold_left length].
  - cbn. lia.
  - unfold GraphVisualizer.append_edge at 2. rewrite IH.
    rewrite length_app. cbn [length]. lia.
Qed.

(** The edge identifiers are the positions in the edge list. *)
Lemma append_edges_ids (w : Q) (c : string) (pairs : list (nat * nat)) :
  forall (es : list GraphVisualizer.edge) (k : nat),
    map GraphVisualizer.edge_id es = seq 0 k ->
    map GraphVisualizer.edge_id
        (fst (fold_left (GraphVisualizer.append_edge w c) pairs (es, k)))
    = seq 0 (k + length pairs).
Proof.
  induction pairs as [|p ps IH]; intros es k Hes; cbn [fold_left length].
  - cbn [fst]. rewrite Nat.add_0_r. exact Hes.
  - unfold GraphVisualizer.append_edge at 2. rewrite IH.
    + f_equal. lia.
    + rewrite map_app, Hes. cbn [map GraphVisualizer.edge_id].
      rewrite seq_S. reflexivity.
Qed.

Lemma sequential_pairs_length (n : nat) :
  length (GraphVisualizer.sequential_pairs n) = (n - 1)%nat.
Proof.
  unfold GraphVisualizer.sequential_pairs, Py.range.
  rewrite length_map, length_seq. lia.
Qed.

Lemma hub_pairs_length (n : nat) :
  length (GraphVisualizer.hub_pairs n) = (n - 1)%nat.
Proof.
  unfold GraphVisualizer.hub_pairs, Py.range.
  rewrite length_map, length_seq. reflexivity.
Qed.

(** The pairs [(i, j)] with [lo <= i < j < lo + k]: twice their number is
    [k * (k - 1)]. *)
Lemma pairs_from_length (k : nat) : forall lo : nat,
  (2 * length (flat_map (fun i => map (fun j => (i, j)) (Py.range (i + 1) (lo + k)))
                        (seq lo k))
   = k * (k - 1))%nat.
Proof.
  induction k as [|k IH]; intro lo.
  - reflexivity.
  - cbn [seq flat_map]. rewrite length_app, length_map.
    unfold Py.range at 1. rewrite length_seq.
    replace (lo + S k)%nat with (S lo + k)%nat by lia.
    specialize (IH (S lo)). nia.
Qed.

Lemma full_pairs_length (n : nat) :
  (2 * length (GraphVisualizer.full_pairs n) = n * (n - 1))%nat.
Proof.
  unfold GraphVisualizer.full_pairs. unfold Py.range at 2.
  rewrite Nat.sub_0_r. exact (pairs_from_length n 0).
Qed.

(** What [_generate_graph_data] returns: it never raises, and its
    connectivity is [0] up to one node and the edge ratio from two nodes on. *)
Lemma generate_graph_data_returns (cfg : config) :
  let n := Py.len cfg.(agents) in
  exists g, GraphVisualizer._generate_graph_data cfg = inr g /\
    Py.len g.(GraphVisualizer.nodes) = n /\
    g.(GraphVisualizer.graph_stats).(GraphVisualizer.num_nodes) = n /\
    g.(GraphVisualizer.graph_stats).(GraphVisualizer.num_edges)
      = Py.len g.(GraphVisualizer.edges) /\
    g.(GraphVisualizer.edges)
      = fst (if cfg.(connections) =? "sequential" then
               fold_left (GraphVisualizer.append_edge (8 # 10) "#2E8B57")
                 (GraphVisualizer.sequential_pairs (length cfg.(agents))) ([], 0%nat)
             else if cfg.(connections) =? "full" then
               fold_left (GraphVisualizer.append_edge (6 # 10) "#4169E1")
                 (GraphVisualizer.full_pairs (length cfg.(agents))) ([], 0%nat)
             else if cfg.(connections) =? "hub" then
               fold_left (GraphVisualizer.append_edge (7 # 10) "#DC143C")
                 (GraphVisualizer.hub_pairs (length cfg.(agents))) ([], 0%nat)
             else ([], 0%nat)) /\
    ((n <= 1)%Z -> g.(GraphVisualizer.graph_stats).(GraphVisualizer.connectivity) = 0) /\
    ((1 < n)%Z ->
     g.(GraphVisualizer.graph_stats).(GraphVisualizer.connectivity)
       = inject_Z (Py.len g.(GraphVisualizer.edges)) / (inject_Z (n * (n - 1)) / 2)).
Proof.
  cbv zeta. unfold GraphVisualizer._generate_graph_data, Py.len.
  set (es := fst _).
  destruct (1 <? length (agents cfg))%nat eqn:E.
  - apply Nat.ltb_lt in E.
    rewrite div_ok by (apply possible_edges_nonzero; lia).
    eexists. split; [reflexivity |]. cbn.
    unfold GraphVisualizer.enumerate.
    rewrite length_map, length_combine, length_seq, Nat.min_id.
    do 4 (split; [reflexivity |]).
    split; [intro; lia | intro; reflexivity].
  - apply Nat.ltb_ge in E.
    eexists. split; [reflexivity |]. cbn.
    unfold GraphVisualizer.enumerate.
    rewrite length_map, length_combine, length_seq, Nat.min_id.
    do 4 (split; [reflexivity |]).
    split; [intro; reflexivity | intro; lia].
Qed.

(** What [create_demo_graph] returns from two nodes on. *)
Lemma create_demo_graph_returns (cfg : config) :
  let n := Py.len cfg.(agents) in
  (2 <= n)%Z ->
  exists g, ComprehensiveDemo.create_demo_graph cfg = inr g /\
    g.(ComprehensiveDemo.nodes) = n /\
    g.(ComprehensiveDemo.agent_types) = cfg.(agents) /\
    (cfg.(connections) = "sequential" \/ cfg.(connections) = "hub" ->
       g.(ComprehensiveDemo.edges) = (n - 1)%Z /\
       g.(ComprehensiveDemo.connectivity)
         = inject_Z (n - 1) / (inject_Z (n * (n - 1)) / 2)) /\
    (cfg.(connections) = "full" ->
       g.(ComprehensiveDemo.edges) = (n * (n - 1) / 2)%Z /\
       g.(ComprehensiveDemo.connectivity) = 1) /\
    (cfg.(connections) <> "sequential" -> cfg.(connections) <> "full" ->
     cfg.(connections) <> "hub" ->
       g.(ComprehensiveDemo.edges) = n /\
       g.(ComprehensiveDemo.connectivity) = 5 # 10).
Proof.
  cbv zeta. intro Hn. unfold ComprehensiveDemo.create_demo_graph.
  pose proof (possible_edges_nonzero _ Hn) as Hnz.
  destruct (connections cfg =? "sequential") eqn:E1;
    [| destruct (connections cfg =? "full") eqn:E2;
       [| destruct (connections cfg =? "hub") eqn:E3]];
    try rewrite (div_ok _ _ Hnz); cbn [Py.bind Py.ret fst snd];
    (eexists; split; [reflexivity |]);
    cbn [ComprehensiveDemo.nodes ComprehensiveDemo.edges
         ComprehensiveDemo.connectivity ComprehensiveDemo.agent_types];
    repeat match goal with
           | E : (_ =? _) = true |- _ => apply String.eqb_eq in E
           | E : (_ =? _) = false |- _ => apply String.eqb_neq in E
           end;
    (split; [reflexivity |]); (split; [reflexivity |]);
    (split; [intros [H | H] | split; [intro H | intros H1 H2 H3]]);
    first [ label_clash | split; reflexivity ].
Qed.

(** Below two nodes the [sequential] and [hub] branches of
    [create_demo_graph] divide by zero. *)
Lemma create_demo_graph_raises (cfg : config) :
  (Py.len cfg.(agents) <= 1)%Z ->
  cfg.(connections) = "sequential" \/ cfg.(connections) = "hub" ->
  ComprehensiveDemo.create_demo_graph cfg = inl Py.ZeroDivisionError.
Proof.
  intros Hn Hc. unfold ComprehensiveDemo.create_demo_graph.
  assert (Hz : inject_Z (Py.len (agents cfg) * (Py.len (agents cfg) - 1)) / 2 == 0).
  { assert (E : (Py.len (agents cfg) * (Py.len (agents cfg) - 1) = 0)%Z)
      by (unfold Py.len in *; nia).
    rewrite E. reflexivity. }
  destruct Hc as [-> | ->]; cbn [String.eqb Ascii.eqb Bool.eqb];
    rewrite (div_by_zero _ _ Hz); reflexivity.
Qed.

(** The [else] branch of [create_demo_graph]: one edge per node and
    connectivity 0.5, for any number of nodes. *)
Lemma create_demo_graph_fallback (cfg : config) :
  ~ In cfg.(connections) ["sequential"; "full"; "hub"] ->
  ComprehensiveDemo.create_demo_graph cfg
  = inr {| ComprehensiveDemo.nodes := Py.len cfg.(agents);
           ComprehensiveDemo.edges := Py.len cfg.(agents);
           ComprehensiveDemo.connectivity := 5 # 10;
           ComprehensiveDemo.agent_types := cfg.(agents) |}.
Proof.
  intro Hnot. cbn [In] in Hnot.
  assert (E1 : (connections cfg =? "sequential") = false)
    by (apply String.eqb_neq; intro; apply Hnot; auto).
  assert (E2 : (connections cfg =? "full") = false)
    by (apply String.eqb_neq; intro; apply Hnot; auto).
  assert (E3 : (connections cfg =? "hub") = false)
    by (apply String.eqb_neq; intro; apply Hnot; auto).
  unfold ComprehensiveDemo.create_demo_graph. rewrite E1, E2, E3. reflexivity.
Qed.

(** The [full] branch of [create_demo_graph], for any number of nodes. *)
Lemma create_demo_graph_full (cfg : config) :
  cfg.(connections) = "full" ->
  ComprehensiveDemo.create_demo_graph cfg
  = inr {| ComprehensiveDemo.nodes := Py.len cfg.(agents);
           ComprehensiveDemo.edges := (Py.len cfg.(agents) * (Py.len cfg.(agents) - 1) / 2)%Z;
           ComprehensiveDemo.connectivity := 1;
           ComprehensiveDemo.agent_types := cfg.(agents) |}.
Proof.
  intro H. unfold ComprehensiveDemo.create_demo_graph. rewrite H. reflexivity.
Qed.

(** Edge counts of the visualizer's three topologies. *)
Lemma generate_graph_data_edge_counts (roles : list string) :
  let n := length roles in
  (exists g, GraphVisualizer._generate_graph_data
               {| agents := roles; connections := "sequential" |} = inr g /\
             length g.(GraphVisualizer.edges) = (n - 1)%nat) /\
  (exists g, GraphVisualizer._generate_graph_data
               {| agents := roles; connections := "hub" |} = inr g /\
             length g.(GraphVisualizer.edges) = (n - 1)%nat) /\
  (exists g, GraphVisualizer._generate_graph_data
               {| agents := roles; connections := "full" |} = inr g /\
             (2 * length g.(GraphVisualizer.edges) = n * (n - 1))%nat /\
             ((2 <= n)%nat ->
              g.(GraphVisualizer.graph_stats).(GraphVisualizer.connectivity) == 1)).
Proof.
  cbv zeta. split; [| split].
  - destruct (generate_graph_data_returns {| agents := roles; connections := "sequential" |})
      as (g & Hg & _ & _ & _ & He & _).
    exists g. split; [exact Hg |]. rewrite He. eval_labels.
    rewrite append_edges_length, sequential_pairs_length. reflexivity.
  - destruct (generate_graph_data_returns {| agents := roles; connections := "hub" |})
      as (g & Hg & _ & _ & _ & He & _).
    exists g. split; [exact Hg |]. rewrite He. eval_labels.
    rewrite append_edges_length, hub_pairs_length. reflexivity.
  - destruct (generate_graph_data_returns {| agents := roles; connections := "full" |})
      as (g & Hg & _ & _ & _ & He & _ & Hc).
    exists g. split; [exact Hg |].
    assert (Hlen : (2 * length (GraphVisualizer.edges g)
                    = length roles * (length roles - 1))%nat).
    { rewrite He. eval_labels.
      rewrite append_edges_length. cbn [length Nat.add].
      apply full_pairs_length. }
    split; [exact Hlen |].
    intro Hn. cbn [agents] in Hc. rewrite Hc by (unfold Py.len; lia).
    assert (E : (Py.len roles * (Py.len roles - 1)
                 = 2 * Py.len (GraphVisualizer.edges g))%Z)
      by (unfold Py.len; nia).
    rewrite E.
    assert (Hpos : ~ inject_Z (Py.len (GraphVisualizer.edges g)) == 0).
    { change 0 with (inject_Z 0). rewrite inject_Z_injective. unfold Py.len. nia. }
    rewrite inject_Z_mult. change (inject_Z 2) with 2. field. exact Hpos.
Qed.

(** C2 (as the code has it): [_generate_graph_data] always returns, with
    connectivity [0] up to one node and [edgeCount / (n*(n-1)/2)] above.
    [create_demo_graph] returns that ratio from two nodes on for its labels
    [sequential], [hub] and [full]; for [full] it is the fixed 1.0 and for
    any other label the fixed 0.5, whatever the number of nodes. *)
Theorem connectivity_ratio_defined (cfg : config) :
  let n := Py.len cfg.(agents) in
  (exists g, GraphVisualizer._generate_graph_data cfg = inr g /\
     let ratio := g.(GraphVisualizer.graph_stats).(GraphVisualizer.connectivity) in
     ((n <= 1)%Z -> ratio == 0) /\
     ((1 < n)%Z ->
      ratio == inject_Z (Py.len g.(GraphVisualizer.edges))
               / (inject_Z (n * (n - 1)) / 2))) /\
  ((2 <= n)%Z -> In cfg.(connections) ["sequential"; "full"; "hub"] ->
   exists g, ComprehensiveDemo.create_demo_graph cfg = inr g /\
     g.(ComprehensiveDemo.connectivity)
     == inject_Z g.(ComprehensiveDemo.edges) / (inject_Z (n * (n - 1)) / 2)) /\
  (cfg.(connections) = "full" ->
   exists g, ComprehensiveDemo.create_demo_graph cfg = inr g /\
     g.(ComprehensiveDemo.connectivity) == 1) /\
  (~ In cfg.(connections) ["sequential"; "full"; "hub"] ->
   exists g, ComprehensiveDemo.create_demo_graph cfg = inr g /\
     g.(ComprehensiveDemo.connectivity) == 5 # 10).
Proof.
  cbv zeta. split; [| split; [| split]].
  - destruct (generate_graph_data_returns cfg) as (g & Hg & _ & _ & _ & _ & H0 & H1).
    exists g. split; [exact Hg |]. split; intro H.
    + rewrite (H0 H). reflexivity.
    + rewrite (H1 H). reflexivity.
  - intros Hn Hin.
    destruct (create_demo_graph_returns cfg Hn) as (g & Hg & _ & _ & Hsh & Hf & _).
    exists g. split; [exact Hg |].
    destruct Hin as [H | [H | [H | []]]]; symmetry in H.
    + destruct (Hsh (or_introl H)) as [-> ->]. reflexivity.
    + destruct (Hf H) as [He ->]. rewrite He.
      pose proof (possible_edges_nonzero _ Hn) as Hnz.
      pose proof (possible_edges_even (Py.len (agents cfg))) as E.
      rewrite <- E at 2. rewrite inject_Z_mult. change (inject_Z 2) with 2.
      rewrite <- E in Hnz. rewrite inject_Z_mult in Hnz. change (inject_Z 2) with 2 in Hnz.
      field. intro Hz. apply Hnz. rewrite Hz. reflexivity.
    + destruct (Hsh (or_intror H)) as [-> ->]. reflexivity.
  - intro H. eexists. split; [apply (create_demo_graph_full cfg H) | reflexivity].
  - intro H. eexists. split; [apply (create_demo_graph_fallback cfg H) | reflexivity].
Qed.

Lemma connectivity_ratio_defined_witness :
  let cfg := {| agents := ["IO"; "TOT"; "IO"]; connections := "sequential" |} in
  (2 <= Py.len cfg.(agents))%Z /\
  In cfg.(connections) ["sequential"; "full"; "hub"] /\
  exists g, ComprehensiveDemo.create_demo_graph cfg = inr g /\
            g.(ComprehensiveDemo.connectivity) == 2 # 3.
Proof.
  cbv zeta.
  assert (Hn : (2 <= Py.len ["IO"; "TOT"; "IO"])%Z) by (vm_compute; discriminate).
  assert (Hl : In "sequential" ["sequential"; "full"; "hub"]) by (left; reflexivity).
  split; [exact Hn | split; [exact Hl |]].
  destruct (proj1 (proj2 (connectivity_ratio_defined
                     {| agents := ["IO"; "TOT"; "IO"]; connections := "sequential" |}))
              Hn Hl)
    as (g & Hg & Hr).
  exists g. split; [exact Hg |].
  rewrite Hr. injection Hg as <-. reflexivity.
Defined.

(** C2 (as stated) fails: for three nodes and an unrecognised label,
    [create_demo_graph] reports 3 edges and connectivity 0.5, not 3 / 3. *)
Lemma connectivity_fallback_not_edge_ratio :
  let cfg := {| agents := ["IO"; "IO"; "IO"]; connections := "pipeline" |} in
  exists g, ComprehensiveDemo.create_demo_graph cfg = inr g /\
    g.(ComprehensiveDemo.edges) = 3%Z /\
    g.(ComprehensiveDemo.connectivity) = 5 # 10 /\
    ~ g.(ComprehensiveDemo.connectivity)
      == inject_Z g.(ComprehensiveDemo.edges) / (inject_Z (3 * (3 - 1)) / 2).
Proof.
  eexists. split; [reflexivity |]. split; [reflexivity |]. split; [reflexivity |].
  vm_compute. discriminate.
Qed.

(** C3 (as the code has it): for a label other than [sequential], [full]
    and [hub], [create_demo_graph] returns one edge per node and
    connectivity 0.5, and [_generate_graph_data] returns the nodes with no
    edge and connectivity 0; neither raises. *)
Theorem unrecognised_pattern_fallback (cfg : config) :
  ~ In cfg.(connections) ["sequential"; "full"; "hub"] ->
  let n := Py.len cfg.(agents) in
  ComprehensiveDemo.create_demo_graph cfg
    = inr {| ComprehensiveDemo.nodes := n;
             ComprehensiveDemo.edges := n;
             ComprehensiveDemo.connectivity := 5 # 10;
             ComprehensiveDemo.agent_types := cfg.(agents) |} /\
  exists g, GraphVisualizer._generate_graph_data cfg = inr g /\
    Py.len g.(GraphVisualizer.nodes) = n /\
    g.(GraphVisualizer.edges) = [] /\
    g.(GraphVisualizer.graph_stats).(GraphVisualizer.num_edges) = 0%Z /\
    g.(GraphVisualizer.graph_stats).(GraphVisualizer.connectivity) == 0.
Proof.
  intros Hnot n. split; [exact (create_demo_graph_fallback cfg Hnot) |].
  cbn [In] in Hnot.
  assert (E1 : (connections cfg =? "sequential") = false)
    by (apply String.eqb_neq; intro; apply Hnot; auto).
  assert (E2 : (connections cfg =? "full") = false)
    by (apply String.eqb_neq; intro; apply Hnot; auto).
  assert (E3 : (connections cfg =? "hub") = false)
    by (apply String.eqb_neq; intro; apply Hnot; auto).
  destruct (generate_graph_data_returns cfg) as (g & Hg & Hn & _ & Hne & He & H0 & H1).
  rewrite E1, E2, E3 in He. cbn [fst] in He.
  exists g. split; [exact Hg |]. split; [exact Hn |]. split; [exact He |].
  split; [rewrite Hne, He; reflexivity |].
  destruct (Z_le_gt_dec (Py.len (agents cfg)) 1) as [Hle | Hgt].
  - rewrite (H0 Hle). reflexivity.
  - rewrite H1, He by lia. cbn [Py.len length Z.of_nat].
    unfold Qdiv. change (inject_Z 0) with 0. ring.
Qed.

Lemma unrecognised_pattern_fallback_witness :
  let cfg := {| agents := ["IO"; "WEB"; "IO"]; connections := "pipeline" |} in
  ~ In cfg.(connections) ["sequential"; "full"; "hub"] /\
  ComprehensiveDemo.create_demo_graph cfg
    = inr {| ComprehensiveDemo.nodes := 3;
             ComprehensiveDemo.edges := 3;
             ComprehensiveDemo.connectivity := 5 # 10;
             ComprehensiveDemo.agent_types := ["IO"; "WEB"; "IO"] |}.
Proof.
  cbv zeta.
  assert (Hnot : ~ In "pipeline" ["sequential"; "full"; "hub"]).
  { cbn [In]. intros [H | [H | [H | []]]]; discriminate H. }
  split; [exact Hnot |].
  exact (proj1 (unrecognised_pattern_fallback
                  {| agents := ["IO"; "WEB"; "IO"]; connections := "pipeline" |} Hnot)).
Defined.

(** C3 (as stated) fails: on the label [pipeline] the visualizer builds no
    edge and reports connectivity 0, not one edge per node and 0.5. *)
Lemma visualizer_unrecognised_pattern_no_edges :
  let cfg := {| agents := ["IO"; "IO"; "IO"]; connections := "pipeline" |} in
  ~ In cfg.(connections) ["sequential"; "fully_connected"; "hub_and_spoke"] /\
  exists g, GraphVisualizer._generate_graph_data cfg = inr g /\
    g.(GraphVisualizer.edges) = [] /\
    Py.len g.(GraphVisualizer.edges) <> 3%Z /\
    ~ g.(GraphVisualizer.graph_stats).(GraphVisualizer.connectivity) == 5 # 10.
Proof.
  cbv zeta. split.
  - cbn [In connections]. intros [H | [H | [H | []]]]; discriminate H.
  - eexists. split; [vm_compute; reflexivity |].
    split; [reflexivity |]. split; vm_compute; discriminate.
Qed.

(** The builders name the complete topology [full] and the star [hub]; the
    planner's labels [fully_connected] and [hub_and_spoke] are labels they
    do not know. *)
Example planner_labels_are_unrecognised :
  ComprehensiveDemo.create_demo_graph
    {| agents := ["IO"; "IO"; "IO"; "IO"]; connections := "full" |}
  = inr {| ComprehensiveDemo.nodes := 4; ComprehensiveDemo.edges := 6;
           ComprehensiveDemo.connectivity := 1;
           ComprehensiveDemo.agent_types := ["IO"; "IO"; "IO"; "IO"] |} /\
  ComprehensiveDemo.create_demo_graph
    {| agents := ["IO"; "IO"; "IO"; "IO"]; connections := "fully_connected" |}
  = inr {| ComprehensiveDemo.nodes := 4; ComprehensiveDemo.edges := 4;
           ComprehensiveDemo.connectivity := 5 # 10;
           ComprehensiveDemo.agent_types := ["IO"; "IO"; "IO"; "IO"] |}.
Proof. split; reflexivity. Qed.

(** Edge counts of [create_demo_graph] for its [full] label (any number of
    nodes) and its [sequential] label (from two nodes on). *)
Lemma create_demo_graph_edge_counts (roles : list string) :
  let n := Py.len roles in
  ComprehensiveDemo.create_demo_graph {| agents := roles; connections := "full" |}
    = inr {| ComprehensiveDemo.nodes := n;
             ComprehensiveDemo.edges := (n * (n - 1) / 2)%Z;
             ComprehensiveDemo.connectivity := 1;
             ComprehensiveDemo.agent_types := roles |} /\
  ((2 <= n)%Z ->
   exists g, ComprehensiveDemo.create_demo_graph
               {| agents := roles; connections := "sequential" |} = inr g /\
             g.(ComprehensiveDemo.edges) = (n - 1)%Z).
Proof.
  cbv zeta. split; [reflexivity |].
  intro Hn.
  destruct (create_demo_graph_returns {| agents := roles; connections := "sequential" |} Hn)
    as (g & Hg & _ & _ & Hsh & _).
  exists g. split; [exact Hg |]. apply Hsh. left. reflexivity.
Qed.

(** C9 at a single node: [create_demo_graph] with the label [sequential]
    raises [ZeroDivisionError], where the claim promises [n - 1 = 0] edges;
    [_generate_graph_data] on the same configuration returns the graph with
    no edge and connectivity 0. *)
Theorem sequential_single_node_raises :
  let cfg := {| agents := ["IO"]; connections := "sequential" |} in
  ComprehensiveDemo.create_demo_graph cfg = inl Py.ZeroDivisionError /\
  exists g, GraphVisualizer._generate_graph_data cfg = inr g /\
    g.(GraphVisualizer.edges) = [] /\
    g.(GraphVisualizer.graph_stats).(GraphVisualizer.connectivity) = 0.
Proof.
  cbv zeta. split.
  - apply create_demo_graph_raises; [vm_compute; discriminate | left; reflexivity].
  - eexists. split; [vm_compute; reflexivity |]. split; reflexivity.
Qed.

End TopologyFacts.

(** ** Complexity classifier *)

Section ClassifierFacts.

Import ResearchTask.

Lemma starts_with_spec (p : string) : forall s : string,
  Py.starts_with p s = true <-> exists t, s = (p ++ t)%string.
Proof.
  induction p as [|a p IH]; intro s; cbn [Py.starts_with].
  - split; [intros _; exists s; reflexivity | reflexivity].
  - destruct s as [|b s].
    + split; [discriminate | intros [t Ht]; discriminate Ht].
    + rewrite andb_true_iff, Ascii.eqb_eq, IH. split.
      * intros [-> [t ->]]. exists t. reflexivity.
      * intros [t Ht]. cbn in Ht. injection Ht as -> ->.
        split; [reflexivity | exists t; reflexivity].
Qed.

(** [str_in] is the substring test. *)
Lemma str_in_spec (needle : string) : forall hay : string,
  Py.str_in needle hay = true
  <-> exists pre post, hay = (pre ++ needle ++ post)%string.
Proof.
  induction hay as [|c hay IH]; cbn [Py.str_in]; rewrite orb_true_iff, starts_with_spec.
  - split.
    + intros [[t Ht] | H]; [| discriminate H]. exists EmptyString, t. exact Ht.
    + intros (pre & post & H). left. destruct pre as [|x pre]; [| discriminate H].
      exists post. exact H.
  - rewrite IH. split.
    + intros [[t Ht] | (pre & post & H)].
      * exists EmptyString, t. exact Ht.
      * exists (String c pre), post. cbn. rewrite H. reflexivity.
    + intros (pre & post & H). destruct pre as [|x pre].
      * left. exists post. exact H.
      * right. cbn in H. injection H as _ H. exists pre, post. exact H.
Qed.

Lemma indicator_score_pos (query_lower indicator : string) (indicators : list string) :
  In indicator indicators -> Py.str_in indicator query_lower = true ->
  (0 < indicator_score query_lower indicators)%Z.
Proof.
  intros Hin Hsub. unfold indicator_score, Py.len.
  assert (H : In indicator
                 (filter (fun i => Py.str_in i query_lower) indicators))
    by (apply filter_In; split; assumption).
  destruct (filter _ indicators); [destruct H | cbn [length]; lia].
Qed.

(** [analyze_complexity] always returns, and its complexity follows the
    priority rule on the three indicator scores. *)
Lemma analyze_complexity_returns (query : string) :
  let q := Py.lower query in
  let score level := indicator_score q (Py.dict_get complexity_indicators level []) in
  exists a, analyze_complexity query = inr a /\
    a.(complexity) = (if (0 <? score "high")%Z then "high"
                      else if (0 <? score "medium")%Z then "medium" else "low") /\
    a.(skills) = required_skills q /\
    a.(agent_count) = _estimate_agent_count a.(complexity) a.(skills).
Proof.
  cbv zeta. unfold analyze_complexity.
  cbn [complexity_indicators map fst snd Py.getitem Py.dict_get String.eqb Ascii.eqb
       Bool.eqb Py.ret Py.bind].
  destruct (0 <? indicator_score (Py.lower query) _)%Z; cbn [Py.bind Py.ret].
  - eexists. split; [reflexivity |]. cbn. repeat split.
  - destruct (0 <? indicator_score (Py.lower query) _)%Z; cbn [Py.bind Py.ret];
      (eexists; split; [reflexivity |]); cbn; repeat split.
Qed.

(** C5: a query whose lower-cased text contains a high-tier indicator word
    is classified [high], whatever medium-tier or low-tier words it also
    contains. *)
Theorem high_indicator_gives_high (query indicator : string) :
  In indicator ["compare"; "analyze"; "evaluate"; "synthesize"; "integrate";
                "comprehensive"] ->
  (exists pre post, Py.lower query = (pre ++ indicator ++ post)%string) ->
  exists a, analyze_complexity query = inr a /\ a.(complexity) = "high".
Proof.
  intros Hin Hsub. apply str_in_spec in Hsub.
  destruct (analyze_complexity_returns query) as (a & Ha & Hc & _).
  exists a. split; [exact Ha |]. rewrite Hc.
  cbn [Py.dict_get complexity_indicators String.eqb Ascii.eqb Bool.eqb].
  pose proof (indicator_score_pos _ _ _ Hin Hsub) as Hpos.
  apply Z.ltb_lt in Hpos. rewrite Hpos. reflexivity.
Qed.

Lemma high_indicator_gives_high_witness :
  let query := "Please COMPARE both, explain what differs and list the rest" in
  (In "explain" (Py.dict_get complexity_indicators "medium" []) /\
   Py.str_in "explain" (Py.lower query) = true) /\
  (In "what" (Py.dict_get complexity_indicators "low" []) /\
   Py.str_in "what" (Py.lower query) = true) /\
  exists a, analyze_complexity query = inr a /\ a.(complexity) = "high".
Proof.
  cbv zeta. split; [split; [cbn; tauto | vm_compute; reflexivity] |].
  split; [split; [cbn; tauto | vm_compute; reflexivity] |].
  apply (high_indicator_gives_high _ "compare").
  - left. reflexivity.
  - exists "please ", " both, explain what differs and list the rest".
    vm_compute. reflexivity.
Defined.

End ClassifierFacts.

(** ** Team planner *)

Section PlannerFacts.

Import AgentTeam.

Lemma estimate_agent_count_bounds (complexity : string) (skills : list string) :
  (2 <= ResearchTask._estimate_agent_count complexity skills <= 6)%Z.
Proof.
  unfold ResearchTask._estimate_agent_count.
  assert (Hb : (0 <= Py.len skills / 2)%Z)
    by (apply Z.div_pos; unfold Py.len; lia).
  cbn [Py.dict_get].
  destruct (complexity =? "low"); [lia |].
  destruct (complexity =? "medium"); [lia |].
  destruct (complexity =? "high"); lia.
Qed.

(** The skill loop only appends. *)
Lemma add_specialized_appends (skills : list string) : forall selected : list string,
  exists extra, add_specialized skills selected = selected ++ extra.
Proof.
  unfold add_specialized.
  induction skills as [|skill skills IH]; intro selected; cbn [fold_left].
  - exists []. rewrite app_nil_r. reflexivity.
  - destruct (first_capable agent_capabilities skill selected) as [agent_type |].
    + destruct (IH (selected ++ [agent_type])) as [extra ->].
      exists (agent_type :: extra). rewrite <- app_assoc. reflexivity.
    + apply IH.
Qed.

(** The padding loop only appends [IO], and with enough iterations it ends
    because its condition fails: the list has then [max agent_count len]
    elements. *)
Lemma add_IO_spec (missing : nat) (agent_count : Z) : forall selected : list string,
  (Z.to_nat (agent_count - Py.len selected) <= missing)%nat ->
  (exists k, add_IO missing agent_count selected = selected ++ repeat "IO" k) /\
  Py.len (add_IO missing agent_count selected) = Z.max agent_count (Py.len selected).
Proof.
  induction missing as [|m IH]; intros selected Hm; cbn [add_IO].
  - split; [exists 0%nat; cbn; rewrite app_nil_r; reflexivity | lia].
  - destruct (Py.len selected <? agent_count)%Z eqn:E.
    + apply Z.ltb_lt in E.
      assert (Hlen : Py.len (selected ++ ["IO"]) = (Py.len selected + 1)%Z)
        by (unfold Py.len; rewrite length_app; cbn [length]; lia).
      destruct (IH (selected ++ ["IO"])) as [[k Hk] Hl]; [lia |].
      split.
      * exists (S k). rewrite Hk, <- app_assoc. reflexivity.
      * rewrite Hl, Hlen. lia.
    + apply Z.ltb_ge in E.
      split; [exists 0%nat; cbn; rewrite app_nil_r; reflexivity | lia].
Qed.

Lemma slice_to_length {A : Type} (l : list A) (k : Z) :
  (0 <= k <= Py.len l)%Z -> Py.len (Py.slice_to l k) = k.
Proof.
  intro H. unfold Py.slice_to.
  destruct (0 <=? k)%Z eqn:E; [| apply Z.leb_gt in E; lia].
  unfold Py.len in *. rewrite length_firstn. lia.
Qed.

Lemma estimate_performance_returns (agents skills : list string) :
  exists p, _estimate_performance agents skills = inr p /\
            p == spec_predicted_performance agent_skill_map agents skills.
Proof.
  unfold _estimate_performance, spec_predicted_performance.
  rewrite div_ok.
  - eexists. split; [reflexivity |].
    rewrite !py_min_Qmin. apply Q.min_compat; [ring | reflexivity].
  - change 0 with (inject_Z 0). rewrite inject_Z_injective. lia.
Qed.

(** What [form_team] returns for an analysis that asks for at least one
    agent: as many agents as asked for, the first of them [IO]. *)
Lemma form_team_returns (analysis : ResearchTask.analysis) :
  (1 <= analysis.(ResearchTask.agent_count))%Z ->
  exists plan, form_team analysis = inr plan /\
    Py.len plan.(agents) = analysis.(ResearchTask.agent_count) /\
    (exists rest, plan.(agents) = "IO" :: rest) /\
    plan.(collaboration_pattern) = _determine_collaboration_pattern plan.(agents) /\
    _estimate_performance plan.(agents) analysis.(ResearchTask.skills)
      = inr plan.(estimated_performance).
Proof.
  intro Hc. unfold form_team. cbv zeta.
  set (c := ResearchTask.agent_count analysis) in *.
  destruct (add_specialized_appends (ResearchTask.skills analysis) ["IO"]) as [extra ->].
  match goal with |- context [add_IO _ c ?x] => set (selected := x) end.
  assert (Hsel : exists more, selected = "IO" :: more).
  { subst selected. destruct (_ && _); eexists; reflexivity. }
  destruct Hsel as [more Hsel]. rewrite Hsel.
  destruct (add_IO_spec (Z.to_nat (c - Py.len ("IO" :: more))) c ("IO" :: more)
              (Nat.le_refl _)) as [[k Hk] Hlen].
  match goal with |- context [Py.slice_to ?x c] => set (final := Py.slice_to x c) end.
  assert (Hfl : Py.len final = c).
  { subst final. apply slice_to_length. rewrite Hlen. lia. }
  assert (Hfh : exists rest, final = "IO" :: rest).
  { subst final. rewrite Hk. unfold Py.slice_to.
    destruct (0 <=? c)%Z eqn:E; [| apply Z.leb_gt in E; lia].
    destruct (Z.to_nat c) as [|n] eqn:En; [lia |].
    cbn [app firstn]. eexists. reflexivity. }
  destruct (estimate_performance_returns final (ResearchTask.skills analysis))
    as (p & Hp & _).
  rewrite Hp. cbn [Py.bind Py.ret].
  eexists. split; [reflexivity |]. cbn [agents collaboration_pattern estimated_performance].
  split; [exact Hfl |]. split; [exact Hfh |]. split; [reflexivity | exact Hp].
Qed.

Lemma formTeam_returns (tier : string) (skills : list string) :
  exists plan, formTeam tier skills = inr plan /\
    Py.len plan.(agents) = ResearchTask._estimate_agent_count tier skills /\
    (exists rest, plan.(agents) = "IO" :: rest) /\
    _estimate_performance plan.(agents) skills = inr plan.(estimated_performance).
Proof.
  pose proof (estimate_agent_count_bounds tier skills) as Hb.
  destruct (form_team_returns (ResearchTask.make_analysis tier skills))
    as (plan & Hp & Hl & Hh & _ & He).
  - cbn [ResearchTask.make_analysis ResearchTask.agent_count]. lia.
  - exists plan. split; [exact Hp |]. split; [exact Hl |]. split; assumption.
Qed.

(** C6: for the tiers [low], [medium] and [high] with base sizes 2, 3 and 4,
    the team has [min(base + floor(skillCount / 2), 6)] roles, a number
    between 1 and 6. *)
Theorem formTeam_size (tier : string) (base : Z) (skills : list string) :
  In (tier, base) [("low", 2%Z); ("medium", 3%Z); ("high", 4%Z)] ->
  exists plan, formTeam tier skills = inr plan /\
    Py.len plan.(agents) = Z.min (base + Py.len skills / 2) 6 /\
    (1 <= Py.len plan.(agents) <= 6)%Z.
Proof.
  intro Hin.
  destruct (formTeam_returns tier skills) as (plan & Hp & Hl & _).
  pose proof (estimate_agent_count_bounds tier skills) as Hb.
  exists plan. split; [exact Hp |]. rewrite Hl. split; [| lia].
  cbn [In] in Hin.
  destruct Hin as [H | [H | [H | []]]]; injection H as <- <-; reflexivity.
Qed.

Lemma formTeam_size_witness :
  In ("high", 4%Z) [("low", 2%Z); ("medium", 3%Z); ("high", 4%Z)] /\
  exists plan, formTeam "high" ["analysis"; "synthesis"; "coding"] = inr plan /\
    Py.len plan.(agents) = 5%Z.
Proof.
  assert (Hin : In ("high", 4%Z) [("low", 2%Z); ("medium", 3%Z); ("high", 4%Z)])
    by (right; right; left; reflexivity).
  split; [exact Hin |].
  destruct (formTeam_size "high" 4 ["analysis"; "synthesis"; "coding"] Hin)
    as (plan & Hp & Hl & _).
  exists plan. split; [exact Hp | exact Hl].
Defined.

(** C10: the team is never empty, its first role is the coordinator [IO],
    and it has exactly the computed target size. *)
Theorem formTeam_coordinator_first (tier : string) (skills : list string) :
  exists plan, formTeam tier skills = inr plan /\
    plan.(agents) <> [] /\
    hd_error plan.(agents) = Some "IO" /\
    Py.len plan.(agents) = ResearchTask._estimate_agent_count tier skills.
Proof.
  destruct (formTeam_returns tier skills) as (plan & Hp & Hl & [rest Hh] & _).
  exists plan. split; [exact Hp |]. rewrite Hh in *.
  split; [discriminate |]. split; [reflexivity | exact Hl].
Qed.

Lemma existsb_pointwise {A : Type} (f g : A -> bool) (l : list A) :
  (forall a, f a = g a) -> existsb f l = existsb g l.
Proof.
  intro H. induction l as [|a l IH]; cbn [existsb]; [reflexivity |].
  rewrite H, IH. reflexivity.
Qed.

(** On the five skills the classifier can name, the skill map of
    [_estimate_performance] and the capability catalog of [form_team] cover
    the same skills. *)
Lemma skill_map_agrees_with_catalog (agents : list string) (skill : string) :
  In skill ["research"; "analysis"; "coding"; "synthesis"; "creativity"] ->
  covered_by agent_capabilities agents skill = covered_by agent_skill_map agents skill.
Proof.
  intro Hin. unfold covered_by. apply existsb_pointwise. intro agent.
  cbn [In] in Hin.
  destruct Hin as [<- | [<- | [<- | [<- | [<- | []]]]]];
    cbn [Py.dict_get agent_capabilities agent_skill_map];
    repeat (destruct (String.eqb agent _); [vm_compute; reflexivity |]);
    reflexivity.
Qed.

Lemma spec_predicted_performance_bounds (table : list (string * list string))
  (roles skills : list string) :
  6 # 10 <= spec_predicted_performance table roles skills <= 1.
Proof.
  unfold spec_predicted_performance.
  set (covered := Py.len (filter _ skills)).
  assert (Hc : 0 <= inject_Z covered / inject_Z (Z.max (Py.len skills) 1)).
  { apply Qle_shift_div_l.
    - change 0 with (inject_Z 0). rewrite <- Zlt_Qlt. lia.
    - rewrite Qmult_0_l. change 0 with (inject_Z 0). rewrite <- Zle_Qle.
      subst covered. unfold Py.len. lia. }
  assert (Ht : 0 <= Qmin (inject_Z (Py.len roles) / 4) 1).
  { apply Q.min_glb; [| discriminate].
    apply Qle_shift_div_l; [reflexivity |].
    rewrite Qmult_0_l. change 0 with (inject_Z 0). rewrite <- Zle_Qle.
    unfold Py.len. lia. }
  set (x := inject_Z covered / _) in *. set (y := Qmin (_ / 4) 1) in *.
  split; [apply Q.min_glb; lra | apply Q.le_min_r].
Qed.

(** C8 (as the code has it): the predicted performance is the stated
    formula with the covered skills counted over [agent_skill_map], the
    skill map of [_estimate_performance]; it lies in [0, 1]; for skills the
    classifier can name it is also the formula over the capability catalog;
    and the plan of [formTeam] carries this value for its own agents. *)
Theorem predicted_performance_formula :
  (forall agents skills : list string,
     exists p, _estimate_performance agents skills = inr p /\
       p == spec_predicted_performance agent_skill_map agents skills /\
       (0 <= p /\ p <= 1) /\
       (Forall (fun skill =>
                  In skill ["research"; "analysis"; "coding"; "synthesis"; "creativity"])
               skills ->
        p == spec_predicted_performance agent_capabilities agents skills)) /\
  (forall (tier : string) (skills : list string),
     exists plan, formTeam tier skills = inr plan /\
       _estimate_performance plan.(AgentTeam.agents) skills
         = inr plan.(estimated_performance)).
Proof.
  split.
  - intros agents skills.
    destruct (estimate_performance_returns agents skills) as (p & Hp & Heq).
    exists p. split; [exact Hp |]. split; [exact Heq |].
    pose proof (spec_predicted_performance_bounds agent_skill_map agents skills) as [Hlo Hhi].
    split; [rewrite Heq; split; [lra | exact Hhi] |].
    intro Hall. rewrite Heq. unfold spec_predicted_performance.
    rewrite (filter_ext_in (covered_by agent_capabilities agents)
                           (covered_by agent_skill_map agents)).
    + reflexivity.
    + intros skill Hin. apply skill_map_agrees_with_catalog.
      rewrite Forall_forall in Hall. apply Hall, Hin.
  - intros tier skills.
    destruct (formTeam_returns tier skills) as (plan & Hp & _ & _ & He).
    exists plan. split; assumption.
Qed.

Lemma predicted_performance_formula_witness :
  Forall (fun skill =>
            In skill ["research"; "analysis"; "coding"; "synthesis"; "creativity"])
         ["analysis"; "coding"] /\
  exists p, _estimate_performance ["IO"; "TOT"] ["analysis"; "coding"] = inr p /\
    p == spec_predicted_performance agent_capabilities ["IO"; "TOT"] ["analysis"; "coding"].
Proof.
  assert (Hall : Forall (fun skill =>
            In skill ["research"; "analysis"; "coding"; "synthesis"; "creativity"])
         ["analysis"; "coding"]).
  { repeat constructor; cbn [In]; tauto. }
  split; [exact Hall |].
  destruct (proj1 predicted_performance_formula ["IO"; "TOT"] ["analysis"; "coding"])
    as (p & Hp & _ & _ & Hcat).
  exists p. split; [exact Hp | exact (Hcat Hall)].
Defined.

(** C8 (as stated) fails: for the required skill [planning], which the
    catalog lists for [TOT] and the skill map of [_estimate_performance]
    does not, the plan [IO, TOT] is predicted 0.65, while the formula over
    the catalog gives 0.95. *)
Lemma performance_not_over_catalog :
  exists plan, formTeam "low" ["planning"] = inr plan /\
    plan.(AgentTeam.agents) = ["IO"; "TOT"] /\
    Py.contains_str "planning" (Py.dict_get agent_capabilities "TOT" []) = true /\
    plan.(estimated_performance) == 65 # 100 /\
    spec_predicted_performance agent_capabilities plan.(AgentTeam.agents) ["planning"]
      == 95 # 100 /\
    ~ plan.(estimated_performance)
      == spec_predicted_performance agent_capabilities plan.(AgentTeam.agents) ["planning"].
Proof.
  eexists. split; [vm_compute; reflexivity |].
  split; [reflexivity |]. split; [reflexivity |].
  split; [reflexivity |]. split; [reflexivity |].
  vm_compute. discriminate.
Qed.

End PlannerFacts.

(** ** Analytics aggregator *)

Section AnalyticsFacts.

Import AdvancedResearchAssistant.

Lemma contains_str_In (x : string) (l : list string) :
  Py.contains_str x l = true <-> In x l.
Proof.
  unfold Py.contains_str. rewrite existsb_exists. split.
  - intros (y & Hy & E). apply String.eqb_eq in E. subst. exact Hy.
  - intro H. exists x. split; [exact H | apply String.eqb_refl].
Qed.

Lemma contains_str_not_In (x : string) (l : list string) :
  Py.contains_str x l = false <-> ~ In x l.
Proof.
  rewrite <- contains_str_In. destruct (Py.contains_str x l); split; congruence.
Qed.

(** The stored state after a sequence of outcomes. *)
Lemma after_tasks_state (records : list (string * string * Q)) :
  completed_tasks (after_tasks records) = map to_result records /\
  performance_history (after_tasks records) = map snd records.
Proof.
  unfold after_tasks.
  assert (H : forall self,
    let final := fold_left (fun self r =>
                   store_result self (fst (fst r)) (snd (fst r)) (snd r)) records self in
    completed_tasks final = completed_tasks self ++ map to_result records /\
    performance_history final = performance_history self ++ map snd records).
  { induction records as [|r rs IH]; intro self; cbn [fold_left map].
    - rewrite !app_nil_r. split; reflexivity.
    - destruct (IH (store_result self (fst (fst r)) (snd (fst r)) (snd r))) as [H1 H2].
      cbv zeta. rewrite H1, H2. cbn [store_result completed_tasks performance_history].
      rewrite <- !app_assoc. split; reflexivity. }
  exact (H init).
Qed.

Lemma mean_returns (l : list Q) : l <> [] -> mean l = inr (Qmean l).
Proof.
  intro H. unfold mean, Qmean. apply div_ok.
  change 0 with (inject_Z 0). rewrite inject_Z_injective.
  destruct l; [contradiction | unfold Py.len; cbn [length]; lia].
Qed.

(** [d[k].append(v)] on a dict with distinct keys that has the key. *)
Lemma append_at_map (keys : list string) (f : string -> list Q) (k : string) (v : Q) :
  NoDup keys -> In k keys ->
  append_at (map (fun t => (t, f t)) keys) k v
  = inr (map (fun t => (t, if String.eqb t k then f t ++ [v] else f t)) keys).
Proof.
  induction keys as [|a keys IH]; intros Hnd Hin; [destruct Hin |].
  cbn [map append_at]. inversion Hnd as [|? ? Ha Hnd']; subst.
  destruct (String.eqb k a) eqn:E.
  - apply String.eqb_eq in E. subst a. unfold Py.ret. f_equal.
    rewrite String.eqb_refl. f_equal.
    apply map_ext_in. intros t Ht.
    destruct (String.eqb t k) eqn:E; [| reflexivity].
    apply String.eqb_eq in E. subst. contradiction.
  - apply String.eqb_neq in E.
    destruct Hin as [-> | Hin]; [contradiction |].
    rewrite (IH Hnd' Hin). cbn [Py.bind Py.ret]. f_equal.
    assert (E' : String.eqb a k = false) by (apply String.eqb_neq; congruence).
    rewrite E'. reflexivity.
Qed.

(** The per-tier lists the first loop of the report builds. *)
Lemma complexity_stats_spec (keys : list string) (records : list (string * string * Q)) :
  NoDup keys ->
  Forall (fun r => In (fst (fst r)) keys) records ->
  forall f : string -> list Q,
    for_each (fun stats task => append_at stats task.(complexity) task.(performance))
             (map to_result records) (map (fun t => (t, f t)) keys)
    = inr (map (fun t => (t, f t ++ performances_of_tier t records)) keys).
Proof.
  intros Hnd Hall. induction Hall as [|r rs Hr Hall IH]; intro f; cbn [map for_each].
  - unfold Py.ret. f_equal. apply map_ext. intro t.
    unfold performances_of_tier. cbn. rewrite app_nil_r. reflexivity.
  - cbn [to_result complexity performance].
    rewrite (append_at_map keys f _ (snd r) Hnd Hr). cbn [Py.bind].
    rewrite IH. f_equal. apply map_ext. intro t.
    unfold performances_of_tier. cbn [filter].
    rewrite (String.eqb_sym t). 
    destruct (String.eqb (fst (fst r)) t); cbn [map];
      [rewrite <- app_assoc |]; reflexivity.
Qed.

(** The average reported for a tier: 0 when nothing was recorded for it. *)
Lemma complexity_averages_spec (stats : list (string * list Q)) :
  forall averages : list (string * Q),
    for_each (fun averages cp =>
                let (complexity, performances) := (cp : string * list Q) in
                match performances with
                | [] => Py.ret (averages ++ [(complexity, 0)])
                | _ :: _ =>
                    average <- mean performances ;;
                    Py.ret (averages ++ [(complexity, average)])
                end)
             stats averages
    = inr (averages
           ++ map (fun cp => (fst cp, match snd cp with
                                      | [] => 0
                                      | _ :: _ => Qmean (snd cp)
                                      end)) stats).
Proof.
  induction stats as [|[t l] stats IH]; intro averages; cbn [for_each map].
  - rewrite app_nil_r. reflexivity.
  - destruct l as [|x l]; cbn [fst snd].
    + cbn [Py.bind Py.ret]. rewrite IH, <- app_assoc. reflexivity.
    + rewrite mean_returns by discriminate. cbn [Py.bind Py.ret].
      rewrite IH, <- app_assoc. reflexivity.
Qed.

(** [setdefault] and [append] on a dict with distinct keys. *)
Lemma setdefault_append_map (keys : list string) (f : string -> list Q)
  (k : string) (v : Q) :
  NoDup keys -> (~ In k keys -> f k = []) ->
  setdefault_append (map (fun p => (p, f p)) keys) k v
  = map (fun p => (p, if String.eqb p k then f p ++ [v] else f p))
        (if Py.contains_str k keys then keys else keys ++ [k]).
Proof.
  induction keys as [|a keys IH]; intros Hnd Hf.
  - cbn. rewrite String.eqb_refl, Hf by tauto. reflexivity.
  - inversion Hnd as [|? ? Ha Hnd']; subst.
    cbn [map setdefault_append Py.contains_str existsb].
    destruct (String.eqb k a) eqn:E; cbn [orb].
    + apply String.eqb_eq in E. subst a. cbn [map].
      rewrite String.eqb_refl. f_equal.
      apply map_ext_in. intros t Ht.
      destruct (String.eqb t k) eqn:E; [| reflexivity].
      apply String.eqb_eq in E. subst. contradiction.
    + assert (E' : String.eqb a k = false) by (rewrite String.eqb_sym; exact E).
      apply String.eqb_neq in E.
      rewrite IH; [| exact Hnd' | intro Hk; apply Hf; intros [H | H]; congruence].
      fold (Py.contains_str k keys).
      destruct (Py.contains_str k keys); cbn [map app]; rewrite E'; reflexivity.
Qed.

Lemma first_seen_step_NoDup (keys : list string) (k : string) :
  NoDup keys -> NoDup (if Py.contains_str k keys then keys else keys ++ [k]).
Proof.
  intro Hnd. destruct (Py.contains_str k keys) eqn:E; [exact Hnd |].
  apply contains_str_not_In in E.
  apply NoDup_app; [exact Hnd | repeat constructor; intros [] | ].
  intros x Hx [<- | []]. contradiction.
Qed.

(** The per-pattern lists the report builds: one entry per pattern, in the
    order in which the patterns first occur. *)
Lemma team_patterns_spec (records : list (string * string * Q)) :
  forall (keys : list string) (f : string -> list Q),
    NoDup keys -> (forall p, ~ In p keys -> f p = []) ->
    fold_left (fun patterns task =>
                 setdefault_append patterns task.(collaboration_pattern)
                                   task.(performance))
              (map to_result records) (map (fun p => (p, f p)) keys)
    = map (fun p => (p, f p ++ performances_of_pattern p records))
          (first_seen_from keys (map (fun r => snd (fst r)) records)).
Proof.
  induction records as [|r rs IH]; intros keys f Hnd Hf; cbn [map fold_left first_seen_from].
  - apply map_ext. intro p. unfold performances_of_pattern. cbn.
    rewrite app_nil_r. reflexivity.
  - cbn [to_result collaboration_pattern performance].
    rewrite setdefault_append_map by auto.
    rewrite IH.
    + apply map_ext. intro p. unfold performances_of_pattern. cbn [filter].
      rewrite (String.eqb_sym p).
      destruct (String.eqb (snd (fst r)) p); cbn [map];
        [rewrite <- app_assoc |]; reflexivity.
    + apply first_seen_step_NoDup, Hnd.
    + intros p Hp.
      destruct (String.eqb p (snd (fst r))) eqn:E.
      * apply String.eqb_eq in E. subst p. exfalso. apply Hp.
        destruct (Py.contains_str _ keys) eqn:Ec.
        -- apply contains_str_In, Ec.
        -- apply in_or_app. right. left. reflexivity.
      * apply Hf. intro Hin. apply Hp.
        destruct (Py.contains_str _ keys); [exact Hin | apply in_or_app; left; exact Hin].
Qed.

Lemma first_seen_from_In (l : list string) : forall (seen : list string) (p : string),
  In p (first_seen_from seen l) <-> In p seen \/ In p l.
Proof.
  induction l as [|x l IH]; intros seen p; cbn [first_seen_from In].
  - tauto.
  - rewrite IH. destruct (Py.contains_str x seen) eqn:E.
    + apply contains_str_In in E. split; [tauto |].
      intros [H | [<- | H]]; tauto.
    + rewrite in_app_iff. cbn [In]. tauto.
Qed.

Lemma performances_of_pattern_nonempty (p : string) (records : list (string * string * Q)) :
  In p (map (fun r => snd (fst r)) records) -> performances_of_pattern p records <> [].
Proof.
  intro Hin. apply in_map_iff in Hin. destruct Hin as (r & <- & Hr).
  unfold performances_of_pattern.
  assert (H : In r (filter (fun r0 => String.eqb (snd (fst r0)) (snd (fst r))) records))
    by (apply filter_In; split; [exact Hr | apply String.eqb_refl]).
  destruct (filter _ records); [destruct H | discriminate].
Qed.

(** The per-pattern averages: the loop never divides by zero. *)
Lemma pattern_averages_spec (patterns : list (string * list Q)) :
  Forall (fun pp => snd pp <> []) patterns ->
  forall averages : list (string * Q),
    for_each (fun averages pp =>
                average <- mean (snd (pp : string * list Q)) ;;
                Py.ret (averages ++ [(fst pp, average)]))
             patterns averages
    = inr (averages ++ map (fun pp => (fst pp, Qmean (snd pp))) patterns).
Proof.
  induction 1 as [|pp patterns Hpp _ IH]; intro averages; cbn [for_each map].
  - rewrite app_nil_r. reflexivity.
  - rewrite (mean_returns _ Hpp). cbn [Py.bind Py.ret].
    rewrite IH, <- app_assoc. reflexivity.
Qed.

Lemma filter_success_length (records : list (string * string * Q)) :
  length (filter success (map to_result records))
  = length (filter (fun r => Py.Qltb (7 # 10) (snd r)) records).
Proof.
  induction records as [|r rs IH]; [reflexivity |].
  cbn [map filter to_result success].
  destruct (Py.Qltb (7 # 10) (snd r)); cbn [length]; rewrite IH; reflexivity.
Qed.

(** The whole report after a non-empty sequence of outcomes whose tiers are
    [low], [medium] or [high]. *)
Lemma report_contents (records : list (string * string * Q)) :
  records <> [] ->
  Forall (fun r => In (fst (fst r)) ["low"; "medium"; "high"]) records ->
  exists r, get_performance_analytics (after_tasks records) = inr (Report r) /\
    r.(total_tasks) = Py.len records /\
    r.(success_rate)
      = inject_Z (Py.len (filter (fun rec => Py.Qltb (7 # 10) (snd rec)) records))
        / inject_Z (Py.len records) /\
    r.(average_performance) = Qmean (map snd records) /\
    r.(complexity_performance)
      = map (fun tier => (tier, match performances_of_tier tier records with
                                | [] => 0
                                | _ :: _ => Qmean (performances_of_tier tier records)
                                end))
            ["low"; "medium"; "high"] /\
    r.(team_pattern_performance)
      = map (fun pattern => (pattern, Qmean (performances_of_pattern pattern records)))
            (first_seen (map (fun rec => snd (fst rec)) records)) /\
    r.(best_performing_pattern)
      = match r.(team_pattern_performance) with
        | [] => None
        | first :: others => Some (fst (max_by_value first others))
        end.
Proof.
  intros Hne Hall. unfold get_performance_analytics.
  destruct (after_tasks_state records) as [-> ->].
  destruct records as [|r0 rs]; [contradiction |].
  set (records := r0 :: rs) in *.
  change (map to_result records) with (to_result r0 :: map to_result rs) at 1.
  cbv iota.
  assert (Hlen : Py.len (map to_result records) = Py.len records)
    by (unfold Py.len; rewrite length_map; reflexivity).
  assert (Hpos : ~ inject_Z (Py.len records) == 0).
  { change 0 with (inject_Z 0). rewrite inject_Z_injective.
    unfold Py.len. subst records. cbn [length]. lia. }
  rewrite Hlen, (div_ok _ _ Hpos). cbn [Py.bind].
  rewrite mean_returns by (subst records; discriminate). cbn [Py.bind].
  assert (Hnd : NoDup ["low"; "medium"; "high"]).
  { repeat constructor; cbn [In]; intros H;
      repeat (destruct H as [H | H]; [discriminate H |]); exact H. }
  pose proof (complexity_stats_spec ["low"; "medium"; "high"] records Hnd Hall
                (fun _ => [])) as Hstats.
  cbn [map] in Hstats. cbn [app] in Hstats.
  rewrite Hstats. cbn [Py.bind].
  rewrite complexity_averages_spec. cbn [Py.bind app map fst snd].
  pose proof (team_patterns_spec records [] (fun _ => []) (NoDup_nil _)
                (fun _ _ => eq_refl)) as Hpat.
  cbn [map] in Hpat. cbn [app] in Hpat.
  fold (first_seen (map (fun r => snd (fst r)) records)) in Hpat.
  rewrite Hpat.
  rewrite pattern_averages_spec.
  - cbn [Py.bind app]. rewrite map_map. cbn [fst snd].
    eexists. split; [reflexivity |].
    cbn [total_tasks success_rate average_performance complexity_performance
         team_pattern_performance best_performing_pattern].
    split; [reflexivity |].
    split; [unfold Py.len; rewrite filter_success_length; reflexivity |].
    repeat split.
  - apply Forall_forall. intros pp Hpp.
    apply in_map_iff in Hpp. destruct Hpp as (p & <- & Hp). cbn [snd].
    apply performances_of_pattern_nonempty.
    apply first_seen_from_In in Hp. destruct Hp as [[] | Hp]. exact Hp.
Qed.

(** A tier outside [low], [medium], [high] makes the report raise. *)
Example unknown_tier_raises :
  get_performance_analytics (after_tasks [("extreme", "A", 8 # 10)])
  = inl (Py.KeyError "extreme").
Proof. reflexivity. Qed.

End AnalyticsFacts.

(** * Further properties of the demos *)

(** ** Convergence simulator: shape of every trace *)

Section SimulatorTraces.

Import ComprehensiveDemo.

(** From a start at or below the target, the trace begins with the start,
    never decreases, never exceeds the target, follows the update rule from
    value to value and has between 2 and 11 values. *)
Theorem simulate_trace_shape (initial target : Q) :
  initial <= target ->
  let trace := simulateQ initial target in
  hd_error trace = Some initial /\
  chain Qle trace /\
  Forall (fun v => v <= target) trace /\
  chain (fun a b => b = stepQ target a) trace /\
  (2 <= length trace <= 11)%nat.
Proof.
  intros Hle trace. subst trace.
  destruct (iterateQ_spec 10 target initial Hle) as (H1 & H2 & H3 & H4).
  destruct (simulate_runs_once Q Qplus Qminus Qmult Py.Qltb Qle_bool
              (15 # 100) (1 # 100) (95 # 100) initial target) as [rest Hrest].
  fold (simulateQ initial target) in Hrest.
  split; [reflexivity |]. split; [exact H1 |].
  split; [constructor; assumption |]. split; [exact H3 |].
  split.
  - rewrite Hrest. cbn [length]. lia.
  - unfold simulateQ, simulate_optimization. cbn [length]. cbv zeta in H4. lia.
Qed.

Lemma simulate_trace_shape_witness :
  65 # 100 <= 85 # 100 /\
  chain Qle (simulateQ (65 # 100) (85 # 100)) /\
  (2 <= length (simulateQ (65 # 100) (85 # 100)) <= 11)%nat.
Proof.
  assert (H : 65 # 100 <= 85 # 100) by (unfold Qle; simpl; lia).
  split; [exact H |].
  destruct (simulate_trace_shape (65 # 100) (85 # 100) H) as (_ & H1 & _ & _ & H2).
  split; [exact H1 | exact H2].
Defined.

(** One update of a performance between 0 and 1 that has not passed the
    target: the value does not pass the target; it reaches the target or
    grows by at least 0.01; the gap to the target shrinks to at most 0.85 of
    what it was; and below the target the value strictly grows.  In exact
    arithmetic the gap after the update is [0.85 * gap - 0.01], or zero:
    the margin of 0.01 leaves room for the rounding of binary64. *)
Theorem step_closes_gap (target current : Q) :
  0 <= current -> current <= target -> target <= 1 ->
  stepQ target current <= target /\
  (stepQ target current == target \/ current + (1 # 100) <= stepQ target current) /\
  target - stepQ target current <= (85 # 100) * (target - current) /\
  (current < target -> current < stepQ target current).
Proof.
  intros _ Hle _. unfold stepQ, step, py_min.
  destruct (Py.Qltb target _) eqn:E.
  - apply Qltb_true in E. split; [apply Qle_refl |].
    split; [left; reflexivity |]. split; [lra |]. intro H. exact H.
  - apply Qltb_false in E. split; [exact E |].
    split; [right; lra |]. split; [lra |]. intro H. lra.
Qed.

Lemma step_closes_gap_witness :
  0 <= 65 # 100 /\ 65 # 100 <= 85 # 100 /\ 85 # 100 <= 1 /\
  65 # 100 < stepQ (85 # 100) (65 # 100) /\
  stepQ (85 # 100) (65 # 100) <= 85 # 100.
Proof.
  assert (H0 : 0 <= 65 # 100) by (unfold Qle; simpl; lia).
  assert (H1 : 65 # 100 <= 85 # 100) by (unfold Qle; simpl; lia).
  assert (H2 : 85 # 100 <= 1) by (unfold Qle; simpl; lia).
  assert (H3 : 65 # 100 < 85 # 100) by (unfold Qlt; simpl; lia).
  split; [exact H0 | split; [exact H1 | split; [exact H2 |]]].
  destruct (step_closes_gap (85 # 100) (65 # 100) H0 H1 H2) as (Hup & _ & _ & Hgrow).
  split; [exact (Hgrow H3) | exact Hup].
Defined.

(** The same update on binary64, from 0.65 towards 0.85: the value is
    0.6900000000000001, and the three bounds hold as Python evaluates
    them. *)
Example step_closes_gap_binary64 :
  stepF 0.85 0.65 = 0.6900000000000001%float /\
  (stepF 0.85 0.65 <=? 0.85)%float = true /\
  (0.65 + 0.01 <=? stepF 0.85 0.65)%float = true /\
  (0.85 - stepF 0.85 0.65 <=? 0.85 * (0.85 - 0.65))%float = true.
Proof. repeat split; vm_compute; reflexivity. Qed.

Lemma iterateQ_stop_rule (iters : nat) (target : Q) : forall current : Q,
  exists body last,
    iterate Q Qplus Qminus Qmult Py.Qltb Qle_bool
      (15 # 100) (1 # 100) (95 # 100) (S iters) target current = body ++ [last] /\
    Forall (fun v => v < target * (95 # 100)) body /\
    ((length (body ++ [last]) < S iters)%nat -> target * (95 # 100) <= last).
Proof.
  induction iters as [|k IH]; intro current.
  - cbn [iterate]. fold (stepQ target current).
    exists [], (stepQ target current). split.
    + destruct (Qle_bool _ _); reflexivity.
    + split; [constructor | cbn [app length]; lia].
  - remember (S k) as n eqn:En. cbn [iterate]. fold (stepQ target current).
    destruct (Qle_bool _ _) eqn:E.
    + exists [], (stepQ target current). split; [reflexivity |].
      split; [constructor |]. intros _. apply Qle_bool_iff, E.
    + subst n. destruct (IH (stepQ target current)) as (body & last & Hb & Hf & Hl).
      exists (stepQ target current :: body), last. rewrite Hb.
      split; [reflexivity |]. split.
      * constructor; [| exact Hf].
        apply Qnot_le_lt. intro H. apply Qle_bool_iff in H. congruence.
      * cbn [app length]. intro H. apply Hl. lia.
Qed.

(** The stop rule, for any start and target: every value between the first
    and the last is below 95% of the target, and a trace shorter than 11
    values ends at or above 95% of the target. *)
Theorem simulate_stop_rule (initial target : Q) :
  exists body last,
    simulateQ initial target = initial :: body ++ [last] /\
    Forall (fun v => v < target * (95 # 100)) body /\
    ((length (simulateQ initial target) < 11)%nat -> target * (95 # 100) <= last).
Proof.
  destruct (iterateQ_stop_rule 9 target initial) as (body & last & Hb & Hf & Hl).
  exists body, last. unfold simulateQ, simulate_optimization.
  rewrite Hb. split; [reflexivity |]. split; [exact Hf |].
  cbn [length]. intro H. apply Hl. lia.
Qed.

Lemma simulate_stop_rule_witness :
  (length (ComprehensiveDemo.simulateQ (65 # 100) (85 # 100)) < 11)%nat /\
  (85 # 100) * (95 # 100) <= last (simulateQ (65 # 100) (85 # 100)) 0.
Proof.
  assert (H : (length (simulateQ (65 # 100) (85 # 100)) < 11)%nat)
    by (vm_compute; lia).
  split; [exact H |].
  destruct (simulate_stop_rule (65 # 100) (85 # 100)) as (body & lst & Hb & _ & Hl).
  rewrite Hb. rewrite app_comm_cons, last_last. exact (Hl H).
Defined.

End SimulatorTraces.

(** ** Graph builders: structure of the graphs *)

Section GraphStructure.

Import GraphVisualizer.

Lemma NoDup_map_injective {A B : Type} (f : A -> B) (l : list A) :
  (forall x y, f x = f y -> x = y) -> NoDup l -> NoDup (map f l).
Proof.
  intros Hf H. induction H as [|a l Ha H IH]; cbn [map]; constructor; [| exact IH].
  intro Hin. apply in_map_iff in Hin. destruct Hin as (x & E & Hx).
  apply Hf in E. subst x. contradiction.
Qed.

Lemma append_edges_ends (w : Q) (c : string) (pairs : list (nat * nat)) :
  forall (es : list edge) (k : nat),
    map ends (fst (fold_left (append_edge w c) pairs (es, k)))
    = map ends es ++ pairs.
Proof.
  induction pairs as [|p ps IH]; intros es k; cbn [fold_left].
  - cbn [fst]. rewrite app_nil_r. reflexivity.
  - unfold append_edge at 2. rewrite IH, map_app, <- app_assoc.
    cbn [map app]. unfold ends at 2. cbn [from to].
    destruct p; reflexivity.
Qed.

Lemma sequential_pairs_In (n a b : nat) :
  In (a, b) (sequential_pairs n) <-> (b = a + 1 /\ b < n)%nat.
Proof.
  unfold sequential_pairs, Py.range. rewrite in_map_iff. split.
  - intros (i & E & Hi). injection E as <- <-. apply in_seq in Hi. lia.
  - intros [-> H]. exists a. split; [reflexivity | apply in_seq; lia].
Qed.

Lemma hub_pairs_In (n a b : nat) :
  In (a, b) (hub_pairs n) <-> (a = 0 /\ 1 <= b < n)%nat.
Proof.
  unfold hub_pairs, Py.range. rewrite in_map_iff. split.
  - intros (i & E & Hi). injection E as <- <-. apply in_seq in Hi. lia.
  - intros [-> H]. exists b. split; [reflexivity | apply in_seq; lia].
Qed.

Lemma full_pairs_In (n a b : nat) :
  In (a, b) (full_pairs n) <-> (a < b < n)%nat.
Proof.
  unfold full_pairs, Py.range. rewrite in_flat_map. split.
  - intros (i & Hi & Hin). apply in_map_iff in Hin.
    destruct Hin as (j & E & Hj). injection E as <- <-.
    apply in_seq in Hi. apply in_seq in Hj. lia.
  - intro H. exists a. split; [apply in_seq; lia |].
    apply in_map_iff. exists b. split; [reflexivity | apply in_seq; lia].
Qed.

Lemma NoDup_map_pair_l {A B : Type} (a : A) (l : list B) :
  NoDup l -> NoDup (map (fun b => (a, b)) l).
Proof.
  intro H. apply NoDup_map_injective; [| exact H].
  intros x y E. injection E as ->. reflexivity.
Qed.

Lemma NoDup_flat_map_pairs (g : nat -> list nat) (l : list nat) :
  NoDup l -> (forall i, NoDup (g i)) ->
  NoDup (flat_map (fun i => map (fun j => (i, j)) (g i)) l).
Proof.
  intros Hl Hg. induction Hl as [|a l Ha Hl IH]; cbn [flat_map].
  - constructor.
  - apply NoDup_app; [apply NoDup_map_pair_l, Hg | exact IH |].
    intros [i j] H1 H2. apply in_map_iff in H1. destruct H1 as (j' & E & _).
    injection E as <- <-. apply in_flat_map in H2.
    destruct H2 as (i' & Hi' & Hin). apply in_map_iff in Hin.
    destruct Hin as (j'' & E & _). injection E as -> _. contradiction.
Qed.

Lemma pattern_pairs_NoDup (n : nat) :
  NoDup (sequential_pairs n) /\ NoDup (hub_pairs n) /\ NoDup (full_pairs n).
Proof.
  split; [| split].
  - unfold sequential_pairs, Py.range.
    apply NoDup_map_injective; [| apply seq_NoDup].
    intros x y E. injection E as ->. reflexivity.
  - unfold hub_pairs. apply NoDup_map_pair_l. apply seq_NoDup.
  - unfold full_pairs. apply NoDup_flat_map_pairs; [apply seq_NoDup |].
    intro i. apply seq_NoDup.
Qed.

Lemma enumerate_nodes (roles : list string) :
  map node_id (map make_node (enumerate roles)) = seq 0 (length roles) /\
  map type (map make_node (enumerate roles)) = roles.
Proof.
  unfold enumerate. generalize 0%nat as start.
  induction roles as [|r rs IH]; intro start; cbn [length seq combine map].
  - split; reflexivity.
  - destruct (IH (S start)) as [H1 H2]. cbn [make_node node_id type].
    rewrite H1, H2. split; reflexivity.
Qed.

(** The pairs the visualizer joins, by label. *)
Lemma generate_graph_data_ends (cfg : config) :
  exists g, _generate_graph_data cfg = inr g /\
    map node_id g.(nodes) = seq 0 (length cfg.(agents)) /\
    map type g.(nodes) = cfg.(agents) /\
    map edge_id g.(edges) = seq 0 (length g.(edges)) /\
    map ends g.(edges)
      = (if cfg.(connections) =? "sequential" then sequential_pairs (length cfg.(agents))
         else if cfg.(connections) =? "full" then full_pairs (length cfg.(agents))
         else if cfg.(connections) =? "hub" then hub_pairs (length cfg.(agents))
         else []).
Proof.
  destruct (generate_graph_data_returns cfg) as (g & Hg & _ & _ & _ & He & _).
  exists g. split; [exact Hg |].
  assert (Hnodes : g.(nodes) = map make_node (enumerate cfg.(agents))).
  { unfold _generate_graph_data in Hg.
    destruct (if (1 <? _)%nat then _ else _) as [e | c]; [discriminate Hg |].
    cbn [Py.bind Py.ret] in Hg. injection Hg as <-. reflexivity. }
  rewrite Hnodes. destruct (enumerate_nodes cfg.(agents)) as [H1 H2].
  split; [exact H1 |]. split; [exact H2 |].
  rewrite He.
  destruct (connections cfg =? "sequential");
    [| destruct (connections cfg =? "full");
       [| destruct (connections cfg =? "hub")]];
    try (split; [rewrite append_edges_length;
                 apply (append_edges_ids _ _ _ [] 0%nat); reflexivity
                | apply (append_edges_ends _ _ _ [] 0%nat)]).
  split; reflexivity.
Qed.

Lemma generate_graph_data_edge_bound (cfg : config) (g : graph_data) :
  _generate_graph_data cfg = inr g ->
  (2 * length g.(edges) <= length cfg.(agents) * (length cfg.(agents) - 1))%nat.
Proof.
  intro Hg. destruct (generate_graph_data_ends cfg) as (g' & Hg' & _ & _ & _ & He).
  rewrite Hg in Hg'. injection Hg' as <-.
  rewrite <- (length_map ends), He.
  destruct (connections cfg =? "sequential");
    [| destruct (connections cfg =? "full");
       [| destruct (connections cfg =? "hub")]].
  - rewrite sequential_pairs_length. nia.
  - rewrite full_pairs_length. lia.
  - rewrite hub_pairs_length. nia.
  - cbn [length]. lia.
Qed.

(** The graph of the visualizer is well formed for every configuration:
    the node ids are 0..n-1 in order and carry the given roles, the edge
    ids are 0..m-1 in order, every edge goes from a node to a later
    existing node, no pair is joined twice, and the statistics count the
    nodes and the edges. *)
Theorem generate_graph_data_well_formed (cfg : config) :
  let n := length cfg.(agents) in
  exists g, _generate_graph_data cfg = inr g /\
    map node_id g.(nodes) = seq 0 n /\
    map type g.(nodes) = cfg.(agents) /\
    map edge_id g.(edges) = seq 0 (length g.(edges)) /\
    Forall (fun e => (from e < to e < n)%nat) g.(edges) /\
    NoDup (map ends g.(edges)) /\
    g.(graph_stats).(num_nodes) = Z.of_nat n /\
    g.(graph_stats).(num_edges) = Z.of_nat (length g.(edges)).
Proof.
  cbv zeta.
  destruct (generate_graph_data_ends cfg) as (g & Hg & Hid & Hty & Heid & He).
  destruct (generate_graph_data_returns cfg) as (g' & Hg' & _ & Hnn & Hne & _).
  rewrite Hg in Hg'. injection Hg' as <-.
  exists g. split; [exact Hg |]. split; [exact Hid |]. split; [exact Hty |].
  split; [exact Heid |].
  destruct (pattern_pairs_NoDup (length cfg.(agents))) as (Ns & Nh & Nf).
  assert (Hends : Forall (fun p => (fst p < snd p < length cfg.(agents))%nat)
                         (map ends g.(edges)) /\ NoDup (map ends g.(edges))).
  { rewrite He.
    destruct (connections cfg =? "sequential");
      [| destruct (connections cfg =? "full");
         [| destruct (connections cfg =? "hub")]];
      (split; [apply Forall_forall; intros [a b] Hin; cbn [fst snd] | assumption || constructor]).
    - apply sequential_pairs_In in Hin. lia.
    - apply full_pairs_In in Hin. lia.
    - apply hub_pairs_In in Hin. lia.
    - destruct Hin. }
  destruct Hends as [Hf Hnd].
  split; [| split; [exact Hnd | split; [exact Hnn | exact Hne]]].
  rewrite Forall_map in Hf. exact Hf.
Qed.

(** Which nodes each topology joins: [sequential] joins every node to the
    next one, [hub] joins node 0 to every other node, and [full] joins
    every node to every later node. *)
Theorem generate_graph_data_topology (roles : list string) (a b : nat) :
  let n := length roles in
  (exists g, _generate_graph_data {| agents := roles; connections := "sequential" |} = inr g /\
     (In (a, b) (map ends g.(edges)) <-> (b = a + 1 /\ b < n)%nat)) /\
  (exists g, _generate_graph_data {| agents := roles; connections := "hub" |} = inr g /\
     (In (a, b) (map ends g.(edges)) <-> (a = 0 /\ 1 <= b < n)%nat)) /\
  (exists g, _generate_graph_data {| agents := roles; connections := "full" |} = inr g /\
     (In (a, b) (map ends g.(edges)) <-> (a < b < n)%nat)).
Proof.
  cbv zeta. split; [| split].
  - destruct (generate_graph_data_ends {| agents := roles; connections := "sequential" |})
      as (g & Hg & _ & _ & _ & He).
    exists g. split; [exact Hg |]. rewrite He. apply sequential_pairs_In.
  - destruct (generate_graph_data_ends {| agents := roles; connections := "hub" |})
      as (g & Hg & _ & _ & _ & He).
    exists g. split; [exact Hg |]. rewrite He. apply hub_pairs_In.
  - destruct (generate_graph_data_ends {| agents := roles; connections := "full" |})
      as (g & Hg & _ & _ & _ & He).
    exists g. split; [exact Hg |]. rewrite He. apply full_pairs_In.
Qed.

Lemma ratio_two_over_n (n : Z) :
  (2 <= n)%Z ->
  inject_Z (n - 1) / (inject_Z (n * (n - 1)) / 2) == 2 / inject_Z n.
Proof.
  intro Hn. rewrite inject_Z_mult.
  assert (H1 : ~ inject_Z n == 0)
    by (change 0 with (inject_Z 0); rewrite inject_Z_injective; lia).
  assert (H2 : ~ inject_Z (n - 1) == 0)
    by (change 0 with (inject_Z 0); rewrite inject_Z_injective; lia).
  field. split; assumption.
Qed.

(** Edge counts and connectivity ratio per connection label. *)
Lemma generate_graph_data_ratio (cfg : config) :
  let n := length cfg.(agents) in
  exists g, _generate_graph_data cfg = inr g /\
    let ratio := g.(graph_stats).(connectivity) in
    (0 <= ratio /\ ratio <= 1) /\
    (cfg.(connections) = "sequential" \/ cfg.(connections) = "hub" ->
     length g.(edges) = (n - 1)%nat /\
     ((2 <= n)%nat -> ratio == 2 / inject_Z (Z.of_nat n))) /\
    (cfg.(connections) = "full" ->
     (2 * length g.(edges) = n * (n - 1))%nat /\ ((2 <= n)%nat -> ratio == 1)).
Proof.
  cbv zeta.
  destruct (generate_graph_data_returns cfg) as (g & Hg & _ & _ & _ & _ & H0 & H1).
  destruct (generate_graph_data_ends cfg) as (g' & Hg' & _ & _ & _ & He).
  rewrite Hg in Hg'. injection Hg' as <-.
  pose proof (generate_graph_data_edge_bound cfg g Hg) as Hb.
  exists g. split; [exact Hg |]. unfold Py.len in *. split; [| split].
  - destruct (le_lt_dec (length cfg.(agents)) 1) as [Hle | Hgt].
    + rewrite H0 by lia. split; [apply Qle_refl | discriminate].
    + rewrite H1 by lia.
      assert (Hpos : 0 < inject_Z (Z.of_nat (length (agents cfg))
                                   * (Z.of_nat (length (agents cfg)) - 1)) / 2).
      { apply Qlt_shift_div_l; [reflexivity |]. rewrite Qmult_0_l.
        change 0 with (inject_Z 0). rewrite <- Zlt_Qlt. nia. }
      split.
      * apply Qle_shift_div_l; [exact Hpos |]. rewrite Qmult_0_l.
        change 0 with (inject_Z 0). rewrite <- Zle_Qle. lia.
      * apply Qle_shift_div_r; [exact Hpos |]. rewrite Qmult_1_l.
        apply Qle_shift_div_l; [reflexivity |].
        change 2 with (inject_Z 2). rewrite <- inject_Z_mult, <- Zle_Qle. nia.
  - intro Hl.
    assert (Hlen : length g.(edges) = (length cfg.(agents) - 1)%nat).
    { rewrite <- (length_map ends), He.
      destruct Hl as [-> | ->]; cbn [String.eqb Ascii.eqb Bool.eqb];
        [apply sequential_pairs_length | apply hub_pairs_length]. }
    split; [exact Hlen |]. intro Hn.
    rewrite H1, Hlen by lia.
    replace (Z.of_nat (length (agents cfg) - 1))
      with (Z.of_nat (length (agents cfg)) - 1)%Z by lia.
    apply ratio_two_over_n. lia.
  - intro Hl.
    assert (Hlen : (2 * length g.(edges)
                    = length cfg.(agents) * (length cfg.(agents) - 1))%nat).
    { rewrite <- (length_map ends), He, Hl. cbn [String.eqb Ascii.eqb Bool.eqb].
      apply full_pairs_length. }
    split; [exact Hlen |]. intro Hn. rewrite H1 by lia.
    assert (E : (Z.of_nat (length (agents cfg)) * (Z.of_nat (length (agents cfg)) - 1)
                 = 2 * Z.of_nat (length g.(edges)))%Z) by nia.
    rewrite E.
    assert (Hpos : ~ inject_Z (Z.of_nat (length g.(edges))) == 0).
    { change 0 with (inject_Z 0). rewrite inject_Z_injective. nia. }
    rewrite inject_Z_mult. change (inject_Z 2) with 2. field. exact Hpos.
Qed.

(** Edge counts and connectivity of the visualizer: [n - 1] edges for
    [sequential] and [hub] with ratio [2 / n] from two nodes on,
    [n * (n - 1) / 2] edges for [full] with ratio 1 from two nodes on; the
    ratio of every configuration lies between 0 and 1. *)
Theorem generate_graph_data_connectivity (cfg : config) :
  let n := length cfg.(agents) in
  exists g, _generate_graph_data cfg = inr g /\
    let ratio := g.(graph_stats).(connectivity) in
    (0 <= ratio /\ ratio <= 1) /\
    (cfg.(connections) = "sequential" \/ cfg.(connections) = "hub" ->
     length g.(edges) = (n - 1)%nat /\
     ((2 <= n)%nat -> ratio == 2 / inject_Z (Z.of_nat n))) /\
    (cfg.(connections) = "full" ->
     (2 * length g.(edges) = n * (n - 1))%nat /\ ((2 <= n)%nat -> ratio == 1)).
Proof. exact (generate_graph_data_ratio cfg). Qed.

Lemma generate_graph_data_connectivity_witness :
  let cfg := {| agents := ["IO"; "TOT"; "IO"; "IO"]; connections := "hub" |} in
  (2 <= length cfg.(agents))%nat /\
  exists g, _generate_graph_data cfg = inr g /\
    length g.(edges) = 3%nat /\ g.(graph_stats).(connectivity) == 1 # 2.
Proof.
  cbv zeta. split; [cbn; lia |].
  destruct (generate_graph_data_connectivity
              {| agents := ["IO"; "TOT"; "IO"; "IO"]; connections := "hub" |})
    as (g & Hg & _ & Hsh & _).
  destruct (Hsh (or_intror eq_refl)) as [Hlen Hr].
  exists g. split; [exact Hg |]. split; [exact Hlen |].
  cbv zeta in Hr. rewrite Hr by (cbn; lia). reflexivity.
Defined.

End GraphStructure.

(** ** Graph builders: the summary of the comprehensive demo *)

Section DemoGraphFacts.

Import ComprehensiveDemo.

Lemma recognised_label_dec (label : string) :
  {label = "sequential"} + {label = "full"} + {label = "hub"}
  + {~ In label ["sequential"; "full"; "hub"]}.
Proof.
  destruct (string_dec label "sequential") as [H1 | H1]; [left; left; left; exact H1 |].
  destruct (string_dec label "full") as [H2 | H2]; [left; left; right; exact H2 |].
  destruct (string_dec label "hub") as [H3 | H3]; [left; right; exact H3 |].
  right. cbn [In]. intros [H | [H | [H | []]]]; congruence.
Qed.

(** [create_demo_graph] fails in one situation only: fewer than two nodes
    under the label [sequential] or [hub], where it divides by zero. *)
Theorem create_demo_graph_raises_iff (cfg : config) :
  (forall e, create_demo_graph cfg = inl e -> e = Py.ZeroDivisionError) /\
  (create_demo_graph cfg = inl Py.ZeroDivisionError
   <-> (Py.len cfg.(agents) <= 1)%Z /\
       (cfg.(connections) = "sequential" \/ cfg.(connections) = "hub")).
Proof.
  assert (Hcases :
    ((Py.len cfg.(agents) <= 1)%Z /\
     (cfg.(connections) = "sequential" \/ cfg.(connections) = "hub") /\
     create_demo_graph cfg = inl Py.ZeroDivisionError)
    \/ (~ ((Py.len cfg.(agents) <= 1)%Z /\
           (cfg.(connections) = "sequential" \/ cfg.(connections) = "hub")) /\
        exists g, create_demo_graph cfg = inr g)).
  { destruct (recognised_label_dec (connections cfg)) as [[[Hl | Hl] | Hl] | Hl].
    - destruct (Z_le_gt_dec (Py.len (agents cfg)) 1) as [Hn | Hn].
      + left. split; [exact Hn |]. split; [left; exact Hl |].
        apply create_demo_graph_raises; [exact Hn | left; exact Hl].
      + right. split; [lia |].
        destruct (create_demo_graph_returns cfg ltac:(lia)) as (g & Hg & _).
        exists g. exact Hg.
    - right. split; [intros [_ [H | H]]; rewrite Hl in H; discriminate H |].
      eexists. apply (create_demo_graph_full cfg Hl).
    - destruct (Z_le_gt_dec (Py.len (agents cfg)) 1) as [Hn | Hn].
      + left. split; [exact Hn |]. split; [right; exact Hl |].
        apply create_demo_graph_raises; [exact Hn | right; exact Hl].
      + right. split; [lia |].
        destruct (create_demo_graph_returns cfg ltac:(lia)) as (g & Hg & _).
        exists g. exact Hg.
    - right. split.
      + intros [_ [H | H]]; apply Hl; rewrite H; cbn [In]; auto.
      + eexists. apply (create_demo_graph_fallback cfg Hl). }
  split.
  - intros e He. destruct Hcases as [(_ & _ & H) | (_ & g & H)]; congruence.
  - split.
    + intro He. destruct Hcases as [(Hn & Hl & _) | (_ & g & H)]; [tauto | congruence].
    + intros [Hn Hl]. apply create_demo_graph_raises; assumption.
Qed.

(** Whenever [create_demo_graph] returns, the summary counts the given
    nodes, the edge count is not negative and the connectivity lies in
    (0, 1]; under [sequential] and [hub] it is [2 / n]. *)
Theorem create_demo_graph_summary (cfg : config) (g : graph) :
  create_demo_graph cfg = inr g ->
  let n := Py.len cfg.(agents) in
  g.(nodes) = n /\ g.(agent_types) = cfg.(agents) /\
  (0 <= g.(edges))%Z /\
  (0 < g.(connectivity) /\ g.(connectivity) <= 1) /\
  (cfg.(connections) = "sequential" \/ cfg.(connections) = "hub" ->
   g.(edges) = (n - 1)%Z /\ g.(connectivity) == 2 / inject_Z n).
Proof.
  intros Hg n. subst n.
  destruct (recognised_label_dec (connections cfg)) as [[[Hl | Hl] | Hl] | Hl].
  - destruct (Z_le_gt_dec (Py.len (agents cfg)) 1) as [Hn | Hn].
    { rewrite (create_demo_graph_raises cfg Hn (or_introl Hl)) in Hg. discriminate Hg. }
    destruct (create_demo_graph_returns cfg ltac:(lia)) as (g' & Hg' & H1 & H2 & Hsh & _).
    rewrite Hg in Hg'. injection Hg' as <-.
    destruct (Hsh (or_introl Hl)) as [He Hc].
    pose proof (ratio_two_over_n (Py.len (agents cfg)) ltac:(lia)) as Hr.
    rewrite <- Hc in Hr.
    assert (Hpos : 0 < inject_Z (Py.len (agents cfg)))
      by (change 0 with (inject_Z 0); rewrite <- Zlt_Qlt; lia).
    split; [exact H1 |]. split; [exact H2 |]. split; [lia |].
    split; [| intros _; split; [exact He | exact Hr]].
    rewrite Hr. split.
    + apply Qlt_shift_div_l; [exact Hpos | rewrite Qmult_0_l; reflexivity].
    + apply Qle_shift_div_r; [exact Hpos |]. rewrite Qmult_1_l.
      change 2 with (inject_Z 2). rewrite <- Zle_Qle. lia.
  - rewrite (create_demo_graph_full cfg Hl) in Hg. injection Hg as <-.
    cbn [nodes agent_types edges connectivity].
    split; [reflexivity |]. split; [reflexivity |].
    split; [apply Z.div_pos; unfold Py.len; nia |].
    split; [split; [reflexivity | apply Qle_refl] |].
    intros [H | H]; rewrite Hl in H; discriminate H.
  - destruct (Z_le_gt_dec (Py.len (agents cfg)) 1) as [Hn | Hn].
    { rewrite (create_demo_graph_raises cfg Hn (or_intror Hl)) in Hg. discriminate Hg. }
    destruct (create_demo_graph_returns cfg ltac:(lia)) as (g' & Hg' & H1 & H2 & Hsh & _).
    rewrite Hg in Hg'. injection Hg' as <-.
    destruct (Hsh (or_intror Hl)) as [He Hc].
    pose proof (ratio_two_over_n (Py.len (agents cfg)) ltac:(lia)) as Hr.
    rewrite <- Hc in Hr.
    assert (Hpos : 0 < inject_Z (Py.len (agents cfg)))
      by (change 0 with (inject_Z 0); rewrite <- Zlt_Qlt; lia).
    split; [exact H1 |]. split; [exact H2 |]. split; [lia |].
    split; [| intros _; split; [exact He | exact Hr]].
    rewrite Hr. split.
    + apply Qlt_shift_div_l; [exact Hpos | rewrite Qmult_0_l; reflexivity].
    + apply Qle_shift_div_r; [exact Hpos |]. rewrite Qmult_1_l.
      change 2 with (inject_Z 2). rewrite <- Zle_Qle. lia.
  - rewrite (create_demo_graph_fallback cfg Hl) in Hg. injection Hg as <-.
    cbn [nodes agent_types edges connectivity].
    split; [reflexivity |]. split; [reflexivity |].
    split; [unfold Py.len; lia |].
    split; [split; [reflexivity | discriminate] |].
    intros [H | H]; exfalso; apply Hl; rewrite H; cbn [In]; auto.
Qed.

Lemma create_demo_graph_summary_witness :
  let cfg := {| agents := ["IO"; "TOT"; "IO"; "IO"]; connections := "hub" |} in
  exists g, create_demo_graph cfg = inr g /\
    g.(edges) = 3%Z /\ g.(connectivity) == 1 # 2.
Proof.
  cbv zeta. eexists. split; [reflexivity |].
  destruct (create_demo_graph_summary
              {| agents := ["IO"; "TOT"; "IO"; "IO"]; connections := "hub" |} _ eq_refl)
    as (_ & _ & _ & _ & H).
  destruct (H (or_intror eq_refl)) as [He Hc].
  split; [exact He |]. rewrite Hc. reflexivity.
Defined.

(** From two nodes on and under the three labels both builders know, the
    summary of the comprehensive demo and the graph of the visualizer
    agree on the number of nodes, the number of edges and the
    connectivity. *)
Theorem builders_agree (cfg : config) :
  (2 <= Py.len cfg.(agents))%Z ->
  In cfg.(connections) ["sequential"; "full"; "hub"] ->
  exists g v,
    create_demo_graph cfg = inr g /\
    GraphVisualizer._generate_graph_data cfg = inr v /\
    g.(nodes) = v.(GraphVisualizer.graph_stats).(GraphVisualizer.num_nodes) /\
    g.(edges) = v.(GraphVisualizer.graph_stats).(GraphVisualizer.num_edges) /\
    g.(connectivity)
      == v.(GraphVisualizer.graph_stats).(GraphVisualizer.connectivity).
Proof.
  intros Hn Hin.
  destruct (create_demo_graph_returns cfg Hn) as (g & Hg & Hnodes & _ & Hsh & Hf & _).
  destruct (generate_graph_data_ratio cfg) as (v & Hv & _ & Vsh & Vf).
  destruct (generate_graph_data_returns cfg) as (v' & Hv' & _ & Vn & Ve & _).
  rewrite Hv in Hv'. injection Hv' as <-.
  exists g, v. split; [exact Hg |]. split; [exact Hv |].
  split; [rewrite Hnodes, Vn; reflexivity |]. rewrite Ve.
  cbv zeta in Vsh, Vf. unfold Py.len in *.
  assert (Hcase : (connections cfg = "sequential" \/ connections cfg = "hub")
                  \/ connections cfg = "full").
  { cbn [In] in Hin. destruct Hin as [H | [H | [H | []]]]; auto. }
  destruct Hcase as [Hl | Hl].
  - destruct (Hsh Hl) as [He Hc]. destruct (Vsh Hl) as [Vlen Vr].
    split; [rewrite He, Vlen; lia |].
    rewrite Hc, Vr by lia. apply ratio_two_over_n. exact Hn.
  - destruct (Hf Hl) as [He Hc]. destruct (Vf Hl) as [Vlen Vr].
    split.
    + rewrite He. symmetry. apply Z.div_unique_exact; [lia | nia].
    + rewrite Hc, Vr by lia. reflexivity.
Qed.

Lemma builders_agree_witness :
  let cfg := {| agents := ["IO"; "IO"; "IO"; "IO"]; connections := "full" |} in
  (2 <= Py.len cfg.(agents))%Z /\
  In cfg.(connections) ["sequential"; "full"; "hub"] /\
  exists g v,
    create_demo_graph cfg = inr g /\
    GraphVisualizer._generate_graph_data cfg = inr v /\
    g.(edges) = v.(GraphVisualizer.graph_stats).(GraphVisualizer.num_edges).
Proof.
  cbv zeta.
  assert (Hn : (2 <= Py.len ["IO"; "IO"; "IO"; "IO"])%Z) by (vm_compute; discriminate).
  assert (Hl : In "full" ["sequential"; "full"; "hub"]) by (right; left; reflexivity).
  split; [exact Hn | split; [exact Hl |]].
  destruct (builders_agree {| agents := ["IO"; "IO"; "IO"; "IO"]; connections := "full" |}
              Hn Hl) as (g & v & Hg & Hv & _ & He & _).
  exists g, v. split; [exact Hg |]. split; [exact Hv | exact He].
Defined.

End DemoGraphFacts.

(** ** Complexity classifier: totality, skills and the lower tiers *)

Section ClassifierRules.

Import ResearchTask.

Lemma indicator_score_zero (query_lower : string) (indicators : list string) :
  (forall w, In w indicators -> Py.str_in w query_lower = false) ->
  indicator_score query_lower indicators = 0%Z.
Proof.
  intro H. unfold indicator_score, Py.len.
  induction indicators as [|w ws IH]; [reflexivity |].
  cbn [filter]. rewrite (H w) by (left; reflexivity).
  apply IH. intros w' Hw'. apply H. right. exact Hw'.
Qed.

Lemma required_skills_filter (query_lower : string) :
  required_skills query_lower
  = map snd (filter (fun rule => any_word query_lower (fst rule)) skill_rules).
Proof.
  unfold required_skills.
  assert (H : forall (rules : list (list string * string)) (acc : list string),
    fold_left (fun skills rule =>
                 if any_word query_lower (fst rule) then skills ++ [snd rule] else skills)
              rules acc
    = acc ++ map snd (filter (fun rule => any_word query_lower (fst rule)) rules)).
  { induction rules as [|r rs IH]; intro acc; cbn [fold_left filter map].
    - rewrite app_nil_r. reflexivity.
    - rewrite IH. destruct (any_word query_lower (fst r)); cbn [map].
      + rewrite <- app_assoc. reflexivity.
      + reflexivity. }
  apply (H skill_rules []).
Qed.

Lemma selected_skills_NoDup (fires : list string -> bool)
  (rules : list (list string * string)) :
  NoDup (map snd rules) ->
  NoDup (map snd (filter (fun rule => fires (fst rule)) rules)).
Proof.
  intro Hnd. induction rules as [|[words skill] rules IH]; [constructor |].
  cbn [map snd] in Hnd. apply NoDup_cons_iff in Hnd. destruct Hnd as [Hfresh Hrest].
  cbn [filter fst]. destruct (fires words); [| exact (IH Hrest)].
  cbn [map snd]. apply NoDup_cons; [| exact (IH Hrest)].
  intro Hin. apply Hfresh. apply in_map_iff in Hin.
  destruct Hin as (rule & Hskill & Hrule). apply filter_In in Hrule.
  apply in_map_iff. exists rule. split; [exact Hskill | exact (proj1 Hrule)].
Qed.

(** [analyze_complexity] returns for every query; the tier is [low],
    [medium] or [high] with its time estimate 60, 180 or 600, there are at
    most five skills, and between 2 and 6 agents are asked for. *)
Theorem analyze_complexity_total (query : string) :
  exists a, analyze_complexity query = inr a /\
    In (a.(complexity), a.(estimated_time))
       [("low", 60%Z); ("medium", 180%Z); ("high", 600%Z)] /\
    (length a.(skills) <= 5)%nat /\
    (2 <= a.(agent_count) <= 6)%Z.
Proof.
  unfold analyze_complexity.
  cbn [complexity_indicators map fst snd Py.getitem String.eqb Ascii.eqb
       Bool.eqb Py.ret Py.bind].
  assert (Hlen : (length (required_skills (Py.lower query)) <= 5)%nat).
  { rewrite required_skills_filter, length_map.
    etransitivity; [apply filter_length_le | cbn; lia]. }
  destruct (0 <? indicator_score (Py.lower query) _)%Z; cbn [Py.bind Py.ret];
    [| destruct (0 <? indicator_score (Py.lower query) _)%Z; cbn [Py.bind Py.ret]];
    (eexists; split; [reflexivity |]);
    cbn [make_analysis complexity estimated_time skills agent_count];
    (split; [cbn; tauto |]); (split; [exact Hlen |]);
    apply estimate_agent_count_bounds.
Qed.

(** The skills of an analysis are the skill names of the rule table, in
    the table's order (research, analysis, coding, synthesis, creativity)
    and without repetition, whose trigger words occur in the lower-cased
    query. *)
Theorem analyze_complexity_skills (query : string) :
  exists a, analyze_complexity query = inr a /\
    a.(skills)
      = map snd (filter (fun rule => any_word (Py.lower query) (fst rule)) skill_rules) /\
    NoDup a.(skills) /\
    (forall skill, In skill a.(skills) <->
       exists words word, In (words, skill) skill_rules /\ In word words /\
         exists pre post, Py.lower query = (pre ++ word ++ post)%string).
Proof.
  destruct (analyze_complexity_returns query) as (a & Ha & _ & Hs & _).
  exists a. split; [exact Ha |]. rewrite Hs, required_skills_filter.
  set (q := Py.lower query).
  split; [| split].
  - reflexivity.
  - apply (selected_skills_NoDup (any_word (Py.lower query)) skill_rules). cbn.
    repeat constructor; cbn [In]; intros H;
      repeat (destruct H as [H | H]; [discriminate H |]); exact H.
  - intro skill. rewrite in_map_iff. split.
    + intros ([words skill'] & E & Hin). cbn [snd] in E. subst skill'.
      apply filter_In in Hin. destruct Hin as [Hin Hany]. cbn [fst] in Hany.
      unfold any_word in Hany. apply existsb_exists in Hany.
      destruct Hany as (word & Hw & Hsub). apply str_in_spec in Hsub.
      exists words, word. split; [exact Hin | split; [exact Hw | exact Hsub]].
    + intros (words & word & Hin & Hw & Hsub). apply str_in_spec in Hsub.
      exists (words, skill). split; [reflexivity |].
      apply filter_In. split; [exact Hin |]. cbn [fst].
      unfold any_word. apply existsb_exists. exists word. split; assumption.
Qed.

(** Without a high-tier indicator in the lower-cased query, the tier is
    [medium] when a medium-tier indicator occurs and [low] otherwise,
    whether or not a low-tier indicator occurs. *)
Theorem medium_and_low_rule (query : string) :
  (forall w, In w ["compare"; "analyze"; "evaluate"; "synthesize"; "integrate";
                   "comprehensive"] ->
             Py.str_in w (Py.lower query) = false) ->
  exists a, analyze_complexity query = inr a /\
    ((exists w, In w ["explain"; "describe"; "summarize"; "overview"; "review"] /\
                Py.str_in w (Py.lower query) = true) ->
     a.(complexity) = "medium") /\
    ((forall w, In w ["explain"; "describe"; "summarize"; "overview"; "review"] ->
                Py.str_in w (Py.lower query) = false) ->
     a.(complexity) = "low").
Proof.
  intro Hhigh.
  destruct (analyze_complexity_returns query) as (a & Ha & Hc & _).
  exists a. split; [exact Ha |].
  cbn [Py.dict_get complexity_indicators String.eqb Ascii.eqb Bool.eqb] in Hc.
  rewrite (indicator_score_zero _ _ Hhigh) in Hc. cbn [Z.ltb Z.compare] in Hc.
  split.
  - intros (w & Hin & Hsub).
    pose proof (indicator_score_pos _ _ _ Hin Hsub) as Hpos.
    apply Z.ltb_lt in Hpos. rewrite Hpos in Hc. exact Hc.
  - intro Hmed. rewrite (indicator_score_zero _ _ Hmed) in Hc. exact Hc.
Qed.

Lemma medium_and_low_rule_witness :
  (forall w, In w ["compare"; "analyze"; "evaluate"; "synthesize"; "integrate";
                   "comprehensive"] ->
             Py.str_in w (Py.lower "Explain WHAT a graph is") = false) /\
  exists a, analyze_complexity "Explain WHAT a graph is" = inr a /\
            a.(complexity) = "medium".
Proof.
  assert (H : forall w, In w ["compare"; "analyze"; "evaluate"; "synthesize";
                              "integrate"; "comprehensive"] ->
                        Py.str_in w (Py.lower "Explain WHAT a graph is") = false).
  { intros w Hw. cbn [In] in Hw.
    repeat (destruct Hw as [<- | Hw]; [vm_compute; reflexivity |]). destruct Hw. }
  split; [exact H |].
  destruct (medium_and_low_rule "Explain WHAT a graph is" H) as (a & Ha & Hm & _).
  exists a. split; [exact Ha |]. apply Hm.
  exists "explain". split; [left; reflexivity | vm_compute; reflexivity].
Defined.

Lemma lower_char_idempotent (c : ascii) :
  Py.lower_char (Py.lower_char c) = Py.lower_char c.
Proof.
  destruct c as [[] [] [] [] [] [] [] []]; vm_compute; reflexivity.
Qed.

Lemma lower_idempotent (s : string) : Py.lower (Py.lower s) = Py.lower s.
Proof.
  induction s as [|c s IH]; cbn [Py.lower]; [reflexivity |].
  rewrite lower_char_idempotent, IH. reflexivity.
Qed.

Lemma lower_app (s t : string) :
  Py.lower (s ++ t) = (Py.lower s ++ Py.lower t)%string.
Proof.
  induction s as [|c s IH]; cbn [Py.lower String.append]; [reflexivity |].
  rewrite IH. reflexivity.
Qed.

(** The analysis does not depend on letter case: a query and its
    lower-cased form get the same analysis, and so do two queries that
    differ only in the case of their letters. *)
Theorem analyze_complexity_ignores_case (query other : string) :
  analyze_complexity (Py.lower query) = analyze_complexity query /\
  (Py.lower other = Py.lower query ->
   analyze_complexity other = analyze_complexity query).
Proof.
  unfold analyze_complexity. rewrite lower_idempotent.
  split; [reflexivity |]. intros ->. reflexivity.
Qed.

Lemma analyze_complexity_ignores_case_witness :
  Py.lower "COMPARE Code" = Py.lower "compare code" /\
  analyze_complexity "COMPARE Code" = analyze_complexity "compare code".
Proof.
  assert (H : Py.lower "COMPARE Code" = Py.lower "compare code")
    by (vm_compute; reflexivity).
  split; [exact H |].
  exact (proj2 (analyze_complexity_ignores_case "compare code" "COMPARE Code") H).
Defined.

End ClassifierRules.

(** ** Team planner: roles, truncation and coverage *)

Section PlannerStructure.

Import AgentTeam.

Lemma first_capable_some (catalog : list (string * list string))
  (skill : string) (selected : list string) (role : string) :
  first_capable catalog skill selected = Some role ->
  ~ In role selected /\
  exists capabilities, In (role, capabilities) catalog /\ In skill capabilities.
Proof.
  induction catalog as [|[agent_type capabilities] rest IH]; cbn [first_capable];
    [discriminate |].
  destruct (Py.contains_str skill capabilities
            && negb (Py.contains_str agent_type selected)) eqn:E.
  - intro H. injection H as <-. apply andb_true_iff in E. destruct E as [E1 E2].
    apply contains_str_In in E1. apply negb_true_iff, contains_str_not_In in E2.
    split; [exact E2 |]. exists capabilities. split; [left; reflexivity | exact E1].
  - intro H. destruct (IH H) as (Hn & caps & Hin & Hs).
    split; [exact Hn |]. exists caps. split; [right; exact Hin | exact Hs].
Qed.

Lemma first_capable_none (catalog : list (string * list string))
  (skill : string) (selected : list string) :
  first_capable catalog skill selected = None ->
  forall role capabilities,
    In (role, capabilities) catalog -> In skill capabilities -> In role selected.
Proof.
  induction catalog as [|[agent_type caps] rest IH]; cbn [first_capable];
    intros H role capabilities Hin Hs; [destruct Hin |].
  destruct (Py.contains_str skill caps && negb (Py.contains_str agent_type selected))
    eqn:E; [discriminate H |].
  destruct Hin as [Heq | Hin]; [| exact (IH H _ _ Hin Hs)].
  injection Heq as -> ->.
  apply contains_str_In in Hs. rewrite Hs in E. cbn [andb] in E.
  apply negb_false_iff, contains_str_In in E. exact E.
Qed.

(** What the skill loop keeps and achieves: the selection stays free of
    repetitions and inside the catalog, grows by at most one role per
    skill, and covers every skill that some catalog role lists. *)
Lemma add_specialized_invariant (skills : list string) : forall selected : list string,
  NoDup selected -> incl selected catalog_roles ->
  let result := add_specialized skills selected in
  NoDup result /\ incl result catalog_roles /\
  (exists extra, result = selected ++ extra) /\
  (length result <= length selected + length skills)%nat /\
  (forall skill, In skill skills ->
     (exists role capabilities,
        In (role, capabilities) agent_capabilities /\ In skill capabilities) ->
     exists role capabilities,
       In role result /\ In (role, capabilities) agent_capabilities /\
       In skill capabilities).
Proof.
  unfold add_specialized.
  induction skills as [|skill skills IH]; intros selected Hnd Hincl; cbv zeta;
    cbn [fold_left].
  - split; [exact Hnd |]. split; [exact Hincl |].
    split; [exists []; rewrite app_nil_r; reflexivity |].
    split; [cbn [length]; lia |]. intros s [].
  - destruct (first_capable agent_capabilities skill selected) as [role |] eqn:E.
    + destruct (first_capable_some _ _ _ _ E) as (Hn & caps & Hin & Hs).
      destruct (IH (selected ++ [role])) as (H1 & H2 & [extra H3] & H4 & H5).
      * apply NoDup_app; [exact Hnd | repeat constructor; intros [] |].
        intros x Hx [<- | []]. contradiction.
      * intros x Hx. apply in_app_or in Hx. destruct Hx as [Hx | [<- | []]].
        -- apply Hincl, Hx.
        -- unfold catalog_roles. apply in_map_iff. exists (role, caps). split; [reflexivity | exact Hin].
      * cbv zeta in H1, H2, H3, H4, H5.
        split; [exact H1 |]. split; [exact H2 |].
        split; [exists (role :: extra); rewrite H3, <- app_assoc; reflexivity |].
        split; [rewrite length_app in H4; cbn [length] in *; lia |].
        intros s [<- | Hs'] Hex; [| exact (H5 s Hs' Hex)].
        exists role, caps. split; [| split; assumption].
        rewrite H3. apply in_or_app. left. apply in_or_app. right. left. reflexivity.
    + destruct (IH selected Hnd Hincl) as (H1 & H2 & [extra H3] & H4 & H5).
      cbv zeta in H1, H2, H3, H4, H5.
      split; [exact H1 |]. split; [exact H2 |].
      split; [exists extra; exact H3 |].
      split; [cbn [length]; lia |].
      intros s [<- | Hs'] Hex; [| exact (H5 s Hs' Hex)].
      destruct Hex as (role & caps & Hin & Hs).
      exists role, caps. split; [| split; assumption].
      rewrite H3. apply in_or_app. left.
      exact (first_capable_none _ _ _ E _ _ Hin Hs).
Qed.

(** The roles selected before padding and truncation. *)
Lemma selection_structure (complexity : string) (skills : list string) :
  let selected := selection complexity skills in
  (exists rest, selected = "IO" :: rest) /\
  NoDup selected /\ incl selected catalog_roles /\
  (length selected <= Nat.min (length skills + 2) 6)%nat /\
  (complexity <> "high" -> length selected <= length skills + 1)%nat /\
  (complexity = "high" -> In "TOT" selected) /\
  (forall skill, In skill skills ->
     (exists role capabilities,
        In (role, capabilities) agent_capabilities /\ In skill capabilities) ->
     exists role capabilities,
       In role selected /\ In (role, capabilities) agent_capabilities /\
       In skill capabilities).
Proof.
  cbv zeta. unfold selection.
  destruct (add_specialized_invariant skills ["IO"]) as (H1 & H2 & [extra H3] & H4 & H5).
  { repeat constructor. intros []. }
  { intros x [<- | []]. cbn. left. reflexivity. }
  cbv zeta in H1, H2, H3, H4, H5. cbn [length] in H4.
  assert (Hsix : forall l, NoDup l -> incl l catalog_roles -> (length l <= 6)%nat).
  { intros l Hn Hi. apply (NoDup_incl_length Hn Hi). }
  destruct ((complexity =? "high")
            && negb (Py.contains_str "TOT" (add_specialized skills ["IO"]))) eqn:E.
  - apply andb_true_iff in E. destruct E as [Eh Et].
    apply String.eqb_eq in Eh. apply negb_true_iff, contains_str_not_In in Et.
    assert (Hnd : NoDup (add_specialized skills ["IO"] ++ ["TOT"])).
    { apply NoDup_app; [exact H1 | repeat constructor; intros [] |].
      intros x Hx [<- | []]. contradiction. }
    assert (Hin : incl (add_specialized skills ["IO"] ++ ["TOT"]) catalog_roles).
    { intros x Hx. apply in_app_or in Hx. destruct Hx as [Hx | [<- | []]].
      - apply H2, Hx.
      - cbn. tauto. }
    split; [rewrite H3; eexists; reflexivity |].
    split; [exact Hnd |]. split; [exact Hin |].
    pose proof (Hsix _ Hnd Hin) as H6. rewrite length_app in *. cbn [length] in *.
    split; [lia |]. split; [intro Hc; contradiction |].
    split; [intros _; apply in_or_app; right; left; reflexivity |].
    intros s Hs Hex. destruct (H5 s Hs Hex) as (role & caps & Hr & Hrest).
    exists role, caps. split; [apply in_or_app; left; exact Hr | exact Hrest].
  - split; [rewrite H3; eexists; reflexivity |].
    split; [exact H1 |]. split; [exact H2 |].
    pose proof (Hsix _ H1 H2) as H6.
    split; [lia |]. split; [intros _; lia |].
    split; [| exact H5].
    intro Hc. apply andb_false_iff in E. destruct E as [E | E].
    + apply String.eqb_neq in E. contradiction.
    + apply negb_false_iff, contains_str_In in E. exact E.
Qed.

(** The team of [formTeam]: the selection, padded with [IO] up to the
    target size and cut at the target size. *)
Lemma formTeam_agents_structure (tier : string) (skills : list string) :
  let count := ResearchTask._estimate_agent_count tier skills in
  let selected := selection tier skills in
  exists plan k, formTeam tier skills = inr plan /\
    plan.(agents) = firstn (Z.to_nat count) (selected ++ repeat "IO" k) /\
    (Z.of_nat (length (selected ++ repeat "IO" k))
     = Z.max count (Z.of_nat (length selected))) /\
    plan.(formation_strategy) = _determine_formation_strategy tier skills /\
    plan.(collaboration_pattern) = _determine_collaboration_pattern plan.(agents) /\
    _estimate_performance plan.(agents) skills = inr plan.(estimated_performance).
Proof.
  cbv zeta. pose proof (estimate_agent_count_bounds tier skills) as Hb.
  unfold formTeam, form_team. cbv zeta.
  cbn [ResearchTask.make_analysis ResearchTask.complexity ResearchTask.skills
       ResearchTask.agent_count].
  set (c := ResearchTask._estimate_agent_count tier skills) in *.
  match goal with |- context [add_IO _ c ?x] => change x with (selection tier skills) end.
  set (selected := selection tier skills).
  destruct (add_IO_spec (Z.to_nat (c - Py.len selected)) c selected (Nat.le_refl _))
    as [[k Hk] Hlen].
  rewrite Hk in *.
  assert (Hslice : Py.slice_to (selected ++ repeat "IO" k) c
                   = firstn (Z.to_nat c) (selected ++ repeat "IO" k)).
  { unfold Py.slice_to. destruct (0 <=? c)%Z eqn:E; [reflexivity |].
    apply Z.leb_gt in E. lia. }
  rewrite Hslice.
  destruct (estimate_performance_returns
              (firstn (Z.to_nat c) (selected ++ repeat "IO" k)) skills) as (p & Hp & _).
  rewrite Hp. cbn [Py.bind Py.ret].
  eexists. exists k. split; [reflexivity |].
  cbn [agents formation_strategy collaboration_pattern estimated_performance].
  split; [reflexivity |]. split; [exact Hlen |].
  split; [reflexivity |]. split; [reflexivity | exact Hp].
Qed.

Lemma firstn_NoDup {A : Type} (n : nat) (l : list A) : NoDup l -> NoDup (firstn n l).
Proof.
  intro H. revert n. induction H as [|a l Ha H IH]; intro n.
  - rewrite firstn_nil. constructor.
  - destruct n as [|n]; cbn [firstn]; constructor; [| apply IH].
    intro Hin. apply Ha. rewrite <- (firstn_skipn n l). apply in_or_app. left. exact Hin.
Qed.

Lemma firstn_incl {A : Type} (n : nat) (l : list A) : incl (firstn n l) l.
Proof.
  intros x Hx. rewrite <- (firstn_skipn n l). apply in_or_app. left. exact Hx.
Qed.

Lemma filter_only_IO (l : list string) :
  (forall role, In role l -> role = "IO") ->
  filter (fun role => negb (role =? "IO")) l = [].
Proof.
  induction l as [|r l IH]; intro H; [reflexivity |].
  cbn [filter]. rewrite (H r) by (left; reflexivity). cbn [String.eqb Ascii.eqb Bool.eqb negb].
  apply IH. intros role Hr. apply H. right. exact Hr.
Qed.

(** Every team member is a role of the catalog, and only the coordinator
    [IO] can occur more than once: the other members are pairwise
    distinct. *)
Theorem formTeam_roles (tier : string) (skills : list string) :
  exists plan, formTeam tier skills = inr plan /\
    Forall (fun role => In role ["IO"; "TOT"; "WEB"; "CODE"; "CREATIVE"; "CRITIC"])
           plan.(agents) /\
    NoDup (filter (fun role => negb (role =? "IO")) plan.(agents)).
Proof.
  destruct (formTeam_agents_structure tier skills) as (plan & k & Hp & Ha & _).
  destruct (selection_structure tier skills) as (_ & Hnd & Hincl & _).
  cbv zeta in Ha, Hnd, Hincl.
  exists plan. split; [exact Hp |]. rewrite Ha. split.
  - apply Forall_forall. intros role Hr. apply firstn_incl in Hr.
    apply in_app_or in Hr. destruct Hr as [Hr | Hr].
    + apply Hincl in Hr. exact Hr.
    + apply repeat_spec in Hr. subst role. left. reflexivity.
  - rewrite firstn_app, filter_app.
    assert (E : filter (fun role => negb (role =? "IO"))
                  (firstn (Z.to_nat (ResearchTask._estimate_agent_count tier skills)
                           - length (selection tier skills)) (repeat "IO" k)) = []).
    { apply filter_only_IO. intros role Hr. apply firstn_incl in Hr.
      apply repeat_spec in Hr. exact Hr. }
    rewrite E, app_nil_r. apply NoDup_filter, firstn_NoDup, Hnd.
Qed.

(** When the target size leaves room for the whole selection, the cut at
    the target size removes nothing. *)
Lemma formTeam_room (tier : string) (skills : list string) :
  tier = "high" \/ (tier <> "low" /\ (length skills <= 4)%nat)
  \/ (length skills <= 2)%nat ->
  exists plan k, formTeam tier skills = inr plan /\
    plan.(agents) = selection tier skills ++ repeat "IO" k /\
    plan.(formation_strategy) = _determine_formation_strategy tier skills /\
    plan.(collaboration_pattern) = _determine_collaboration_pattern plan.(agents) /\
    _estimate_performance plan.(agents) skills = inr plan.(estimated_performance).
Proof.
  intro Hroom.
  destruct (formTeam_agents_structure tier skills)
    as (plan & k & Hp & Ha & Hlen & Hs & Hc & He).
  destruct (selection_structure tier skills) as (_ & _ & _ & H6 & Hnh & _).
  cbv zeta in Ha, Hlen, H6, Hnh.
  assert (Hfit : (Z.of_nat (length (selection tier skills))
                  <= ResearchTask._estimate_agent_count tier skills)%Z).
  { unfold ResearchTask._estimate_agent_count, Py.len. cbn [Py.dict_get].
    pose proof (Z.div_mod (Z.of_nat (length skills)) 2 ltac:(lia)) as Hd.
    pose proof (Z.mod_pos_bound (Z.of_nat (length skills)) 2 ltac:(lia)) as Hm.
    destruct Hroom as [-> | [[Hl Hk] | Hk]].
    - cbn [String.eqb Ascii.eqb Bool.eqb]. lia.
    - destruct (string_dec tier "high") as [-> | Hne].
      + cbn [String.eqb Ascii.eqb Bool.eqb]. lia.
      + specialize (Hnh Hne).
        destruct (tier =? "low") eqn:E; [apply String.eqb_eq in E; contradiction |].
        destruct (tier =? "medium"); [lia |].
        destruct (tier =? "high"); lia.
    - destruct (string_dec tier "high") as [-> | Hne].
      + cbn [String.eqb Ascii.eqb Bool.eqb]. lia.
      + specialize (Hnh Hne).
        destruct (tier =? "low"); [lia |].
        destruct (tier =? "medium"); [lia |].
        destruct (tier =? "high"); lia. }
  exists plan, k. split; [exact Hp |].
  split; [rewrite Ha; apply firstn_all2; lia |].
  split; [exact Hs |]. split; [exact Hc | exact He].
Qed.

(** When the target size leaves room for the whole selection - tier [high];
    or a tier other than [low] with at most four skills; or at most two
    skills - nothing is cut: the team is [IO], the matched roles and [IO]
    padding, and every required skill that some catalog role lists is
    listed by a team member. *)
Theorem formTeam_keeps_matched_roles (tier : string) (skills : list string) :
  tier = "high" \/ (tier <> "low" /\ (length skills <= 4)%nat)
  \/ (length skills <= 2)%nat ->
  exists plan k, formTeam tier skills = inr plan /\
    plan.(agents) = selection tier skills ++ repeat "IO" k /\
    (forall skill, In skill skills ->
       (exists role capabilities,
          In (role, capabilities) agent_capabilities /\ In skill capabilities) ->
       exists role capabilities,
         In role plan.(agents) /\ In (role, capabilities) agent_capabilities /\
         In skill capabilities).
Proof.
  intro Hroom.
  destruct (formTeam_room tier skills Hroom) as (plan & k & Hp & Hall & _).
  destruct (selection_structure tier skills) as (_ & _ & _ & _ & _ & _ & Hcov).
  cbv zeta in Hcov.
  exists plan, k. split; [exact Hp |]. split; [exact Hall |].
  intros skill Hs Hex. destruct (Hcov skill Hs Hex) as (role & caps & Hr & Hrest).
  exists role, caps. split; [| exact Hrest].
  rewrite Hall. apply in_or_app. left. exact Hr.
Qed.

Lemma formTeam_keeps_matched_roles_witness :
  (length ["analysis"; "coding"; "creativity"] <= 4)%nat /\
  exists plan, formTeam "medium" ["analysis"; "coding"; "creativity"] = inr plan /\
    plan.(agents) = ["IO"; "TOT"; "CODE"; "CREATIVE"].
Proof.
  assert (H : "medium" <> "low" /\ (length ["analysis"; "coding"; "creativity"] <= 4)%nat)
    by (split; [discriminate | cbn; lia]).
  split; [exact (proj2 H) |].
  destruct (formTeam_keeps_matched_roles "medium" ["analysis"; "coding"; "creativity"]
              (or_intror (or_introl H))) as (plan & k & Hp & Ha & _).
  exists plan. split; [exact Hp |].
  injection Hp as <-. reflexivity.
Defined.

Lemma predicted_performance_floor (table : list (string * list string))
  (team skills : list string) :
  (6 # 10) + (1 # 10) * Qmin (inject_Z (Py.len team) / 4) 1
  <= spec_predicted_performance table team skills.
Proof.
  unfold spec_predicted_performance.
  set (covered := Py.len (filter _ skills)).
  assert (Hc : 0 <= inject_Z covered / inject_Z (Z.max (Py.len skills) 1)).
  { apply Qle_shift_div_l.
    - change 0 with (inject_Z 0). rewrite <- Zlt_Qlt. lia.
    - rewrite Qmult_0_l. change 0 with (inject_Z 0). rewrite <- Zle_Qle.
      subst covered. unfold Py.len. lia. }
  assert (Ht : Qmin (inject_Z (Py.len team) / 4) 1 <= 1) by apply Q.le_min_r.
  set (x := inject_Z covered / _) in *. set (y := Qmin (_ / 4) 1) in *.
  apply Q.min_glb; lra.
Qed.

Lemma filter_none {A : Type} (f : A -> bool) (l : list A) :
  Forall (fun x => f x = false) l -> filter f l = [].
Proof.
  induction 1 as [|x l Hx _ IH]; [reflexivity |].
  cbn [filter]. rewrite Hx. exact IH.
Qed.

Lemma team_size_bonus (n : Z) :
  ((2 <= n)%Z -> 1 # 2 <= Qmin (inject_Z n / 4) 1) /\
  ((4 <= n)%Z -> Qmin (inject_Z n / 4) 1 == 1).
Proof.
  split; intro H.
  - apply Q.min_glb; [| discriminate].
    apply Qle_shift_div_l; [reflexivity |].
    assert (E : (1 # 2) * 4 == inject_Z 2) by reflexivity.
    rewrite E, <- Zle_Qle. exact H.
  - apply Q.min_r. apply Qle_shift_div_l; [reflexivity |].
    assert (E : 1 * 4 == inject_Z 4) by reflexivity.
    rewrite E, <- Zle_Qle. exact H.
Qed.

Lemma predicted_performance_full (team skills : list string) :
  (4 <= Py.len team)%Z -> skills <> [] ->
  Forall (fun skill => covered_by agent_skill_map team skill = true) skills ->
  spec_predicted_performance agent_skill_map team skills == 1.
Proof.
  intros H Hne Hall. destruct (team_size_bonus (Py.len team)) as [_ H4].
  specialize (H4 H). unfold spec_predicted_performance.
  assert (Hf : filter (covered_by agent_skill_map team) skills = skills).
  { apply forallb_filter_id. apply forallb_forall. apply Forall_forall. exact Hall. }
  rewrite Hf, H4.
  assert (Hm : Z.max (Py.len skills) 1 = Py.len skills).
  { destruct skills; [contradiction | unfold Py.len; cbn [length]; lia]. }
  rewrite Hm.
  assert (Hnz : ~ inject_Z (Py.len skills) == 0).
  { change 0 with (inject_Z 0). rewrite inject_Z_injective.
    destruct skills; [contradiction | unfold Py.len; cbn [length]; lia]. }
  setoid_replace (inject_Z (Py.len skills) / inject_Z (Py.len skills)) with 1
    by (field; exact Hnz).
  reflexivity.
Qed.

(** Range of the predicted performance: at least 0.6 and at most 1 for any
    team, at least 0.65 from two members on and at least 0.7 from four
    members on; at least 0.99 for four or more members that cover every
    skill of a non-empty list (1 in exact arithmetic, one step below 1 in
    binary64); and at most 0.7 when no skill is covered. *)
Theorem estimate_performance_range (team skills : list string) :
  exists p, _estimate_performance team skills = inr p /\
    (6 # 10 <= p /\ p <= 1) /\
    ((2 <= Py.len team)%Z -> 65 # 100 <= p) /\
    ((4 <= Py.len team)%Z -> 7 # 10 <= p) /\
    ((4 <= Py.len team)%Z -> skills <> [] ->
     Forall (fun skill => covered_by agent_skill_map team skill = true) skills ->
     99 # 100 <= p) /\
    (Forall (fun skill => covered_by agent_skill_map team skill = false) skills ->
     p <= 7 # 10).
Proof.
  destruct (estimate_performance_returns team skills) as (p & Hp & Heq).
  exists p. split; [exact Hp |]. rewrite Heq.
  pose proof (spec_predicted_performance_bounds agent_skill_map team skills) as Hb.
  pose proof (predicted_performance_floor agent_skill_map team skills) as Hfl.
  destruct (team_size_bonus (Py.len team)) as [H2 H4].
  split; [exact Hb |].
  split; [intro H; specialize (H2 H); lra |].
  split; [intro H; specialize (H4 H); rewrite H4 in Hfl; lra |].
  split.
  - intros H Hne Hall. rewrite (predicted_performance_full team skills H Hne Hall).
    discriminate.
  - intro Hnone. unfold spec_predicted_performance.
    pose proof (filter_none _ _ Hnone) as Hf.
    rewrite Hf. eapply Qle_trans; [apply Q.le_min_l |].
    pose proof (Q.le_min_r (inject_Z (Py.len team) / 4) 1) as Hr.
    change (inject_Z (Py.len [])) with 0.
    assert (E : 0 / inject_Z (Z.max (Py.len skills) 1) == 0)
      by (unfold Qdiv; apply Qmult_0_l).
    rewrite E. set (y := Qmin (_ / 4) 1) in *. lra.
Qed.

Lemma estimate_performance_range_witness :
  (4 <= Py.len ["IO"; "TOT"; "CODE"; "IO"])%Z /\
  ["analysis"; "coding"] <> [] /\
  Forall (fun skill =>
            covered_by agent_skill_map ["IO"; "TOT"; "CODE"; "IO"] skill = true)
         ["analysis"; "coding"] /\
  exists p, _estimate_performance ["IO"; "TOT"; "CODE"; "IO"] ["analysis"; "coding"]
            = inr p /\ 99 # 100 <= p.
Proof.
  assert (H1 : (4 <= Py.len ["IO"; "TOT"; "CODE"; "IO"])%Z) by (vm_compute; discriminate).
  assert (H2 : ["analysis"; "coding"] <> []) by discriminate.
  assert (H3 : Forall (fun skill =>
            covered_by agent_skill_map ["IO"; "TOT"; "CODE"; "IO"] skill = true)
         ["analysis"; "coding"]) by (repeat constructor).
  split; [exact H1 | split; [exact H2 | split; [exact H3 |]]].
  destruct (estimate_performance_range ["IO"; "TOT"; "CODE"; "IO"] ["analysis"; "coding"])
    as (p & Hp & _ & _ & _ & Hall & _).
  exists p. split; [exact Hp | exact (Hall H1 H2 H3)].
Defined.

(** The same team and skills on binary64: 0.6 + 0.3 + 0.1 is one step below
    1, and still at least 0.99. *)
Example estimate_performance_binary64 :
  _estimate_performanceF ["IO"; "TOT"; "CODE"; "IO"] ["analysis"; "coding"]
  = 0.9999999999999999%float /\
  (0.99 <=? _estimate_performanceF ["IO"; "TOT"; "CODE"; "IO"] ["analysis"; "coding"])%float
  = true.
Proof. split; vm_compute; reflexivity. Qed.

(** A [high] complexity always gets the deep-reasoning role: the team has
    at least four members, contains [TOT], collaborates as
    [hub_and_spoke], is never formed as [simple_parallel], and its
    predicted performance is at least 0.7. *)
Theorem formTeam_high (skills : list string) :
  exists plan, formTeam "high" skills = inr plan /\
    In "TOT" plan.(agents) /\
    (4 <= Py.len plan.(agents))%Z /\
    plan.(collaboration_pattern) = "hub_and_spoke" /\
    plan.(formation_strategy) <> "simple_parallel" /\
    7 # 10 <= plan.(estimated_performance).
Proof.
  destruct (formTeam_room "high" skills (or_introl eq_refl))
    as (plan & k & Hp & Ha & Hs & Hc & He).
  destruct (formTeam_returns "high" skills) as (plan' & Hp' & Hlen & _).
  rewrite Hp in Hp'. injection Hp' as <-.
  destruct (selection_structure "high" skills) as (_ & _ & _ & _ & _ & Htot & _).
  cbv zeta in Htot.
  pose proof (estimate_agent_count_bounds "high" skills) as Hb.
  assert (H4 : (4 <= Py.len plan.(agents))%Z).
  { rewrite Hlen. unfold ResearchTask._estimate_agent_count.
    cbn [Py.dict_get String.eqb Ascii.eqb Bool.eqb].
    assert (0 <= Py.len skills / 2)%Z by (apply Z.div_pos; unfold Py.len; lia). lia. }
  assert (Hin : In "TOT" plan.(agents)).
  { rewrite Ha. apply in_or_app. left. apply Htot. reflexivity. }
  exists plan. split; [exact Hp |]. split; [exact Hin |]. split; [exact H4 |].
  split; [| split].
  - rewrite Hc. unfold _determine_collaboration_pattern.
    assert (E1 : (Py.len plan.(agents) <=? 2)%Z = false) by (apply Z.leb_gt; lia).
    apply contains_str_In in Hin. rewrite E1, Hin. reflexivity.
  - rewrite Hs. unfold _determine_formation_strategy.
    cbn [String.eqb Ascii.eqb Bool.eqb andb].
    destruct (3 <? Py.len skills)%Z; [discriminate |].
    destruct (2 <? Py.len skills)%Z; discriminate.
  - destruct (estimate_performance_returns plan.(agents) skills) as (p & Hp2 & Heq).
    rewrite He in Hp2. injection Hp2 as <-. rewrite Heq.
    pose proof (predicted_performance_floor agent_skill_map plan.(agents) skills) as Hfl.
    destruct (team_size_bonus (Py.len plan.(agents))) as [_ Hb4].
    rewrite (Hb4 H4) in Hfl. lra.
Qed.

End PlannerStructure.

(** ** The mock model *)

Section MockLLMFacts.

Import MockLLM.

(** [agenerate] always answers with one of its five canned responses; the
    answer is the code response exactly when the lower-cased prompt
    contains [code] or [python], and the final response exactly when it
    contains none of the eight keywords. *)
Theorem agenerate_answers (prompt : string) :
  let p := Py.lower prompt in
  exists answer, agenerate prompt = inr answer /\
    In answer (map snd responses) /\
    (Py.getitem responses "coding" = inr answer
     <-> Py.str_in "code" p = true \/ Py.str_in "python" p = true) /\
    (Py.getitem responses "final" = inr answer
     <-> Forall (fun word => Py.str_in word p = false)
           ["code"; "python"; "research"; "search"; "creative"; "story";
            "reason"; "analysis"]).
Proof.
  cbv zeta. unfold agenerate.
  destruct (Py.str_in "code" (Py.lower prompt)) eqn:E1;
  destruct (Py.str_in "python" (Py.lower prompt)) eqn:E2;
    cbn [orb];
    try (eexists; split; [reflexivity |];
         split; [cbn; tauto |];
         split; [split; [intros _; auto | intros _; reflexivity] |];
         split; [intro H; discriminate H
                | intro H; exfalso;
                  repeat match goal with
                         | H : Forall _ (_ :: _) |- _ => inversion H; clear H; subst
                         end; congruence]).
  destruct (Py.str_in "research" (Py.lower prompt)) eqn:E3;
  destruct (Py.str_in "search" (Py.lower prompt)) eqn:E4;
    cbn [orb];
    try (eexists; split; [reflexivity |];
         split; [cbn; tauto |];
         split; [split; [intro H; discriminate H | intros [H | H]; discriminate H] |];
         split; [intro H; discriminate H
                | intro H; exfalso;
                  repeat match goal with
                         | H : Forall _ (_ :: _) |- _ => inversion H; clear H; subst
                         end; congruence]).
  destruct (Py.str_in "creative" (Py.lower prompt)) eqn:E5;
  destruct (Py.str_in "story" (Py.lower prompt)) eqn:E6;
    cbn [orb];
    try (eexists; split; [reflexivity |];
         split; [cbn; tauto |];
         split; [split; [intro H; discriminate H | intros [H | H]; discriminate H] |];
         split; [intro H; discriminate H
                | intro H; exfalso;
                  repeat match goal with
                         | H : Forall _ (_ :: _) |- _ => inversion H; clear H; subst
                         end; congruence]).
  destruct (Py.str_in "reason" (Py.lower prompt)) eqn:E7;
  destruct (Py.str_in "analysis" (Py.lower prompt)) eqn:E8;
    cbn [orb];
    try (eexists; split; [reflexivity |];
         split; [cbn; tauto |];
         split; [split; [intro H; discriminate H | intros [H | H]; discriminate H] |];
         split; [intro H; discriminate H
                | intro H; exfalso;
                  repeat match goal with
                         | H : Forall _ (_ :: _) |- _ => inversion H; clear H; subst
                         end; congruence]).
  eexists. split; [reflexivity |]. split; [cbn; tauto |].
  split; [split; [intro H; discriminate H | intros [H | H]; discriminate H] |].
  split; [intros _; repeat constructor; assumption | intros _; reflexivity].
Qed.

End MockLLMFacts.

(** ** Research teams and the summary of the comprehensive demo *)

Section DemoTeamsFacts.

Import DemoTeams.

(** The research team has 2, 3 or 4 members by complexity (4 for any
    complexity other than [low] and [medium]), exactly as many types as its
    size, only [IO] and [TOT] members, a [TOT] member exactly when
    [analysis] is required, and it reports the required skills as covered
    whatever they are. *)
Theorem form_research_team_shape (query : research_query) :
  let team := form_research_team query in
  team.(size) = (if query.(complexity) =? "low" then 2%Z
                 else if query.(complexity) =? "medium" then 3%Z else 4%Z) /\
  Py.len team.(types) = team.(size) /\
  Forall (fun t => t = "IO" \/ t = "TOT") team.(types) /\
  (In "TOT" team.(types) <-> In "analysis" query.(required_skills)) /\
  team.(skills_covered) = query.(required_skills).
Proof.
  cbv zeta. unfold form_research_team. cbv zeta.
  rewrite <- (contains_str_In "analysis").
  destruct (Py.contains_str "research" (required_skills query));
    destruct (Py.contains_str "analysis" (required_skills query));
    destruct (Py.contains_str "synthesis" (required_skills query));
    (destruct (complexity query =? "low");
     [| destruct (complexity query =? "medium")]);
    cbn [size types skills_covered];
    match goal with
    | |- context [Py.slice_to ?l ?k] =>
        let v := eval vm_compute in (Py.slice_to l k) in
        change (Py.slice_to l k) with v
    end;
    (split; [reflexivity |]); (split; [reflexivity |]);
    (split; [repeat (apply Forall_cons; [first [left; reflexivity | right; reflexivity] |]);
             apply Forall_nil |]);
    (split; [| reflexivity]);
    (split; intro H;
     [first [reflexivity
            | cbn [In] in H;
              repeat (destruct H as [H | H]; [discriminate H |]); destruct H]
     | first [discriminate H | cbn [In]; auto 6]]).
Qed.

Lemma tally_invariant (results : demo_results) : forall acc : Z * Z,
  (0 <= snd acc <= fst acc)%Z ->
  (0 <= snd (fold_left tally results acc) <= fst (fold_left tally results acc))%Z /\
  (fst acc <= fst (fold_left tally results acc))%Z.
Proof.
  induction results as [|[demo_name rs] results IH]; intros acc Hacc; cbn [fold_left].
  - split; [exact Hacc | lia].
  - assert (Hf : (Py.len (filter is_success rs) <= Py.len rs)%Z)
      by (unfold Py.len; pose proof (filter_length_le is_success rs); lia).
    assert (Hn : (0 <= Py.len (filter is_success rs))%Z) by (unfold Py.len; lia).
    assert (Hstep : (0 <= snd (tally acc (demo_name, rs)) <= fst (tally acc (demo_name, rs)))%Z
                    /\ (fst acc <= fst (tally acc (demo_name, rs)))%Z).
    { unfold tally.
      destruct (demo_name =? "multi_domain"); [cbn [fst snd]; lia |].
      destruct (demo_name =? "visualization"); [cbn [fst snd]; unfold Py.len; lia |].
      destruct (demo_name =? "optimization"); [cbn [fst snd]; unfold Py.len; lia |].
      destruct (demo_name =? "research"); [cbn [fst snd]; unfold Py.len; lia |].
      destruct (demo_name =? "creative"); cbn [fst snd]; unfold Py.len; lia. }
    destruct (IH _ (proj1 Hstep)) as [H1 H2]. split; [exact H1 | lia].
Qed.

(** The summary never fails, whatever results were collected: the
    successful tasks are between 0 and the total, the success rate is
    their quotient and lies between 0 and 1, and with no task at all the
    rate is 0 instead of a division by zero. *)
Theorem print_demo_summary_counts (results : demo_results) :
  exists s, print_demo_summary results = inr s /\
    (0 <= s.(successful_tasks) <= s.(total_tasks))%Z /\
    (0 <= s.(success_rate) /\ s.(success_rate) <= 1) /\
    ((0 < s.(total_tasks))%Z ->
     s.(success_rate) == inject_Z s.(successful_tasks) / inject_Z s.(total_tasks)) /\
    (s.(total_tasks) = 0%Z -> s.(success_rate) = 0).
Proof.
  unfold print_demo_summary.
  destruct (tally_invariant results (0%Z, 0%Z)) as [Hinv _]; [cbn; lia |].
  set (totals := fold_left tally results (0%Z, 0%Z)) in *.
  destruct (0 <? fst totals)%Z eqn:E.
  - apply Z.ltb_lt in E.
    assert (Hpos : 0 < inject_Z (fst totals))
      by (change 0 with (inject_Z 0); rewrite <- Zlt_Qlt; exact E).
    rewrite div_ok by (intro H; rewrite H in Hpos; apply (Qlt_irrefl 0), Hpos).
    cbn [Py.bind Py.ret]. eexists. split; [reflexivity |].
    cbn [total_tasks successful_tasks success_rate].
    split; [exact Hinv |]. split; [| split; [intros _; reflexivity | intro H; lia]].
    split.
    + apply Qle_shift_div_l; [exact Hpos |]. rewrite Qmult_0_l.
      change 0 with (inject_Z 0). rewrite <- Zle_Qle. lia.
    + apply Qle_shift_div_r; [exact Hpos |]. rewrite Qmult_1_l.
      rewrite <- Zle_Qle. lia.
  - apply Z.ltb_ge in E. cbn [Py.bind Py.ret]. eexists. split; [reflexivity |].
    cbn [total_tasks successful_tasks success_rate].
    split; [exact Hinv |]. split; [split; [apply Qle_refl | discriminate] |].
    split; [intro H; lia | intros _; reflexivity].
Qed.

Lemma print_demo_summary_counts_witness :
  let results := [("multi_domain", [Some "success"; Some "error"; Some "success"]);
                  ("visualization", [None; None; None]);
                  ("unknown", [None])] in
  exists s, print_demo_summary results = inr s /\
    (0 < s.(total_tasks))%Z /\ s.(success_rate) == 5 # 6.
Proof.
  cbv zeta.
  destruct (print_demo_summary_counts
              [("multi_domain", [Some "success"; Some "error"; Some "success"]);
               ("visualization", [None; None; None]);
               ("unknown", [None])]) as (s & Hs & _ & _ & Hr & _).
  exists s. split; [exact Hs |].
  injection Hs as <-. cbn [total_tasks] in *.
  assert (H : (0 < 6)%Z) by lia.
  split; [exact H |]. rewrite (Hr H). reflexivity.
Defined.

End DemoTeamsFacts.

(** ** The research run: from a query to the stored outcome *)

Section PipelineFacts.

Import AgentTeam.

Lemma analyze_complexity_shape (query : string) (a : ResearchTask.analysis) :
  ResearchTask.analyze_complexity query = inr a ->
  a = ResearchTask.make_analysis a.(ResearchTask.complexity) a.(ResearchTask.skills) /\
  In a.(ResearchTask.complexity) ["low"; "medium"; "high"] /\
  Forall (fun skill =>
            In skill ["research"; "analysis"; "coding"; "synthesis"; "creativity"])
         a.(ResearchTask.skills).
Proof.
  intro Ha.
  assert (Hsk : Forall (fun skill =>
            In skill ["research"; "analysis"; "coding"; "synthesis"; "creativity"])
            (ResearchTask.required_skills (Py.lower query))).
  { rewrite required_skills_filter. apply Forall_forall. intros skill Hin.
    apply in_map_iff in Hin. destruct Hin as (rule & <- & Hr).
    apply filter_In in Hr. destruct Hr as [Hr _].
    unfold ResearchTask.skill_rules in Hr. cbn [In] in Hr.
    repeat (destruct Hr as [<- | Hr]; [cbn; tauto |]). destruct Hr. }
  unfold ResearchTask.analyze_complexity in Ha.
  cbn [ResearchTask.complexity_indicators map fst snd Py.getitem String.eqb Ascii.eqb
       Bool.eqb Py.ret Py.bind] in Ha.
  destruct (0 <? ResearchTask.indicator_score (Py.lower query) _)%Z;
    cbn [Py.bind Py.ret] in Ha;
    [| destruct (0 <? ResearchTask.indicator_score (Py.lower query) _)%Z;
       cbn [Py.bind Py.ret] in Ha];
    injection Ha as <-;
    (split; [reflexivity |]); (split; [cbn; tauto | exact Hsk]).
Qed.

(** A skill the classifier can name is matched only to [TOT], [CODE] or
    [CREATIVE] once the coordinator is selected. *)
Lemma first_capable_classifier_skill (skill role : string) (selected : list string) :
  In skill ["research"; "analysis"; "coding"; "synthesis"; "creativity"] ->
  In "IO" selected ->
  first_capable agent_capabilities skill selected = Some role ->
  In role ["TOT"; "CODE"; "CREATIVE"].
Proof.
  intros Hs Hio H.
  destruct (first_capable_some _ _ _ _ H) as (Hn & caps & Hin & Hc).
  unfold agent_capabilities in Hin. cbn [In] in Hin, Hs.
  destruct Hin as [E | [E | [E | [E | [E | [E | []]]]]]]; injection E as <- <-;
    try (cbn; tauto).
  - exfalso. cbn [In] in Hc.
    destruct Hs as [<- | [<- | [<- | [<- | [<- | []]]]]];
      repeat (destruct Hc as [Hc | Hc]; [discriminate Hc |]); exact Hc.
  - exfalso. cbn [In] in Hc.
    destruct Hs as [<- | [<- | [<- | [<- | [<- | []]]]]];
      repeat (destruct Hc as [Hc | Hc]; [discriminate Hc |]); exact Hc.
Qed.

Lemma add_specialized_classifier_skills (skills : list string) :
  Forall (fun skill =>
            In skill ["research"; "analysis"; "coding"; "synthesis"; "creativity"])
         skills ->
  forall selected,
    In "IO" selected -> incl selected ["IO"; "TOT"; "CODE"; "CREATIVE"] ->
    incl (add_specialized skills selected) ["IO"; "TOT"; "CODE"; "CREATIVE"].
Proof.
  unfold add_specialized.
  induction 1 as [|skill skills Hs _ IH]; intros selected Hio Hincl; cbn [fold_left];
    [exact Hincl |].
  destruct (first_capable agent_capabilities skill selected) as [role |] eqn:E;
    [| exact (IH selected Hio Hincl)].
  apply IH.
  - apply in_or_app. left. exact Hio.
  - intros x Hx. apply in_app_or in Hx. destruct Hx as [Hx | [<- | []]].
    + apply Hincl, Hx.
    + pose proof (first_capable_classifier_skill _ _ _ Hs Hio E) as Hr.
      cbn [In] in *. tauto.
Qed.

Lemma selection_classifier_skills (tier : string) (skills : list string) :
  Forall (fun skill =>
            In skill ["research"; "analysis"; "coding"; "synthesis"; "creativity"])
         skills ->
  incl (selection tier skills) ["IO"; "TOT"; "CODE"; "CREATIVE"].
Proof.
  intro Hs. unfold selection. cbv zeta.
  assert (H : incl (add_specialized skills ["IO"]) ["IO"; "TOT"; "CODE"; "CREATIVE"]).
  { apply add_specialized_classifier_skills; [exact Hs | left; reflexivity |].
    intros x [<- | []]. left. reflexivity. }
  destruct (_ && _); [| exact H].
  intros x Hx. apply in_app_or in Hx. destruct Hx as [Hx | [<- | []]].
  - apply H, Hx.
  - cbn. tauto.
Qed.

Lemma dict_get_In {V : Type} (d : list (string * V)) (k : string) (v default : V) :
  NoDup (map fst d) -> In (k, v) d -> Py.dict_get d k default = v.
Proof.
  induction d as [|[k' v'] d IH]; intros Hnd Hin; [destruct Hin |].
  cbn [Py.dict_get]. cbn [map fst] in Hnd. inversion Hnd as [|? ? Hk Hnd']; subst.
  destruct Hin as [E | Hin].
  - injection E as -> ->. rewrite String.eqb_refl. reflexivity.
  - destruct (String.eqb k k') eqn:E; [| exact (IH Hnd' Hin)].
    apply String.eqb_eq in E. subst k'. exfalso. apply Hk.
    apply in_map_iff. exists (k, v). split; [reflexivity | exact Hin].
Qed.

(** On a team that keeps its whole selection, every skill the classifier
    can name is covered in the sense of [_estimate_performance]. *)
Lemma classifier_skills_covered (tier : string) (skills team : list string) (k : nat) :
  team = selection tier skills ++ repeat "IO" k ->
  Forall (fun skill =>
            In skill ["research"; "analysis"; "coding"; "synthesis"; "creativity"])
         skills ->
  Forall (fun skill => covered_by agent_skill_map team skill = true) skills.
Proof.
  intros Hteam Hs.
  destruct (selection_structure tier skills) as (_ & _ & _ & _ & _ & _ & Hcov).
  cbv zeta in Hcov.
  apply Forall_forall. intros skill Hin.
  assert (Hfive : In skill ["research"; "analysis"; "coding"; "synthesis"; "creativity"])
    by (rewrite Forall_forall in Hs; apply Hs, Hin).
  rewrite <- (skill_map_agrees_with_catalog team skill Hfive).
  destruct (Hcov skill Hin) as (role & caps & Hr & Hc & Hsk).
  { cbn [In] in Hfive.
    destruct Hfive as [<- | [<- | [<- | [<- | [<- | []]]]]];
      [exists "IO" | exists "TOT" | exists "CODE" | exists "IO" | exists "CREATIVE"];
      eexists; (split; [cbn; eauto 8 | cbn; tauto]). }
  unfold covered_by. apply existsb_exists. exists role. split.
  - rewrite Hteam. apply in_or_app. left. exact Hr.
  - rewrite (dict_get_In agent_capabilities role caps []).
    + apply contains_str_In, Hsk.
    + cbn. repeat constructor; cbn [In]; intros H;
        repeat (destruct H as [H | H]; [discriminate H |]); exact H.
    + exact Hc.
Qed.

End PipelineFacts.

Section ResearchRunFacts.

Import ResearchRun.

(** The random source: any generator. *)
Variable rng : Type.
Variable uniform : Q -> Q -> rng -> Q * rng.
Variable randint : Z -> Z -> rng -> Z * rng.

Lemma run_phase_gathering (st : phase_state rng) :
  exists t n g',
    run_phase rng uniform randint st "Information Gathering"
    = {| total_time := total_time rng st + t; sources := n;
         quality_scores := quality_scores rng st; gen := g' |} /\
    (draws_in_range rng uniform randint ->
     (5 # 10 <= t /\ t <= 2) /\ (3 <= n <= 15)%Z).
Proof.
  unfold run_phase.
  assert (Ht : draws_in_range rng uniform randint ->
               5 # 10 <= fst (uniform (5 # 10) 2 (gen rng st))
               /\ fst (uniform (5 # 10) 2 (gen rng st)) <= 2)
    by (intros [H _]; apply H; discriminate).
  destruct (uniform (5 # 10) 2 (gen rng st)) as [t g1]. cbn [fst] in Ht.
  cbn [String.eqb Ascii.eqb Bool.eqb].
  assert (Hn : draws_in_range rng uniform randint ->
               (3 <= fst (randint 3 15 g1) <= 15)%Z)
    by (intros [_ H]; apply H; lia).
  destruct (randint 3 15 g1) as [n g2]. cbn [fst] in Hn.
  exists t, n, g2. split; [reflexivity | auto].
Qed.

Lemma run_phase_quality (st : phase_state rng) (phase : string) (lo hi : Q) :
  In (phase, lo, hi) [("Analysis & Processing", 7, 95 # 10);
                      ("Synthesis & Integration", 65 # 10, 9);
                      ("Quality Review", 75 # 10, 95 # 10)] ->
  exists t q g',
    run_phase rng uniform randint st phase
    = {| total_time := total_time rng st + t; sources := sources rng st;
         quality_scores := quality_scores rng st ++ [q]; gen := g' |} /\
    (draws_in_range rng uniform randint ->
     (5 # 10 <= t /\ t <= 2) /\ (lo <= q /\ q <= hi)).
Proof.
  intro Hin. unfold run_phase.
  assert (Ht : draws_in_range rng uniform randint ->
               5 # 10 <= fst (uniform (5 # 10) 2 (gen rng st))
               /\ fst (uniform (5 # 10) 2 (gen rng st)) <= 2)
    by (intros [H _]; apply H; discriminate).
  destruct (uniform (5 # 10) 2 (gen rng st)) as [t g1]. cbn [fst] in Ht.
  cbn [In] in Hin.
  destruct Hin as [E | [E | [E | []]]]; injection E as <- <- <-;
    cbn [String.eqb Ascii.eqb Bool.eqb];
    match goal with
    | |- context [uniform ?a ?b g1] =>
        assert (Hq : draws_in_range rng uniform randint ->
                     a <= fst (uniform a b g1) /\ fst (uniform a b g1) <= b)
          by (intros [H _]; apply H; discriminate);
        destruct (uniform a b g1) as [q g2]; cbn [fst] in Hq
    end;
    exists t, q, g2; (split; [reflexivity | auto]).
Qed.

(** The phase loop: four phase times, one source count, three quality
    scores, each within the bounds of its draw. *)
Lemma phases_run (g : rng) :
  exists t1 t2 t3 t4 n q2 q3 q4 g',
    fold_left (run_phase rng uniform randint) phases
      {| total_time := 0; sources := 0; quality_scores := []; gen := g |}
    = {| total_time := 0 + t1 + t2 + t3 + t4; sources := n;
         quality_scores := [q2; q3; q4]; gen := g' |} /\
    (draws_in_range rng uniform randint ->
     ((5 # 10 <= t1 /\ t1 <= 2) /\ (5 # 10 <= t2 /\ t2 <= 2) /\
      (5 # 10 <= t3 /\ t3 <= 2) /\ (5 # 10 <= t4 /\ t4 <= 2)) /\
     (3 <= n <= 15)%Z /\
     (7 <= q2 /\ q2 <= 95 # 10) /\ (65 # 10 <= q3 /\ q3 <= 9) /\
     (75 # 10 <= q4 /\ q4 <= 95 # 10)).
Proof.
  unfold phases. cbn [fold_left].
  destruct (run_phase_gathering
              {| total_time := 0; sources := 0; quality_scores := []; gen := g |})
    as (t1 & n & g1 & -> & H1).
  cbn [total_time sources quality_scores gen].
  destruct (run_phase_quality
              {| total_time := 0 + t1; sources := n; quality_scores := []; gen := g1 |}
              "Analysis & Processing" 7 (95 # 10) ltac:(cbn; auto))
    as (t2 & q2 & g2 & -> & H2).
  cbn [total_time sources quality_scores gen app].
  destruct (run_phase_quality
              {| total_time := 0 + t1 + t2; sources := n;
                 quality_scores := [q2]; gen := g2 |}
              "Synthesis & Integration" (65 # 10) 9 ltac:(cbn; auto))
    as (t3 & q3 & g3 & -> & H3).
  cbn [total_time sources quality_scores gen app].
  destruct (run_phase_quality
              {| total_time := 0 + t1 + t2 + t3; sources := n;
                 quality_scores := [q2; q3]; gen := g3 |}
              "Quality Review" (75 # 10) (95 # 10) ltac:(cbn; auto))
    as (t4 & q4 & g4 & -> & H4).
  cbn [total_time sources quality_scores gen app].
  exists t1, t2, t3, t4, n, q2, q3, q4, g4.
  split; [reflexivity |]. intro Hr.
  destruct (H1 Hr) as [? ?]. destruct (H2 Hr) as [? ?].
  destruct (H3 Hr) as [? ?]. destruct (H4 Hr) as [? ?].
  repeat (split; [tauto |]). tauto.
Qed.

Lemma clamp_range (x : Q) :
  0 <= py_max 0 (Py.min 1 x) /\ py_max 0 (Py.min 1 x) <= 1 /\
  (forall base, 0 <= base -> base <= 1 ->
     base - (1 # 10) <= x -> x <= base + (1 # 10) ->
     base - (1 # 10) <= py_max 0 (Py.min 1 x) /\
     py_max 0 (Py.min 1 x) <= base + (1 # 10)).
Proof.
  unfold py_max, Py.min.
  destruct (Py.Qltb x 1) eqn:E1.
  - apply Qltb_true in E1. destruct (Py.Qltb 0 x) eqn:E2.
    + apply Qltb_true in E2. split; [lra |]. split; [lra |]. intros; lra.
    + apply Qltb_false in E2. split; [lra |]. split; [lra |]. intros; lra.
  - apply Qltb_false in E1. destruct (Py.Qltb 0 1) eqn:E2.
    + split; [lra |]. split; [lra |]. intros; lra.
    + apply Qltb_false in E2. lra.
Qed.

(** What one simulated execution returns. *)
Lemma execute_research_returns (team_config : AgentTeam.team_config) (g : rng) :
  exists result g',
    _execute_research rng uniform randint team_config g = inr (result, g') /\
    (0 <= result.(performance) /\ result.(performance) <= 1) /\
    result.(phases_completed) = 4%Z /\
    (draws_in_range rng uniform randint ->
     (let estimate := team_config.(AgentTeam.estimated_performance) in
      0 <= estimate -> estimate <= 1 ->
      estimate - (1 # 10) <= result.(performance) /\
      result.(performance) <= estimate + (1 # 10)) /\
     (2 <= result.(time_taken) /\ result.(time_taken) <= 8) /\
     (3 <= result.(sources_count) <= 15)%Z /\
     (7 <= result.(quality_score) /\ result.(quality_score) <= 28 # 3)).
Proof.
  unfold _execute_research. cbv zeta.
  destruct (phases_run g)
    as (t1 & t2 & t3 & t4 & n & q2 & q3 & q4 & g1 & -> & Hdraws).
  cbn [gen total_time sources quality_scores].
  assert (Hv : draws_in_range rng uniform randint ->
               - (1 # 10) <= fst (uniform (- (1 # 10)) (1 # 10) g1)
               /\ fst (uniform (- (1 # 10)) (1 # 10) g1) <= 1 # 10)
    by (intros [H _]; apply H; discriminate).
  destruct (uniform (- (1 # 10)) (1 # 10) g1) as [variance g2]. cbn [fst] in Hv.
  rewrite mean_returns by discriminate. cbn [Py.bind Py.ret].
  eexists. exists g2. split; [reflexivity |].
  cbn [performance time_taken sources_count quality_score phases_completed].
  destruct (clamp_range (AgentTeam.estimated_performance team_config + variance))
    as (H0 & H1 & Hnear).
  split; [split; assumption |]. split; [reflexivity |].
  intro Hr. specialize (Hv Hr).
  destruct (Hdraws Hr) as ((Ht1 & Ht2 & Ht3 & Ht4) & Hn & Hq2 & Hq3 & Hq4).
  split; [intros H H'; apply Hnear; lra |].
  split; [lra |]. split; [exact Hn |].
  unfold AdvancedResearchAssistant.Qmean, Py.sum. cbn [fold_left Py.len length Z.of_nat].
  change (inject_Z (Z.pos (Pos.of_succ_nat 2))) with 3.
  split.
  - apply Qle_shift_div_l; [reflexivity | lra].
  - apply Qle_shift_div_r; [reflexivity | lra].
Qed.

(** One simulated execution never fails; its performance is clamped into
    [0, 1] and all four phases are counted.  With draws inside their
    bounds the performance stays within 0.1 of an estimate in [0, 1], the
    phases take between 2 and 8 time units, between 3 and 15 sources are
    found, and the quality score, the mean of three draws, lies between 7
    and 28/3. *)
Theorem execute_research_ranges (team_config : AgentTeam.team_config) (g : rng) :
  exists result g',
    _execute_research rng uniform randint team_config g = inr (result, g') /\
    (0 <= result.(performance) /\ result.(performance) <= 1) /\
    result.(phases_completed) = 4%Z /\
    (draws_in_range rng uniform randint ->
     (let estimate := team_config.(AgentTeam.estimated_performance) in
      0 <= estimate -> estimate <= 1 ->
      estimate - (1 # 10) <= result.(performance) /\
      result.(performance) <= estimate + (1 # 10)) /\
     (2 <= result.(time_taken) /\ result.(time_taken) <= 8) /\
     (3 <= result.(sources_count) <= 15)%Z /\
     (7 <= result.(quality_score) /\ result.(quality_score) <= 28 # 3)).
Proof.
  exact (execute_research_returns team_config g).
Qed.

End ResearchRunFacts.

Section PipelinePlan.

Import AgentTeam.

(** Analysis followed by team formation, for any query. *)
Lemma pipeline_plan (query : string) :
  exists a plan,
    ResearchTask.analyze_complexity query = inr a /\
    form_team a = inr plan /\
    In a.(ResearchTask.complexity) ["low"; "medium"; "high"] /\
    Forall (fun role => In role ["IO"; "TOT"; "CODE"; "CREATIVE"]) plan.(agents) /\
    Py.len plan.(agents) = a.(ResearchTask.agent_count) /\
    (2 <= Py.len plan.(agents) <= 6)%Z /\
    (65 # 100 <= plan.(estimated_performance) /\ plan.(estimated_performance) <= 1) /\
    (a.(ResearchTask.complexity) = "high" -> a.(ResearchTask.skills) <> [] ->
     plan.(estimated_performance) == 1).
Proof.
  destruct (analyze_complexity_returns query) as (a & Ha & _ & _ & Hcount).
  destruct (analyze_complexity_shape query a Ha) as (Hshape & Htier & Hskills).
  set (tier := a.(ResearchTask.complexity)) in *.
  set (skills := a.(ResearchTask.skills)) in *.
  destruct (formTeam_agents_structure tier skills) as (plan & k & Hp & Hag & _ & _ & _ & He).
  destruct (formTeam_returns tier skills) as (plan' & Hp' & Hlen & _).
  rewrite Hp in Hp'. injection Hp' as <-.
  pose proof (estimate_agent_count_bounds tier skills) as Hb.
  cbv zeta in Hag.
  exists a, plan. split; [exact Ha |].
  split; [rewrite Hshape; exact Hp |].
  split; [exact Htier |].
  destruct (estimate_performance_returns plan.(agents) skills) as (p & Hp2 & Heq).
  rewrite He in Hp2. injection Hp2 as <-.
  split; [| split; [rewrite Hlen, Hcount; reflexivity | split; [lia | split]]].
  - rewrite Hag. apply Forall_forall. intros role Hr. apply firstn_incl in Hr.
    apply in_app_or in Hr. destruct Hr as [Hr | Hr].
    + exact (selection_classifier_skills tier skills Hskills role Hr).
    + apply repeat_spec in Hr. subst role. left. reflexivity.
  - rewrite Heq.
    pose proof (spec_predicted_performance_bounds agent_skill_map plan.(agents) skills)
      as [_ Hhi].
    pose proof (predicted_performance_floor agent_skill_map plan.(agents) skills) as Hfl.
    destruct (team_size_bonus (Py.len plan.(agents))) as [H2 _].
    specialize (H2 ltac:(lia)). split; [lra | exact Hhi].
  - intros Hhigh Hne. rewrite Heq.
    destruct (formTeam_room tier skills (or_introl Hhigh)) as (plan' & k' & Hp' & Hall & _).
    rewrite Hp in Hp'. injection Hp' as <-.
    apply predicted_performance_full; [| exact Hne |].
    + rewrite Hlen. unfold ResearchTask._estimate_agent_count, tier. rewrite Hhigh.
      cbn [Py.dict_get String.eqb Ascii.eqb Bool.eqb].
      assert (0 <= Py.len skills / 2)%Z by (apply Z.div_pos; unfold Py.len; lia). lia.
    + exact (classifier_skills_covered tier skills _ k' Hall Hskills).
Qed.

(** For every query, analysis and team formation succeed one after the
    other; the team has the size the analysis asked for, between 2 and 6,
    and is made of [IO], [TOT], [CODE] and [CREATIVE] only: no skill the
    classifier can name brings in [WEB] or [CRITIC].  The predicted
    performance is at least 0.65, and at least 0.99 for a [high] complexity
    with at least one skill. *)
Theorem research_pipeline_team (query : string) :
  exists a plan,
    ResearchTask.analyze_complexity query = inr a /\
    form_team a = inr plan /\
    Forall (fun role => In role ["IO"; "TOT"; "CODE"; "CREATIVE"]) plan.(agents) /\
    Py.len plan.(agents) = a.(ResearchTask.agent_count) /\
    (2 <= Py.len plan.(agents) <= 6)%Z /\
    (65 # 100 <= plan.(estimated_performance) /\ plan.(estimated_performance) <= 1) /\
    (a.(ResearchTask.complexity) = "high" -> a.(ResearchTask.skills) <> [] ->
     99 # 100 <= plan.(estimated_performance)).
Proof.
  destruct (pipeline_plan query)
    as (a & plan & Ha & Hp & _ & Hroles & Hlen & Hsize & Hrange & Hone).
  exists a, plan. split; [exact Ha |]. split; [exact Hp |].
  split; [exact Hroles |]. split; [exact Hlen |]. split; [exact Hsize |].
  split; [exact Hrange |].
  intros Hhigh Hne. rewrite (Hone Hhigh Hne). discriminate.
Qed.

Lemma research_pipeline_team_witness :
  exists a plan,
    ResearchTask.analyze_complexity "Compare two designs and write code" = inr a /\
    form_team a = inr plan /\
    a.(ResearchTask.complexity) = "high" /\ a.(ResearchTask.skills) <> [] /\
    99 # 100 <= plan.(estimated_performance).
Proof.
  destruct (research_pipeline_team "Compare two designs and write code")
    as (a & plan & Ha & Hp & _ & _ & _ & _ & Hone).
  exists a, plan. split; [exact Ha |]. split; [exact Hp |].
  assert (Hc : a.(ResearchTask.complexity) = "high")
    by (vm_compute in Ha; injection Ha as <-; reflexivity).
  assert (Hs : a.(ResearchTask.skills) <> [])
    by (vm_compute in Ha; injection Ha as <-; discriminate).
  split; [exact Hc |]. split; [exact Hs |]. exact (Hone Hc Hs).
Defined.

End PipelinePlan.

Section ResearchRunOutcomes.

Import AdvancedResearchAssistant ResearchRun.

Variable rng : Type.
Variable uniform : Q -> Q -> rng -> Q * rng.
Variable randint : Z -> Z -> rng -> Z * rng.

(** One processed query. *)
Lemma process_research_query_returns (self : assistant) (query : string) (g : rng) :
  exists result g',
    process_research_query rng uniform randint self query g
    = inr (store_result self (fst (fst (outcome_of result))) (snd (fst (outcome_of result)))
             (snd (outcome_of result)), result, g') /\
    ResearchTask.analyze_complexity query = inr result.(analysis) /\
    AgentTeam.form_team result.(analysis) = inr result.(team_config) /\
    _execute_research rng uniform randint result.(team_config) g
      = inr (result.(execution), g') /\
    result.(success) = Py.Qltb (7 # 10) result.(execution).(performance).
Proof.
  destruct (pipeline_plan query) as (a & plan & Ha & Hp & _).
  destruct (execute_research_returns rng uniform randint plan g) as (er & g' & He & _).
  unfold process_research_query. rewrite Ha. cbn [Py.bind]. rewrite Hp. cbn [Py.bind].
  rewrite He. cbn [Py.bind Py.ret fst snd].
  exists {| analysis := a; team_config := plan; execution := er;
            success := Py.Qltb (7 # 10) er.(performance) |}, g'.
  cbn [analysis team_config execution success].
  split; [reflexivity |]. repeat split; assumption.
Qed.

(** Processing a query never fails.  It appends one entry to the completed
    tasks and one value to the performance history; the stored tier is
    [low], [medium] or [high]; the task counts as a success exactly when
    the performance is above 0.7; and with draws inside their bounds the
    performance is within 0.1 of the team's estimate and at least 0.55. *)
Theorem process_research_query_outcome (self : assistant) (query : string) (g : rng) :
  exists self' result g',
    process_research_query rng uniform randint self query g = inr (self', result, g') /\
    let performance := result.(execution).(performance) in
    let estimate := result.(team_config).(AgentTeam.estimated_performance) in
    completed_tasks self' = completed_tasks self ++ [to_result (outcome_of result)] /\
    performance_history self' = performance_history self ++ [performance] /\
    In result.(analysis).(ResearchTask.complexity) ["low"; "medium"; "high"] /\
    (result.(success) = true <-> 7 # 10 < performance) /\
    (draws_in_range rng uniform randint ->
     estimate - (1 # 10) <= performance /\ performance <= estimate + (1 # 10) /\
     55 # 100 <= performance).
Proof.
  destruct (process_research_query_returns self query g)
    as (result & g' & Hrun & Ha & Hp & He & Hs).
  destruct (pipeline_plan query) as (a & plan & Ha' & Hp' & Htier & _ & _ & _ & Hest & _).
  rewrite Ha in Ha'. injection Ha' as <-. rewrite Hp in Hp'. injection Hp' as <-.
  destruct (execute_research_returns rng uniform randint result.(team_config) g)
    as (er & g'' & He' & _ & _ & Hr).
  rewrite He in He'. injection He' as <- <-.
  eexists. exists result, g'. split; [exact Hrun |]. cbv zeta.
  split; [reflexivity |]. split; [reflexivity |]. split; [exact Htier |].
  split; [rewrite Hs; apply Qltb_true |].
  intro Hd. destruct (Hr Hd) as (Hnear & _). cbv zeta in Hnear.
  destruct Hnear as [H1 H2]; [lra | lra |]. lra.
Qed.

(** With draws inside their bounds, a query of [high] complexity with at
    least one skill always succeeds: its team is predicted at least 0.99,
    so the performance is at least 0.89, above the 0.7 that counts as a
    success. *)
Theorem high_tier_with_skills_succeeds (self : assistant) (query : string) (g : rng) :
  draws_in_range rng uniform randint ->
  exists self' result g',
    process_research_query rng uniform randint self query g = inr (self', result, g') /\
    (result.(analysis).(ResearchTask.complexity) = "high" ->
     result.(analysis).(ResearchTask.skills) <> [] ->
     99 # 100 <= result.(team_config).(AgentTeam.estimated_performance) /\
     89 # 100 <= result.(execution).(performance) /\
     result.(success) = true).
Proof.
  intro Hd.
  destruct (process_research_query_returns self query g)
    as (result & g' & Hrun & Ha & Hp & He & Hs).
  destruct (pipeline_plan query) as (a & plan & Ha' & Hp' & _ & _ & _ & _ & Hest & Hone).
  rewrite Ha in Ha'. injection Ha' as <-. rewrite Hp in Hp'. injection Hp' as <-.
  destruct (execute_research_returns rng uniform randint result.(team_config) g)
    as (er & g'' & He' & _ & _ & Hr).
  rewrite He in He'. injection He' as <- <-.
  eexists. exists result, g'. split; [exact Hrun |].
  intros Hhigh Hne. specialize (Hone Hhigh Hne).
  destruct (Hr Hd) as (Hnear & _). cbv zeta in Hnear.
  destruct Hnear as [H1 H2]; [lra | lra |].
  split; [lra |]. split; [lra |].
  rewrite Hs. apply Qltb_true. lra.
Qed.

(** The loop over the queries. *)
Lemma process_queries_returns (queries : list string) :
  forall (self : assistant) (g : rng),
  exists self' results g',
    process_queries rng uniform randint self queries g = inr (self', results, g') /\
    length results = length queries /\
    completed_tasks self'
      = completed_tasks self ++ map to_result (map outcome_of results) /\
    performance_history self'
      = performance_history self ++ map snd (map outcome_of results) /\
    Forall (fun r => In (fst (fst (outcome_of r))) ["low"; "medium"; "high"] /\
                     r.(success) = Py.Qltb (7 # 10) (snd (outcome_of r))) results.
Proof.
  induction queries as [|query rest IH]; intros self g; cbn [process_queries].
  - exists self, [], g. split; [reflexivity |]. split; [reflexivity |].
    cbn [map]. rewrite !app_nil_r. repeat split. constructor.
  - destruct (process_research_query_returns self query g)
      as (result & g1 & Hrun & Ha & _ & _ & Hs).
    destruct (pipeline_plan query) as (a & plan & Ha' & _ & Htier & _).
    rewrite Ha in Ha'. injection Ha' as <-.
    rewrite Hrun. cbn [Py.bind fst snd].
    destruct (IH (store_result self (fst (fst (outcome_of result)))
                    (snd (fst (outcome_of result))) (snd (outcome_of result))) g1)
      as (self' & results & g' & Hrest & Hlen & Hc & Hh & Hall).
    rewrite Hrest. cbn [Py.bind Py.ret fst snd].
    exists self', (result :: results), g'. split; [reflexivity |].
    split; [cbn [length]; rewrite Hlen; reflexivity |].
    cbn [store_result completed_tasks performance_history] in Hc, Hh.
    rewrite <- app_assoc in Hc, Hh.
    split; [exact Hc |]. split; [exact Hh |].
    constructor; [split; [exact Htier | exact Hs] | exact Hall].
Qed.

(** A run over at least one query ends with a report, never with an error:
    one result per query, as many tasks in the report as queries, and a
    success rate that is the fraction of results flagged as successful.
    Over no query at all, the first read of the analytics raises
    [KeyError]. *)
Theorem run_research_demo_report (queries : list string) (g : rng) :
  (queries <> [] ->
   exists results report,
     run_research_demo rng uniform randint queries g = inr (results, report) /\
     length results = length queries /\
     report.(total_tasks) = Py.len queries /\
     report.(success_rate)
       == inject_Z (Py.len (filter success results)) / inject_Z (Py.len queries) /\
     (0 <= report.(success_rate) /\ report.(success_rate) <= 1)) /\
  (queries = [] ->
   run_research_demo rng uniform randint queries g = inl (Py.KeyError "total_tasks")).
Proof.
  split.
  - intro Hne. unfold run_research_demo.
    destruct (process_queries_returns queries init g)
      as (self' & results & g' & Hrun & Hlen & Hc & Hh & Hall).
    rewrite Hrun. cbn [Py.bind fst snd].
    cbn [init completed_tasks performance_history app] in Hc, Hh.
    assert (Hself : self' = after_tasks (map outcome_of results)).
    { destruct (after_tasks_state (map outcome_of results)) as [H1 H2].
      destruct self' as [c h], (after_tasks (map outcome_of results)) as [c' h'].
      cbn [completed_tasks performance_history] in *. congruence. }
    assert (Hrne : map outcome_of results <> []).
    { destruct results; [destruct queries; [contradiction | discriminate Hlen] |
                         discriminate]. }
    assert (Htiers : Forall (fun rec => In (fst (fst rec)) ["low"; "medium"; "high"])
                            (map outcome_of results)).
    { apply Forall_map. apply (Forall_impl _ (fun r H => proj1 H) Hall). }
    destruct (report_contents (map outcome_of results) Hrne Htiers)
      as (r & Hr & Ht & Hs & _).
    rewrite Hself, Hr. cbn [Py.bind Py.ret].
    exists results, r. split; [reflexivity |]. split; [exact Hlen |].
    assert (Hl : Py.len (map outcome_of results) = Py.len queries)
      by (unfold Py.len; rewrite length_map, Hlen; reflexivity).
    assert (Hf : Py.len (filter (fun rec => Py.Qltb (7 # 10) (snd rec))
                                (map outcome_of results))
                 = Py.len (filter success results)).
    { unfold Py.len. f_equal. clear - Hall.
      induction Hall as [|r0 rs [_ Hs0] _ IH]; [reflexivity |].
      cbn [map filter]. rewrite Hs0.
      destruct (Py.Qltb (7 # 10) (snd (outcome_of r0))); cbn [length];
        rewrite IH; reflexivity. }
    rewrite Ht, Hs, Hl, Hf.
    split; [reflexivity |]. split; [reflexivity |].
    assert (Hpos : 0 < inject_Z (Py.len queries)).
    { change 0 with (inject_Z 0). rewrite <- Zlt_Qlt.
      destruct queries; [contradiction | unfold Py.len; cbn [length]; lia]. }
    assert (Hle : (Py.len (filter success results) <= Py.len queries)%Z).
    { unfold Py.len. rewrite <- Hlen.
      pose proof (filter_length_le success results). lia. }
    split.
    + apply Qle_shift_div_l; [exact Hpos |]. rewrite Qmult_0_l.
      change 0 with (inject_Z 0). rewrite <- Zle_Qle. unfold Py.len. lia.
    + apply Qle_shift_div_r; [exact Hpos |]. rewrite Qmult_1_l.
      rewrite <- Zle_Qle. exact Hle.
  - intros ->. reflexivity.
Qed.

End ResearchRunOutcomes.

(** *** A generator for running the random models: every draw returns its
    lower bound. *)

Lemma lowest_draws_in_range :
  ResearchRun.draws_in_range unit (fun a _ g => (a, g)) (fun a _ g => (a, g)).
Proof.
  split; intros a b g H; cbn [fst]; [split; [apply Qle_refl | exact H] | lia].
Qed.

Lemma execute_research_ranges_witness :
  let plan := {| AgentTeam.agents := ["IO"; "IO"];
                 AgentTeam.formation_strategy := "simple_parallel";
                 AgentTeam.collaboration_pattern := "sequential";
                 AgentTeam.estimated_performance := 65 # 100 |} in
  ResearchRun.draws_in_range unit (fun a _ g => (a, g)) (fun a _ g => (a, g)) /\
  exists result g',
    ResearchRun._execute_research unit (fun a _ g => (a, g)) (fun a _ g => (a, g)) plan tt
    = inr (result, g') /\
    (65 # 100) - (1 # 10) <= result.(ResearchRun.performance) /\
    result.(ResearchRun.performance) <= (65 # 100) + (1 # 10).
Proof.
  cbv zeta. split; [exact lowest_draws_in_range |].
  destruct (execute_research_ranges unit (fun a _ g => (a, g)) (fun a _ g => (a, g))
              {| AgentTeam.agents := ["IO"; "IO"];
                 AgentTeam.formation_strategy := "simple_parallel";
                 AgentTeam.collaboration_pattern := "sequential";
                 AgentTeam.estimated_performance := 65 # 100 |} tt)
    as (result & g' & Hrun & _ & _ & Hr).
  exists result, g'. split; [exact Hrun |].
  destruct (Hr lowest_draws_in_range) as (Hnear & _).
  cbv zeta in Hnear. cbn [AgentTeam.estimated_performance] in Hnear.
  destruct Hnear as [H1 H2]; [discriminate | discriminate |].
  split; [exact H1 | exact H2].
Defined.

Lemma process_research_query_outcome_witness :
  ResearchRun.draws_in_range unit (fun a _ g => (a, g)) (fun a _ g => (a, g)) /\
  exists self' result g',
    ResearchRun.process_research_query unit (fun a _ g => (a, g)) (fun a _ g => (a, g))
      AdvancedResearchAssistant.init "What is machine learning?" tt
    = inr (self', result, g') /\
    55 # 100 <= result.(ResearchRun.execution).(ResearchRun.performance).
Proof.
  split; [exact lowest_draws_in_range |].
  destruct (process_research_query_outcome unit (fun a _ g => (a, g)) (fun a _ g => (a, g))
              AdvancedResearchAssistant.init "What is machine learning?" tt)
    as (self' & result & g' & Hrun & _ & _ & _ & _ & Hr).
  exists self', result, g'. split; [exact Hrun |].
  exact (proj2 (proj2 (Hr lowest_draws_in_range))).
Defined.

Lemma high_tier_with_skills_succeeds_witness :
  ResearchRun.draws_in_range unit (fun a _ g => (a, g)) (fun a _ g => (a, g)) /\
  exists self' result g',
    ResearchRun.process_research_query unit (fun a _ g => (a, g)) (fun a _ g => (a, g))
      AdvancedResearchAssistant.init "Compare two designs and write code" tt
    = inr (self', result, g') /\
    result.(ResearchRun.success) = true.
Proof.
  split; [exact lowest_draws_in_range |].
  destruct (high_tier_with_skills_succeeds unit (fun a _ g => (a, g)) (fun a _ g => (a, g))
              AdvancedResearchAssistant.init "Compare two designs and write code" tt
              lowest_draws_in_range)
    as (self' & result & g' & Hrun & Hs).
  exists self', result, g'. split; [exact Hrun |].
  assert (Hc : result.(ResearchRun.analysis).(ResearchTask.complexity) = "high")
    by (vm_compute in Hrun; injection Hrun as _ <- _; reflexivity).
  assert (Hk : result.(ResearchRun.analysis).(ResearchTask.skills) <> [])
    by (vm_compute in Hrun; injection Hrun as _ <- _; discriminate).
  exact (proj2 (proj2 (Hs Hc Hk))).
Defined.

Lemma run_research_demo_report_witness :
  ["What is machine learning?"; "Compare two designs and write code"] <> [] /\
  exists results report,
    ResearchRun.run_research_demo unit (fun a _ g => (a, g)) (fun a _ g => (a, g))
      ["What is machine learning?"; "Compare two designs and write code"] tt
    = inr (results, report) /\
    report.(AdvancedResearchAssistant.total_tasks) = 2%Z.
Proof.
  assert (H : ["What is machine learning?"; "Compare two designs and write code"] <> [])
    by discriminate.
  split; [exact H |].
  destruct (proj1 (run_research_demo_report unit (fun a _ g => (a, g))
                     (fun a _ g => (a, g))
                     ["What is machine learning?"; "Compare two designs and write code"]
                     tt) H)
    as (results & report & Hrun & _ & Ht & _).
  exists results, report. split; [exact Hrun | exact Ht].
Defined.

(** ** Analytics: the tier that is not a key *)

Section AnalyticsKeys.

Import AdvancedResearchAssistant.

Lemma append_at_missing (d : list (string * list Q)) (k : string) (v : Q) :
  ~ In k (map fst d) -> append_at d k v = inl (Py.KeyError k).
Proof.
  induction d as [|[k' l] d IH]; intro Hnot; cbn [append_at]; [reflexivity |].
  cbn [map fst In] in Hnot.
  destruct (String.eqb k k') eqn:E.
  - apply String.eqb_eq in E. subst. exfalso. apply Hnot. left. reflexivity.
  - rewrite IH by tauto. reflexivity.
Qed.

Lemma for_each_app {A S : Type} (body : S -> A -> Py.result S) (l1 l2 : list A) :
  forall acc : S,
    for_each body (l1 ++ l2) acc
    = (acc' <- for_each body l1 acc ;; for_each body l2 acc').
Proof.
  induction l1 as [|x l1 IH]; intro acc; cbn [app for_each Py.bind Py.ret];
    [reflexivity |].
  destruct (body acc x) as [e | acc']; cbn [Py.bind]; [reflexivity | apply IH].
Qed.

(** The report has the keys [low], [medium] and [high] only: as soon as one
    stored outcome carries another tier, the report raises [KeyError] with
    the first such tier, whatever else is stored. *)
Theorem analytics_unknown_tier (before after : list (string * string * Q))
  (tier pattern : string) (value : Q) :
  Forall (fun rec => In (fst (fst rec)) ["low"; "medium"; "high"]) before ->
  ~ In tier ["low"; "medium"; "high"] ->
  get_performance_analytics (after_tasks (before ++ (tier, pattern, value) :: after))
  = inl (Py.KeyError tier).
Proof.
  intros Hall Hnot. unfold get_performance_analytics.
  set (records := before ++ (tier, pattern, value) :: after).
  destruct (after_tasks_state records) as [-> ->].
  assert (Hne : records <> []) by (subst records; destruct before; discriminate).
  destruct (map to_result records) as [|t0 ts] eqn:Emap.
  { apply map_eq_nil in Emap. contradiction. }
  rewrite <- Emap. clear t0 ts Emap.
  assert (Hpos : ~ inject_Z (Py.len (map to_result records)) == 0).
  { change 0 with (inject_Z 0). rewrite inject_Z_injective.
    unfold Py.len. rewrite length_map.
    destruct records; [contradiction | cbn [length]; lia]. }
  rewrite (div_ok _ _ Hpos). cbn [Py.bind].
  rewrite mean_returns
    by (destruct records; [contradiction | discriminate]).
  cbn [Py.bind].
  assert (Hnd : NoDup ["low"; "medium"; "high"]).
  { repeat constructor; cbn [In]; intros H;
      repeat (destruct H as [H | H]; [discriminate H |]); exact H. }
  subst records. rewrite map_app, for_each_app.
  pose proof (complexity_stats_spec ["low"; "medium"; "high"] before Hnd Hall
                (fun _ => [])) as Hstats.
  cbn [map] in Hstats. rewrite Hstats. cbn [Py.bind map for_each].
  cbn [to_result complexity performance fst snd].
  rewrite append_at_missing; [reflexivity |].
  cbn [map fst]. exact Hnot.
Qed.

Lemma analytics_unknown_tier_witness :
  Forall (fun rec => In (fst (fst rec)) ["low"; "medium"; "high"])
         [("low", "sequential", 6 # 10)] /\
  ~ In "extreme" ["low"; "medium"; "high"] /\
  get_performance_analytics
    (after_tasks [("low", "sequential", 6 # 10); ("extreme", "mesh", 9 # 10);
                  ("high", "hub_and_spoke", 8 # 10)])
  = inl (Py.KeyError "extreme").
Proof.
  assert (Hall : Forall (fun rec => In (fst (fst rec)) ["low"; "medium"; "high"])
                        [("low", "sequential", 6 # 10)]).
  { repeat constructor; cbn; tauto. }
  assert (Hnot : ~ In "extreme" ["low"; "medium"; "high"]).
  { cbn [In]. intros [H | [H | [H | []]]]; discriminate H. }
  split; [exact Hall |]. split; [exact Hnot |].
  exact (analytics_unknown_tier [("low", "sequential", 6 # 10)]
           [("high", "hub_and_spoke", 8 # 10)] "extreme" "mesh" (9 # 10) Hall Hnot).
Defined.

End AnalyticsKeys.

(** ** Analytics on the arithmetic of the code *)

Section ReportOnAnyArithmetic.

Import PerformanceAnalytics.
Context {num : Type} {arith : Arith num}.

(** The stored state after a sequence of outcomes. *)
Lemma stored_tasks (records : list (string * string * num)) :
  completed_tasks (after_tasks records) = map to_result records /\
  performance_history (after_tasks records) = map snd records.
Proof.
  unfold after_tasks.
  enough (H : forall self : assistant num,
    let final := fold_left (fun self r =>
                   store_result self (fst (fst r)) (snd (fst r)) (snd r)) records self in
    completed_tasks final = completed_tasks self ++ map to_result records /\
    performance_history final = performance_history self ++ map snd records)
    by exact (H init).
  induction records as [|r rs IH]; intro self; cbn [fold_left map].
  - rewrite !app_nil_r. split; reflexivity.
  - destruct (IH (store_result self (fst (fst r)) (snd (fst r)) (snd r))) as [H1 H2].
    cbv zeta. rewrite H1, H2. cbn [store_result completed_tasks performance_history].
    rewrite <- !app_assoc. split; reflexivity.
Qed.

(** A division by the length of a list that is not empty never raises. *)
Lemma div_by_length {A : Type} (a : num) (l : list A) :
  l <> [] -> div_by_int a (Py.len l) = inr (num_div a (num_of_int (Py.len l))).
Proof.
  intro Hne. unfold div_by_int.
  assert (E : (Py.len l =? 0)%Z = false).
  { apply Z.eqb_neq. destruct l; [contradiction | unfold Py.len; cbn [length]; lia]. }
  rewrite E. reflexivity.
Qed.

Lemma mean_of_nonempty (l : list num) : l <> [] -> mean l = inr (computed_mean l).
Proof. intro Hne. exact (div_by_length (sum l) l Hne). Qed.

(** [d[k].append(v)] on a dict with distinct keys that has the key. *)
Lemma tier_append (keys : list string) (f : string -> list num) (k : string) (v : num) :
  NoDup keys -> In k keys ->
  append_at (map (fun t => (t, f t)) keys) k v
  = inr (map (fun t => (t, if String.eqb t k then f t ++ [v] else f t)) keys).
Proof.
  intros Hnd Hin. induction keys as [|a keys IH]; [destruct Hin |].
  apply NoDup_cons_iff in Hnd. destruct Hnd as [Ha Hnd].
  cbn [map append_at]. destruct (String.eqb k a) eqn:E.
  - apply String.eqb_eq in E. subst a. rewrite String.eqb_refl.
    unfold Py.ret. do 2 f_equal. apply map_ext_in. intros t Ht.
    destruct (String.eqb_spec t k) as [-> | _]; [contradiction | reflexivity].
  - apply String.eqb_neq in E. destruct Hin as [-> | Hin]; [contradiction |].
    rewrite (IH Hnd Hin). cbn [Py.bind Py.ret].
    destruct (String.eqb_spec a k) as [-> | _]; [contradiction | reflexivity].
Qed.

(** The per-tier lists the first loop of the report builds. *)
Lemma tier_lists (keys : list string) (records : list (string * string * num)) :
  NoDup keys ->
  Forall (fun r => In (fst (fst r)) keys) records ->
  forall f : string -> list num,
    AdvancedResearchAssistant.for_each
      (fun stats task => append_at stats task.(complexity) task.(performance))
      (map to_result records) (map (fun t => (t, f t)) keys)
    = inr (map (fun t => (t, f t ++ performances_of_tier t records)) keys).
Proof.
  intros Hnd Hall.
  induction Hall as [|r rs Hr Hall IH]; intro f;
    cbn [map AdvancedResearchAssistant.for_each].
  - unfold Py.ret. f_equal. apply map_ext. intro t.
    unfold performances_of_tier. cbn [filter map]. rewrite app_nil_r. reflexivity.
  - cbn [to_result complexity performance].
    rewrite (tier_append keys f _ (snd r) Hnd Hr). cbn [Py.bind].
    rewrite IH. f_equal. apply map_ext. intro t.
    unfold performances_of_tier. cbn [filter]. rewrite (String.eqb_sym t).
    destruct (String.eqb (fst (fst r)) t); cbn [map];
      [rewrite <- app_assoc |]; reflexivity.
Qed.

(** The average reported for a tier: 0.0 when nothing was recorded for it. *)
Lemma tier_averages (stats : list (string * list num)) :
  forall averages : list (string * num),
    AdvancedResearchAssistant.for_each
      (fun averages cp =>
         let (complexity, performances) := (cp : string * list num) in
         match performances with
         | [] => Py.ret (averages ++ [(complexity, num_of_int 0)])
         | _ :: _ =>
             average <- mean performances ;;
             Py.ret (averages ++ [(complexity, average)])
         end)
      stats averages
    = inr (averages
           ++ map (fun cp => (fst cp, match snd cp with
                                      | [] => num_of_int 0
                                      | _ :: _ => computed_mean (snd cp)
                                      end)) stats).
Proof.
  induction stats as [|[t l] stats IH]; intro averages;
    cbn [AdvancedResearchAssistant.for_each map].
  - rewrite app_nil_r. reflexivity.
  - destruct l as [|x l]; cbn [fst snd].
    + cbn [Py.bind Py.ret]. rewrite IH, <- app_assoc. reflexivity.
    + rewrite mean_of_nonempty by discriminate. cbn [Py.bind Py.ret].
      rewrite IH, <- app_assoc. reflexivity.
Qed.

(** [setdefault] and [append] on a dict with distinct keys. *)
Lemma pattern_append (keys : list string) (f : string -> list num)
  (k : string) (v : num) :
  NoDup keys -> (~ In k keys -> f k = []) ->
  setdefault_append (map (fun p => (p, f p)) keys) k v
  = map (fun p => (p, if String.eqb p k then f p ++ [v] else f p))
        (if Py.contains_str k keys then keys else keys ++ [k]).
Proof.
  intros Hnd Hf. induction keys as [|a keys IH].
  - cbn. rewrite String.eqb_refl, Hf by tauto. reflexivity.
  - apply NoDup_cons_iff in Hnd. destruct Hnd as [Ha Hnd].
    cbn [map setdefault_append Py.contains_str existsb].
    destruct (String.eqb_spec k a) as [<- | Hka]; cbn [orb map].
    + rewrite String.eqb_refl. f_equal. apply map_ext_in. intros t Ht.
      destruct (String.eqb_spec t k) as [-> | _]; [contradiction | reflexivity].
    + rewrite IH; [| exact Hnd | intro Hk; apply Hf; intros [H | H]; congruence].
      fold (Py.contains_str k keys).
      destruct (Py.contains_str k keys); cbn [map app];
        (destruct (String.eqb_spec a k) as [-> | _]; [contradiction | reflexivity]).
Qed.

(** The per-pattern lists the report builds: one entry per pattern, in the
    order in which the patterns first occur. *)
Lemma pattern_lists (records : list (string * string * num)) :
  forall (keys : list string) (f : string -> list num),
    NoDup keys -> (forall p, ~ In p keys -> f p = []) ->
    fold_left (fun patterns task =>
                 setdefault_append patterns task.(collaboration_pattern)
                                   task.(performance))
              (map to_result records) (map (fun p => (p, f p)) keys)
    = map (fun p => (p, f p ++ performances_of_pattern p records))
          (AdvancedResearchAssistant.first_seen_from keys
             (map (fun r => snd (fst r)) records)).
Proof.
  induction records as [|r rs IH]; intros keys f Hnd Hf;
    cbn [map fold_left AdvancedResearchAssistant.first_seen_from].
  - apply map_ext. intro p. unfold performances_of_pattern. cbn [filter map].
    rewrite app_nil_r. reflexivity.
  - cbn [to_result collaboration_pattern performance].
    rewrite pattern_append by auto. rewrite IH.
    + apply map_ext. intro p. unfold performances_of_pattern. cbn [filter].
      rewrite (String.eqb_sym p).
      destruct (String.eqb (snd (fst r)) p); cbn [map];
        [rewrite <- app_assoc |]; reflexivity.
    + apply first_seen_step_NoDup, Hnd.
    + intros p Hp. destruct (String.eqb_spec p (snd (fst r))) as [-> | _].
      * exfalso. apply Hp. destruct (Py.contains_str _ keys) eqn:Ec.
        -- apply contains_str_In, Ec.
        -- apply in_or_app. right. left. reflexivity.
      * apply Hf. intro Hin. apply Hp.
        destruct (Py.contains_str _ keys); [exact Hin | apply in_or_app; left; exact Hin].
Qed.

Lemma pattern_has_performances (p : string) (records : list (string * string * num)) :
  In p (map (fun r => snd (fst r)) records) -> performances_of_pattern p records <> [].
Proof.
  intro Hin. apply in_map_iff in Hin. destruct Hin as (r & <- & Hr).
  unfold performances_of_pattern.
  assert (H : In r (filter (fun r0 => String.eqb (snd (fst r0)) (snd (fst r))) records))
    by (apply filter_In; split; [exact Hr | apply String.eqb_refl]).
  destruct (filter _ records); [destruct H | discriminate].
Qed.

(** The per-pattern averages: the loop never divides by zero. *)
Lemma pattern_averages (patterns : list (string * list num)) :
  Forall (fun pp => snd pp <> []) patterns ->
  forall averages : list (string * num),
    AdvancedResearchAssistant.for_each
      (fun averages pp =>
         average <- mean (snd (pp : string * list num)) ;;
         Py.ret (averages ++ [(fst pp, average)]))
      patterns averages
    = inr (averages ++ map (fun pp => (fst pp, computed_mean (snd pp))) patterns).
Proof.
  induction 1 as [|pp patterns Hpp _ IH]; intro averages;
    cbn [AdvancedResearchAssistant.for_each map].
  - rewrite app_nil_r. reflexivity.
  - rewrite (mean_of_nonempty _ Hpp). cbn [Py.bind Py.ret].
    rewrite IH, <- app_assoc. reflexivity.
Qed.

Lemma successes_counted (records : list (string * string * num)) :
  length (filter success (map to_result records))
  = length (filter (fun r => num_ltb num_0_7 (snd r)) records).
Proof.
  induction records as [|r rs IH]; [reflexivity |].
  cbn [map filter to_result success].
  destruct (num_ltb num_0_7 (snd r)); cbn [length]; rewrite IH; reflexivity.
Qed.

Lemma tier_without_performances (tier : string) (records : list (string * string * num)) :
  (forall rec, In rec records -> fst (fst rec) <> tier) ->
  performances_of_tier tier records = [].
Proof.
  intro H. unfold performances_of_tier.
  induction records as [|r rs IH]; [reflexivity |].
  cbn [filter].
  destruct (String.eqb_spec (fst (fst r)) tier) as [E | _].
  - exfalso. exact (H r (or_introl eq_refl) E).
  - apply IH. intros rec Hrec. apply H. right. exact Hrec.
Qed.

(** The whole report after a non-empty sequence of outcomes whose tiers are
    [low], [medium] or [high], in any arithmetic. *)
Lemma report_fields (records : list (string * string * num)) :
  records <> [] ->
  Forall (fun r => In (fst (fst r)) ["low"; "medium"; "high"]) records ->
  exists r, get_performance_analytics (after_tasks records) = inr (Report r) /\
    r.(total_tasks) = Py.len records /\
    r.(success_rate)
      = num_div (num_of_int (Py.len (filter (fun rec => num_ltb num_0_7 (snd rec))
                                            records)))
                (num_of_int (Py.len records)) /\
    r.(average_performance) = computed_mean (map snd records) /\
    r.(complexity_performance)
      = map (fun tier => (tier, match performances_of_tier tier records with
                                | [] => num_of_int 0
                                | _ :: _ => computed_mean (performances_of_tier tier records)
                                end))
            ["low"; "medium"; "high"] /\
    r.(team_pattern_performance)
      = map (fun pattern => (pattern, computed_mean (performances_of_pattern pattern records)))
            (AdvancedResearchAssistant.first_seen (map (fun rec => snd (fst rec)) records)) /\
    r.(best_performing_pattern)
      = match r.(team_pattern_performance) with
        | [] => None
        | first :: others => Some (fst (max_by_value first others))
        end.
Proof.
  intros Hne Hall. unfold get_performance_analytics.
  destruct (stored_tasks records) as [-> ->].
  assert (Hne' : map to_result records <> [])
    by (intro E; apply map_eq_nil in E; contradiction).
  destruct records as [|r0 rs]; [contradiction |].
  set (records := r0 :: rs) in *.
  change (map to_result records) with (to_result r0 :: map to_result rs) at 1.
  cbv iota.
  rewrite (div_by_length _ _ Hne'). cbn [Py.bind].
  rewrite mean_of_nonempty
    by (intro E; apply map_eq_nil in E; contradiction).
  cbn [Py.bind].
  assert (Hnd : NoDup ["low"; "medium"; "high"]).
  { repeat constructor; cbn [In]; intros H;
      repeat (destruct H as [H | H]; [discriminate H |]); exact H. }
  pose proof (tier_lists ["low"; "medium"; "high"] records Hnd Hall (fun _ => []))
    as Hstats.
  cbn [map app] in Hstats. rewrite Hstats. cbn [Py.bind].
  rewrite tier_averages. cbn [Py.bind app map fst snd].
  pose proof (pattern_lists records [] (fun _ => []) (NoDup_nil _) (fun _ _ => eq_refl))
    as Hpat.
  cbn [map app] in Hpat.
  fold (AdvancedResearchAssistant.first_seen (map (fun r => snd (fst r)) records)) in Hpat.
  rewrite Hpat. rewrite pattern_averages.
  - cbn [Py.bind app]. rewrite map_map. cbn [fst snd].
    eexists. split; [reflexivity |].
    cbn [total_tasks success_rate average_performance complexity_performance
         team_pattern_performance best_performing_pattern].
    unfold Py.len. rewrite successes_counted, !length_map.
    repeat split.
  - apply Forall_forall. intros pp Hpp.
    apply in_map_iff in Hpp. destruct Hpp as (p & <- & Hp). cbn [snd].
    apply pattern_has_performances.
    apply first_seen_from_In in Hp. destruct Hp as [[] | Hp]. exact Hp.
Qed.

End ReportOnAnyArithmetic.

(** *** The best pattern *)

Section BestPattern.

Import PerformanceAnalytics.
Context {num : Type} {arith : Arith num}.

(** [a <= b], and what the argument needs of the two comparisons; all of
    it holds of binary64, not-a-number included. *)
Variable leb : num -> num -> bool.
Hypothesis ltb_irreflexive : forall a : num, num_ltb a a = false.
Hypothesis ltb_gives_leb : forall a b : num, num_ltb a b = true -> leb a b = true.
Hypothesis below_stays_below : forall b x y : num,
  num_ltb b y = false -> num_ltb b x = true -> leb x y = false.

(** [max] with a key returns the first item whose key is the greatest: no
    item before it is at least as great, no item after it is greater. *)
Lemma max_first_greatest (others : list (string * num)) :
  forall (before : list (string * num)) (best : string * num) (mid : list (string * num)),
    Forall (fun x => leb (snd best) (snd x) = false) before ->
    Forall (fun x => num_ltb (snd best) (snd x) = false) mid ->
    exists before' after',
      before ++ best :: mid ++ others
      = before' ++ max_by_value best others :: after' /\
      Forall (fun x => leb (snd (max_by_value best others)) (snd x) = false) before' /\
      Forall (fun x => num_ltb (snd (max_by_value best others)) (snd x) = false) after'.
Proof.
  unfold max_by_value.
  induction others as [|x xs IH]; intros before best mid Hb Hm; cbn [fold_left].
  - exists before, mid. rewrite app_nil_r. repeat split; assumption.
  - destruct (num_ltb (snd best) (snd x)) eqn:E.
    + destruct (IH (before ++ best :: mid) x []) as (b' & a' & Heq & H1 & H2).
      * apply Forall_app. split; [| constructor].
        -- apply (Forall_impl _ (P := fun y => leb (snd best) (snd y) = false));
             [| exact Hb].
           intros y Hy. apply (below_stays_below (snd best)); [| exact E].
           destruct (num_ltb (snd best) (snd y)) eqn:Ey; [| reflexivity].
           rewrite (ltb_gives_leb _ _ Ey) in Hy. discriminate Hy.
        -- exact (below_stays_below _ _ _ (ltb_irreflexive (snd best)) E).
        -- apply (Forall_impl _ (P := fun y => num_ltb (snd best) (snd y) = false));
             [| exact Hm].
           intros y Hy. exact (below_stays_below _ _ _ Hy E).
      * constructor.
      * exists b', a'. split; [| split; assumption].
        rewrite <- Heq. cbn [app]. rewrite <- app_assoc. reflexivity.
    + destruct (IH before best (mid ++ [x])) as (b' & a' & Heq & H1 & H2).
      * exact Hb.
      * apply Forall_app. split; [exact Hm | constructor; [exact E | constructor]].
      * exists b', a'. split; [| split; assumption].
        rewrite <- Heq, <- app_assoc. reflexivity.
Qed.

End BestPattern.

(** *** The comparisons of binary64 *)

Section Binary64Order.

Lemma SFltb_irreflexive (a : spec_float) : SFltb a a = false.
Proof.
  unfold SFltb, SFcompare.
  destruct a as [s | s | | s m e]; try destruct s; try reflexivity;
    rewrite Z.compare_refl, Pos.compare_cont_refl; reflexivity.
Qed.

Lemma SFltb_gives_SFleb (a b : spec_float) : SFltb a b = true -> SFleb a b = true.
Proof.
  unfold SFltb, SFleb. destruct (SFcompare a b) as [[| |]|]; congruence.
Qed.

Lemma SF_below_stays_below (b x y : spec_float) :
  SFltb b y = false -> SFltb b x = true -> SFleb x y = false.
Proof.
  unfold SFltb, SFleb, SFcompare.
  destruct b as [sb | sb | | sb mb eb], x as [sx | sx | | sx mx ex],
           y as [sy | sy | | sy my ey];
    try destruct sb; try destruct sx; try destruct sy;
    try discriminate; try reflexivity;
    intros H1 H2;
    repeat match goal with
    | H : context [(?a ?= ?b)%Z] |- _ => destruct (Z.compare_spec a b)
    | |- context [(?a ?= ?b)%Z] => destruct (Z.compare_spec a b)
    | H : context [Pos.compare_cont Eq ?a ?b] |- _ =>
        change (Pos.compare_cont Eq a b) with (Pos.compare a b) in H;
        destruct (Pos.compare_spec a b)
    | |- context [Pos.compare_cont Eq ?a ?b] =>
        change (Pos.compare_cont Eq a b) with (Pos.compare a b);
        destruct (Pos.compare_spec a b)
    end;
    cbn [CompOpp] in *; try discriminate; try reflexivity; lia.
Qed.

Lemma float_ltb_irreflexive (a : float) : (a <? a)%float = false.
Proof. rewrite ltb_spec. apply SFltb_irreflexive. Qed.

Lemma float_ltb_gives_leb (a b : float) :
  (a <? b)%float = true -> (a <=? b)%float = true.
Proof. rewrite ltb_spec, leb_spec. apply SFltb_gives_SFleb. Qed.

Lemma float_below_stays_below (b x y : float) :
  (b <? y)%float = false -> (b <? x)%float = true -> (x <=? y)%float = false.
Proof. rewrite !ltb_spec, leb_spec. apply SF_below_stays_below. Qed.

End Binary64Order.

(** *** The report on binary64 *)

Section AnalyticsOnBinary64.

Import PerformanceAnalytics.



(** The averages decide as the code rounds them: the three performances of
    A sum to 0.6000000000000001 and average above the 0.2 of B, so A is the
    best pattern, while with exact averages the two tie and B, seen first,
    would be. *)
Example rounded_average_decides_best_pattern :
  (exists r,
     get_performance_analytics
       (after_tasks [("low", "B", 0.2%float); ("low", "A", 0.1%float);
                     ("low", "A", 0.2%float); ("low", "A", 0.3%float)])
     = inr (Report r) /\
     r.(team_pattern_performance) = [("B", 0.2%float); ("A", 0.20000000000000004%float)] /\
     r.(best_performing_pattern) = Some "A") /\
  (exists r,
     AdvancedResearchAssistant.get_performance_analytics
       (AdvancedResearchAssistant.after_tasks
          [("low", "B", 2 # 10); ("low", "A", 1 # 10);
           ("low", "A", 2 # 10); ("low", "A", 3 # 10)])
     = inr (AdvancedResearchAssistant.Report r) /\
     r.(AdvancedResearchAssistant.best_performing_pattern) = Some "B").
Proof.
  split; eexists; (split; [vm_compute; reflexivity |]); [split |]; reflexivity.
Qed.

(** Two patterns with the same binary64 average: the one recorded first is
    the best. *)
Example equal_averages_keep_first_pattern :
  exists r,
    get_performance_analytics
      (after_tasks [("low", "B", 0.8%float); ("high", "A", 0.8%float)])
    = inr (Report r) /\
    r.(team_pattern_performance) = [("B", 0.8%float); ("A", 0.8%float)] /\
    r.(best_performing_pattern) = Some "B".
Proof.
  eexists. split; [vm_compute; reflexivity |]. split; reflexivity.
Qed.



End AnalyticsOnBinary64.
